(** * Pacman engine: a shallow embedding of [game.py] and [pacman.py]

    The development follows the two Python modules.  Python objects that a
    transition can share between a state and its successor (the matrix
    behind the food grid, [Configuration] objects and the [_eaten] list)
    live in an explicit store; everything [GameStateData.__init__] copies
    (the capsule list, each [AgentState]) is a value of the state record.

    Numbers.  Scores, timers and list indices are Python [int]s, modelled
    by [Z].  Coordinates are Python numbers that start as integers and move
    by steps of 1 or 0.5; they are modelled by exact rationals [Q], on which
    such steps agree with binary floating point.  Where the code indexes a
    list the kind of number matters ([int] or [float]); there the tagged
    type [pynum] is used. *)

From Stdlib Require Import ZArith QArith Qabs List Lia Bool.
From Stdlib Require String.
Import ListNotations.
Open Scope Z_scope.

(** ** Python primitives *)

Module Py.

Inductive exn :=
| TypeError
| IndexError
| ValueError
| ZeroDivisionError
| Exception (msg : String.string)
| Dangling. (* a reference outside the store; no Python run raises it *)

Inductive result (A : Type) :=
| Ok (a : A)
| Raise (e : exn).
Arguments Ok {A} a.
Arguments Raise {A} e.

Definition bind {A B} (m : result A) (k : A -> result B) : result B :=
  match m with
  | Ok a => k a
  | Raise e => Raise e
  end.

(** A number as an index sees it: an [int] or a [float]. *)
Inductive pynum :=
| PyInt (z : Z)
| PyFloat (q : Q).

(** [a / b] on two ints: true division, always a float. *)
Definition truediv (a b : Z) : result pynum :=
  if b =? 0 then Raise ZeroDivisionError
  else Ok (PyFloat (inject_Z a / inject_Z b)%Q).

(** [a % b] on two ints; the result has the sign of [b], as [Z.modulo]. *)
Definition mod_ (a b : Z) : result Z :=
  if b =? 0 then Raise ZeroDivisionError else Ok (a mod b).

(** [a // b] on two ints. *)
Definition floordiv (a b : Z) : result Z :=
  if b =? 0 then Raise ZeroDivisionError else Ok (a / b).

(** [int(q)]: truncation toward zero. *)
Definition int (q : Q) : Z := Z.quot (Qnum q) (Z.pos (Qden q)).

(** Comparisons of coordinates. *)
Definition Qgtb (a b : Q) : bool := negb (Qle_bool a b).
Definition Qltb (a b : Q) : bool := negb (Qle_bool b a).

(** [range(n)] and [range(a, b)]. *)
Definition range (n : Z) : list Z := map Z.of_nat (seq 0 (Z.to_nat n)).
Definition range2 (a b : Z) : list Z :=
  map (fun k => a + Z.of_nat k) (seq 0 (Z.to_nat (b - a))).

Definition len {A} (l : list A) : Z := Z.of_nat (length l).

(** The position a Python int index denotes in a list of length [n]:
    negative indices count from the end. *)
Definition slot (n : nat) (i : Z) : option nat :=
  if (0 <=? i) && (i <? Z.of_nat n) then Some (Z.to_nat i)
  else if (- Z.of_nat n <=? i) && (i <? 0) then Some (Z.to_nat (Z.of_nat n + i))
  else None.

(** [l[i]] for an int [i]. *)
Definition index {A} (l : list A) (i : Z) : result A :=
  match slot (length l) i with
  | Some k =>
      match nth_error l k with
      | Some a => Ok a
      | None => Raise IndexError
      end
  | None => Raise IndexError
  end.

Fixpoint update {A} (l : list A) (k : nat) (v : A) : list A :=
  match l, k with
  | [], _ => []
  | _ :: t, O => v :: t
  | a :: t, S k' => a :: update t k' v
  end.

(** [l[i] = v] for an int [i]. *)
Definition assign {A} (l : list A) (i : Z) (v : A) : result (list A) :=
  match slot (length l) i with
  | Some k => Ok (update l k v)
  | None => Raise IndexError
  end.

(** [l[i]] and [l[i] = v] for any number: a float index is a [TypeError]. *)
Definition getitem {A} (l : list A) (i : pynum) : result A :=
  match i with
  | PyInt z => index l z
  | PyFloat _ => Raise TypeError
  end.

Definition setitem {A} (l : list A) (i : pynum) (v : A) : result (list A) :=
  match i with
  | PyInt z => assign l z v
  | PyFloat _ => Raise TypeError
  end.

(** [for a in l: s = body(a, s)], stopping at the first exception. *)
Fixpoint for_ {A S} (l : list A) (body : A -> S -> result S) (s : S)
  : result S :=
  match l with
  | [] => Ok s
  | a :: l' => bind (body a s) (for_ l' body)
  end.

(** [l.count(v)] and [sum] over ints. *)
Definition count_bool (v : bool) (l : list bool) : Z :=
  Z.of_nat (length (filter (Bool.eqb v) l)).

Definition sum (l : list Z) : Z := fold_right Z.add 0 l.

End Py.

Import Py.

Declare Scope py_scope.
Delimit Scope py_scope with py.
Notation "x <- m ;; k" := (bind m (fun x => k))
  (at level 61, m at next level, right associativity) : py_scope.
Notation "' p <- m ;; k" := (bind m (fun x => match x with p => k end))
  (at level 61, p pattern, m at next level, right associativity) : py_scope.
Open Scope py_scope.

(** ** game.py: Grid *)

Module Grid.

(** A [Grid] object; [D] is what its [data] attribute holds: the matrix
    itself, or a reference to a matrix in the store. *)
Record t (D : Type) := Make { width : Z; height : Z; data : D }.
Arguments Make {D} width height data.
Arguments width {D} _.
Arguments height {D} _.
Arguments data {D} _.

Definition matrix := list (list bool).
Definition grid := t matrix.

Definition CELLS_PER_INT : Z := 30.

(** [Grid(width, height, initialValue)] without a bit representation. *)
Definition init (w h : Z) (initialValue : bool) : grid :=
  Make w h (map (fun _ => map (fun _ => initialValue) (range h)) (range w)).

(** [self[i]] *)
Definition __getitem__ (g : grid) (i : pynum) : result (list bool) :=
  getitem (data g) i.

(** [self[x][y]] *)
Definition get (g : grid) (x y : pynum) : result bool :=
  col <- __getitem__ g x ;; getitem col y.

(** [self[x][y] = v]: the column object [self[x]] is updated in place. *)
Definition set (g : grid) (x y : pynum) (v : bool) : result grid :=
  col <- __getitem__ g x ;;
  col' <- setitem col y v ;;
  d <- setitem (data g) x col' ;;
  Ok (Make (width g) (height g) d).

(** [x = index / self.height; y = index % self.height] *)
Definition _cellIndexToPosition (g : grid) (index : Z)
  : result (pynum * pynum) :=
  x <- truediv index (height g) ;;
  y <- mod_ index (height g) ;;
  Ok (x, PyInt y).

(** The body of the loop of [packBits], on the pair [(bits, currentInt)]. *)
Definition packStep (g : grid) (i : Z) (s : list Z * Z)
  : result (list Z * Z) :=
  let '(bits, currentInt) := s in
  let bit := CELLS_PER_INT - (i mod CELLS_PER_INT) - 1 in
  '(x, y) <- _cellIndexToPosition g i ;;
  c <- get g x y ;;
  let currentInt := if c : bool then currentInt + 2 ^ bit else currentInt in
  if (i + 1) mod CELLS_PER_INT =? 0
  then Ok (bits ++ [currentInt], 0)
  else Ok (bits, currentInt).

Definition packBits (g : grid) : result (list Z) :=
  '(bits, currentInt) <-
     for_ (range (height g * width g)) (packStep g) ([width g; height g], 0) ;;
  Ok (bits ++ [currentInt]).

(** [_unpackInt(packed, size)]; the loop carries [(bools, packed)]. *)
Definition _unpackInt (packed : Z) (size : Z) : result (list bool) :=
  if packed <? 0 then Raise ValueError
  else
    '(bools, _) <-
       for_ (range size)
         (fun i '(bools, packed) =>
            let n := 2 ^ (CELLS_PER_INT - i - 1) in
            if packed >=? n then Ok (bools ++ [true], packed - n)
            else Ok (bools ++ [false], packed))
         ([], packed) ;;
    Ok bools.

(** The inner loop of [_unpackBits], with its [break]. *)
Fixpoint unpackCells (bools : list bool) (s : grid * Z) : result (grid * Z) :=
  match bools with
  | [] => Ok s
  | bit :: rest =>
      let '(g, cell) := s in
      if cell =? width g * height g then Ok s
      else
        '(x, y) <- _cellIndexToPosition g cell ;;
        g' <- set g x y bit ;;
        unpackCells rest (g', cell + 1)
  end.

Definition _unpackBits (g : grid) (bits : list Z) : result grid :=
  '(g', _) <-
     for_ bits
       (fun packed s =>
          bools <- _unpackInt packed CELLS_PER_INT ;;
          unpackCells bools s)
       (g, 0) ;;
  Ok g'.

(** [Grid(width, height, bitRepresentation=bits)]: an empty tuple is falsy. *)
Definition initFromBits (w h : Z) (bits : list Z) : result grid :=
  match bits with
  | [] => Ok (init w h false)
  | _ => _unpackBits (init w h false) bits
  end.

(** [reconstituteGrid] on a tuple. *)
Definition reconstituteGrid (bitRep : list Z) : result grid :=
  match bitRep with
  | w :: h :: rest => initFromBits w h rest
  | _ => Raise ValueError
  end.

(** [Grid.__eq__] compares the [data] lists. *)
Definition eq (g1 g2 : grid) : Prop := data g1 = data g2.

(** [self.count(item)] *)
Definition count (d : matrix) (item : bool) : Z :=
  sum (map (count_bool item) d).

(** [self.asList(key)]: the two nested loops, appending to one list. *)
Definition asList (g : grid) (key : bool) : result (list (Z * Z)) :=
  for_ (range (width g))
    (fun x list =>
       for_ (range (height g))
         (fun y list =>
            c <- get g (PyInt x) (PyInt y) ;;
            if Bool.eqb c key then Ok (list ++ [(x, y)]) else Ok list)
         list)
    [].

End Grid.


(** ** util.py *)

Module Util.

(** Modelled from the spec: [util.py] is not among the sources.  The spec
    speaks of "the nearest grid-aligned point" and of the "Manhattan
    distance"; [nearestPoint] rounds each coordinate as
    [Actions.getPossibleActions] does in [game.py], by [int(x + 0.5)]. *)
Definition nearestPoint (pos : Q * Q) : Z * Z :=
  (int (fst pos + (1 # 2)), int (snd pos + (1 # 2))).

Definition manhattanDistance (xy1 xy2 : Q * Q) : Q :=
  (Qabs (fst xy1 - fst xy2) + Qabs (snd xy1 - snd xy2))%Q.

(** An int tuple read as a pair of coordinates. *)
Definition point (p : Z * Z) : Q * Q := (inject_Z (fst p), inject_Z (snd p)).

End Util.

(** ** game.py: Directions, Configuration, AgentState *)

Module Directions.

Inductive t := NORTH | SOUTH | EAST | WEST | STOP.

Definition eqb (a b : t) : bool :=
  match a, b with
  | NORTH, NORTH | SOUTH, SOUTH | EAST, EAST | WEST, WEST | STOP, STOP => true
  | _, _ => false
  end.

(** [x in l] and [l.remove(x)] (the first occurrence) on lists of actions. *)
Definition mem (x : t) (l : list t) : bool := existsb (eqb x) l.

Fixpoint remove (x : t) (l : list t) : list t :=
  match l with
  | [] => []
  | a :: l' => if eqb x a then l' else a :: remove x l'
  end.

(** A dictionary from directions to directions: its items in insertion
    order, no key twice. *)
Definition table := list (t * t).

(** [d[k] = v] *)
Fixpoint table_set (d : table) (k v : t) : table :=
  match d with
  | [] => [(k, v)]
  | (k', v') :: d' =>
      if eqb k k' then (k', v) :: d' else (k', v') :: table_set d' k v
  end.

(** [dict(items)] *)
Definition table_of (items : list (t * t)) : table :=
  fold_left (fun d '(k, v) => table_set d k v) items [].

(** [d[k]]; [None] stands for [KeyError]. *)
Fixpoint table_get (d : table) (k : t) : option t :=
  match d with
  | [] => None
  | (k', v) :: d' => if eqb k k' then Some v else table_get d' k
  end.

Definition LEFT : table :=
  table_of [(NORTH, WEST); (SOUTH, EAST); (EAST, NORTH); (WEST, SOUTH);
            (STOP, STOP)].

(** [dict([(y, x) for x, y in LEFT.items()])] *)
Definition RIGHT : table := table_of (map (fun '(x, y) => (y, x)) LEFT).

Definition REVERSE : table :=
  table_of [(NORTH, SOUTH); (SOUTH, NORTH); (EAST, WEST); (WEST, EAST);
            (STOP, STOP)].

End Directions.

Definition ref := nat.

Module Configuration.

Record t := Make { pos : Q * Q; direction : Directions.t }.

Definition getPosition (self : t) : Q * Q := pos self.
Definition getDirection (self : t) : Directions.t := direction self.

End Configuration.

Module AgentState.

(** [start] and [configuration] refer to [Configuration] objects. *)
Record t := Make {
  start : ref;
  configuration : ref;
  isPacman : bool;
  scaredTimer : Z;
  numCarrying : Z;
  numReturned : Z
}.

Definition copy (self : t) : t :=
  Make (start self) (configuration self) (isPacman self)
       (scaredTimer self) (numCarrying self) (numReturned self).

Definition with_configuration (self : t) (c : ref) : t :=
  Make (start self) c (isPacman self)
       (scaredTimer self) (numCarrying self) (numReturned self).

Definition with_scaredTimer (self : t) (n : Z) : t :=
  Make (start self) (configuration self) (isPacman self)
       n (numCarrying self) (numReturned self).

End AgentState.

(** ** The store of shared objects *)

Module Store.

Record t := Make {
  configs : list Configuration.t;
  eatens : list (list bool);
  matrices : list Grid.matrix
}.

End Store.

(** Computations that read and write the store and may raise. *)
Definition M (A : Type) : Type := Store.t -> result (A * Store.t).

Definition ret {A} (a : A) : M A := fun h => Ok (a, h).

Definition raise {A} (e : exn) : M A := fun _ => Raise e.

Definition bindM {A B} (m : M A) (k : A -> M B) : M B :=
  fun h =>
    match m h with
    | Ok (a, h') => k a h'
    | Raise e => Raise e
    end.

Definition lift {A} (r : result A) : M A :=
  fun h =>
    match r with
    | Ok a => Ok (a, h)
    | Raise e => Raise e
    end.

Notation "x <~ m ;; k" := (bindM m (fun x => k))
  (at level 61, m at next level, right associativity) : py_scope.

Fixpoint forM {A S} (l : list A) (body : A -> S -> M S) (s : S) : M S :=
  match l with
  | [] => ret s
  | a :: l' => bindM (body a s) (forM l' body)
  end.

Definition deref {A} (l : list A) (r : ref) : result A :=
  match nth_error l r with
  | Some a => Ok a
  | None => Raise Dangling
  end.

Definition getConfig (r : ref) : M Configuration.t :=
  fun h => lift (deref (Store.configs h) r) h.

Definition newConfig (c : Configuration.t) : M ref :=
  fun h =>
    Ok (length (Store.configs h),
        Store.Make (Store.configs h ++ [c]) (Store.eatens h) (Store.matrices h)).

Definition putConfig (r : ref) (c : Configuration.t) : M unit :=
  fun h =>
    if (r <? length (Store.configs h))%nat
    then Ok (tt, Store.Make (update (Store.configs h) r c)
                            (Store.eatens h) (Store.matrices h))
    else Raise Dangling.

Definition getEaten (r : ref) : M (list bool) :=
  fun h => lift (deref (Store.eatens h) r) h.

Definition newEaten (l : list bool) : M ref :=
  fun h =>
    Ok (length (Store.eatens h),
        Store.Make (Store.configs h) (Store.eatens h ++ [l]) (Store.matrices h)).

Definition putEaten (r : ref) (l : list bool) : M unit :=
  fun h =>
    if (r <? length (Store.eatens h))%nat
    then Ok (tt, Store.Make (Store.configs h)
                            (update (Store.eatens h) r l) (Store.matrices h))
    else Raise Dangling.

Definition getMatrix (r : ref) : M Grid.matrix :=
  fun h => lift (deref (Store.matrices h) r) h.

Definition newMatrix (m : Grid.matrix) : M ref :=
  fun h =>
    Ok (length (Store.matrices h),
        Store.Make (Store.configs h) (Store.eatens h) (Store.matrices h ++ [m])).

Definition putMatrix (r : ref) (m : Grid.matrix) : M unit :=
  fun h =>
    if (r <? length (Store.matrices h))%nat
    then Ok (tt, Store.Make (Store.configs h) (Store.eatens h)
                            (update (Store.matrices h) r m))
    else Raise Dangling.

(** ** game.py: Grid objects whose matrix is shared through the store *)

Module GridRef.

Definition t := Grid.t ref.

(** [g = Grid(w, h); g.data = self.data] *)
Definition shallowCopy (self : t) : t :=
  Grid.Make (Grid.width self) (Grid.height self) (Grid.data self).

(** [g = Grid(w, h); g.data = [x[:] for x in self.data]] *)
Definition copy (self : t) : M t :=
  m <~ getMatrix (Grid.data self) ;;
  r <~ newMatrix (map (fun x => x) m) ;;
  ret (Grid.Make (Grid.width self) (Grid.height self) r).

Definition view (self : t) : M Grid.grid :=
  m <~ getMatrix (Grid.data self) ;;
  ret (Grid.Make (Grid.width self) (Grid.height self) m).

(** [self[x][y]] *)
Definition get (self : t) (x y : pynum) : M bool :=
  g <~ view self ;; lift (Grid.get g x y).

(** [self[x][y] = v] *)
Definition set (self : t) (x y : pynum) (v : bool) : M unit :=
  g <~ view self ;;
  g' <~ lift (Grid.set g x y v) ;;
  putMatrix (Grid.data self) (Grid.data g').

(** [self.count()] *)
Definition count (self : t) : M Z :=
  m <~ getMatrix (Grid.data self) ;; ret (Grid.count m true).

End GridRef.

(** ** game.py: Actions *)

Module Actions.

Import Directions.

Definition _directions (d : Directions.t) : Z * Z :=
  match d with
  | NORTH => (0, 1)
  | SOUTH => (0, -1)
  | EAST => (1, 0)
  | WEST => (-1, 0)
  | STOP => (0, 0)
  end.

(** The items of the dictionary, in insertion order. *)
Definition _directionsAsList : list (Directions.t * (Z * Z)) :=
  map (fun d => (d, _directions d)) [NORTH; SOUTH; EAST; WEST; STOP].

Definition TOLERANCE : Q := 1 # 1000.

Definition reverseDirection (action : Directions.t) : Directions.t :=
  match action with
  | NORTH => SOUTH
  | SOUTH => NORTH
  | EAST => WEST
  | WEST => EAST
  | STOP => STOP
  end.

Definition vectorToDirection (vector : Q * Q) : Directions.t :=
  let '(dx, dy) := vector in
  if Qgtb dy 0 then NORTH
  else if Qltb dy 0 then SOUTH
  else if Qltb dx 0 then WEST
  else if Qgtb dx 0 then EAST
  else STOP.

Definition directionToVector (direction : Directions.t) (speed : Q) : Q * Q :=
  let '(dx, dy) := _directions direction in
  (inject_Z dx * speed, inject_Z dy * speed)%Q.

Definition getPossibleActions (config : Configuration.t) (walls : Grid.grid)
  : result (list Directions.t) :=
  let '(x, y) := Configuration.pos config in
  let x_int := int (x + (1 # 2)) in
  let y_int := int (y + (1 # 2)) in
  if Qgtb (Qabs (x - inject_Z x_int) + Qabs (y - inject_Z y_int)) TOLERANCE
  then Ok [Configuration.getDirection config]
  else
    for_ _directionsAsList
      (fun '(dir, (dx, dy)) possible =>
         let next_y := y_int + dy in
         let next_x := x_int + dx in
         w <- Grid.get walls (PyInt next_x) (PyInt next_y) ;;
         if negb w then Ok (possible ++ [dir]) else Ok possible)
      [].

Definition getLegalNeighbors (position : Q * Q) (walls : Grid.grid)
  : result (list (Z * Z)) :=
  let '(x, y) := position in
  let x_int := int (x + (1 # 2)) in
  let y_int := int (y + (1 # 2)) in
  for_ _directionsAsList
    (fun '(dir, (dx, dy)) neighbors =>
       let next_x := x_int + dx in
       if (next_x <? 0) || (next_x =? Grid.width walls) then Ok neighbors
       else
         let next_y := y_int + dy in
         if (next_y <? 0) || (next_y =? Grid.height walls) then Ok neighbors
         else
           w <- Grid.get walls (PyInt next_x) (PyInt next_y) ;;
           if negb w then Ok (neighbors ++ [(next_x, next_y)])
           else Ok neighbors)
    [].

End Actions.

(** ** game.py: Configuration objects in the store *)

Module ConfigRef.

(** [Configuration.generateSuccessor]: it builds a new object. *)
Definition generateSuccessor (self : ref) (vector : Q * Q) : M ref :=
  c <~ getConfig self ;;
  let '(x, y) := Configuration.pos c in
  let '(dx, dy) := vector in
  let direction := Actions.vectorToDirection vector in
  let direction :=
    if Directions.eqb direction Directions.STOP
    then Configuration.direction c else direction in
  newConfig (Configuration.Make (x + dx, y + dy)%Q direction).

End ConfigRef.

(** ** game.py: GameStateData *)

Module Layout.

(** Modelled from the spec: [layout.py] is not among the sources; a layout
    is "an opaque structure describing walls/food/capsules/start positions",
    of which the rules read the walls. *)
Record t := Make { walls : Grid.grid }.

End Layout.

Module GameStateData.

Record t := Make {
  food : GridRef.t;
  capsules : list (Z * Z);
  agentStates : list AgentState.t;
  layout : Layout.t;
  _eaten : ref;
  score : Z;
  _foodEaten : option (Z * Z);
  _foodAdded : option (Z * Z);
  _capsuleEaten : option (Z * Z);
  _agentMoved : option Z;
  _lose : bool;
  _win : bool;
  scoreChange : Z
}.

Definition copyAgentStates (agentStates : list AgentState.t)
  : list AgentState.t :=
  fold_left (fun copiedStates agentState =>
               copiedStates ++ [AgentState.copy agentState])
            agentStates [].

(** [GameStateData(prevState)] *)
Definition __init__ (prevState : t) : t :=
  Make (GridRef.shallowCopy (food prevState))
       (capsules prevState)
       (copyAgentStates (agentStates prevState))
       (layout prevState)
       (_eaten prevState)
       (score prevState)
       None None None None false false 0.

Definition set_food v (d : t) : t :=
  Make v (capsules d) (agentStates d) (layout d) (_eaten d) (score d)
       (_foodEaten d) (_foodAdded d) (_capsuleEaten d) (_agentMoved d)
       (_lose d) (_win d) (scoreChange d).

Definition set_capsules v (d : t) : t :=
  Make (food d) v (agentStates d) (layout d) (_eaten d) (score d)
       (_foodEaten d) (_foodAdded d) (_capsuleEaten d) (_agentMoved d)
       (_lose d) (_win d) (scoreChange d).

Definition set_agentStates v (d : t) : t :=
  Make (food d) (capsules d) v (layout d) (_eaten d) (score d)
       (_foodEaten d) (_foodAdded d) (_capsuleEaten d) (_agentMoved d)
       (_lose d) (_win d) (scoreChange d).

Definition set__eaten v (d : t) : t :=
  Make (food d) (capsules d) (agentStates d) (layout d) v (score d)
       (_foodEaten d) (_foodAdded d) (_capsuleEaten d) (_agentMoved d)
       (_lose d) (_win d) (scoreChange d).

Definition set_score v (d : t) : t :=
  Make (food d) (capsules d) (agentStates d) (layout d) (_eaten d) v
       (_foodEaten d) (_foodAdded d) (_capsuleEaten d) (_agentMoved d)
       (_lose d) (_win d) (scoreChange d).

Definition set__foodEaten v (d : t) : t :=
  Make (food d) (capsules d) (agentStates d) (layout d) (_eaten d) (score d)
       v (_foodAdded d) (_capsuleEaten d) (_agentMoved d)
       (_lose d) (_win d) (scoreChange d).

Definition set__capsuleEaten v (d : t) : t :=
  Make (food d) (capsules d) (agentStates d) (layout d) (_eaten d) (score d)
       (_foodEaten d) (_foodAdded d) v (_agentMoved d)
       (_lose d) (_win d) (scoreChange d).

Definition set__agentMoved v (d : t) : t :=
  Make (food d) (capsules d) (agentStates d) (layout d) (_eaten d) (score d)
       (_foodEaten d) (_foodAdded d) (_capsuleEaten d) v
       (_lose d) (_win d) (scoreChange d).

Definition set__lose v (d : t) : t :=
  Make (food d) (capsules d) (agentStates d) (layout d) (_eaten d) (score d)
       (_foodEaten d) (_foodAdded d) (_capsuleEaten d) (_agentMoved d)
       v (_win d) (scoreChange d).

Definition set__win v (d : t) : t :=
  Make (food d) (capsules d) (agentStates d) (layout d) (_eaten d) (score d)
       (_foodEaten d) (_foodAdded d) (_capsuleEaten d) (_agentMoved d)
       (_lose d) v (scoreChange d).

Definition set_scoreChange v (d : t) : t :=
  Make (food d) (capsules d) (agentStates d) (layout d) (_eaten d) (score d)
       (_foodEaten d) (_foodAdded d) (_capsuleEaten d) (_agentMoved d)
       (_lose d) (_win d) v.

End GameStateData.

(** ** pacman.py: GameState, accessors *)

Definition SCARED_TIME : Z := 40.
Definition COLLISION_TOLERANCE : Q := 7 # 10.
Definition TIME_PENALTY : Z := 1.

(** The messages of the exceptions the rules raise. *)
Module Msg.
Import String.
Local Open Scope string_scope.
Definition terminal : string :=
  "Can't generate a successor of a terminal state.".
Definition invalidGhost : string := "Invalid index passed to getGhostState".
Definition illegal : string := "Illegal action".
Definition illegalGhost : string := "Illegal ghost action".
Definition pacmanIndex : string := "Pacman's index passed to getGhostPosition".
End Msg.

Module GameState.

Import GameStateData.

Record t := Make { data : GameStateData.t }.

(** [GameState(prevState)] *)
Definition __init__ (prevState : t) : t :=
  Make (GameStateData.__init__ (data prevState)).

(** An assignment to an attribute of [state.data]. *)
Definition upd (f : GameStateData.t -> GameStateData.t) (state : t) : t :=
  Make (f (data state)).

Definition isLose (self : t) : bool := _lose (data self).
Definition isWin (self : t) : bool := _win (data self).

Definition getNumAgents (self : t) : Z := len (agentStates (data self)).

Definition getPacmanState (self : t) : result AgentState.t :=
  a <- index (agentStates (data self)) 0 ;; Ok (AgentState.copy a).

Definition getPosition (a : AgentState.t) : M (Q * Q) :=
  c <~ getConfig (AgentState.configuration a) ;;
  ret (Configuration.getPosition c).

Definition getPacmanPosition (self : t) : M (Q * Q) :=
  a <~ lift (index (agentStates (data self)) 0) ;; getPosition a.

Definition getGhostState (self : t) (agentIndex : Z) : result AgentState.t :=
  if (agentIndex =? 0) || (agentIndex >=? getNumAgents self)
  then Raise (Exception Msg.invalidGhost)
  else index (agentStates (data self)) agentIndex.

Definition getCapsules (self : t) : list (Z * Z) := capsules (data self).

Definition getNumFood (self : t) : M Z := GridRef.count (food (data self)).

Definition getWalls (self : t) : Grid.grid := Layout.walls (layout (data self)).

(** [state.data.agentStates[i] = a]: the write through which a change to
    the agent state object [state.data.agentStates[i]] reaches the state. *)
Definition putAgent (i : Z) (a : AgentState.t) (state : t) : result t :=
  l <- assign (agentStates (data state)) i a ;;
  Ok (upd (set_agentStates l) state).

(** [self.data.agentStates[1:]] *)
Definition getGhostStates (self : t) : list AgentState.t :=
  skipn 1 (agentStates (data self)).

Definition getGhostPosition (self : t) (agentIndex : Z) : M (Q * Q) :=
  if agentIndex =? 0 then raise (Exception Msg.pacmanIndex)
  else
    a <~ lift (index (agentStates (data self)) agentIndex) ;; getPosition a.

(** [[s.getPosition() for s in self.getGhostStates()]] *)
Definition getGhostPositions (self : t) : M (list (Q * Q)) :=
  forM (getGhostStates self)
       (fun s l => p <~ getPosition s ;; ret (l ++ [p]))
       [].

End GameState.

(** ** pacman.py: PacmanRules *)

Module PacmanRules.

Import GameStateData.

Definition PACMAN_SPEED : Q := 1.

Definition posEqb (p q : Z * Z) : bool :=
  (fst p =? fst q) && (snd p =? snd q).

(** [position in capsules] and [capsules.remove(position)]. *)
Definition memPos (p : Z * Z) (l : list (Z * Z)) : bool := existsb (posEqb p) l.

Fixpoint removePos (p : Z * Z) (l : list (Z * Z)) : list (Z * Z) :=
  match l with
  | [] => []
  | q :: l' => if posEqb p q then l' else q :: removePos p l'
  end.

Definition getLegalActions (state : GameState.t) : M (list Directions.t) :=
  a <~ lift (GameState.getPacmanState state) ;;
  conf <~ getConfig (AgentState.configuration a) ;;
  lift (Actions.getPossibleActions conf (GameState.getWalls state)).

(** [for index in range(1, len(agentStates)):
       agentStates[index].scaredTimer = SCARED_TIME] *)
Definition scareAll (state : GameState.t) : result GameState.t :=
  for_ (range2 1 (len (agentStates (GameState.data state))))
    (fun i state =>
       a <- index (agentStates (GameState.data state)) i ;;
       GameState.putAgent i (AgentState.with_scaredTimer a SCARED_TIME) state)
    state.

Definition consume (position : Z * Z) (state : GameState.t) : M GameState.t :=
  let '(x, y) := position in
  f <~ GridRef.get (food (GameState.data state)) (PyInt x) (PyInt y) ;;
  state <~
    (if f : bool then
       let state :=
         GameState.upd
           (fun d => set_scoreChange (scoreChange d + 10) d) state in
       g <~ GridRef.copy (food (GameState.data state)) ;;
       let state := GameState.upd (set_food g) state in
       _ <~ GridRef.set (food (GameState.data state)) (PyInt x) (PyInt y) false ;;
       let state := GameState.upd (set__foodEaten (Some position)) state in
       numFood <~ GameState.getNumFood state ;;
       if (numFood =? 0) && negb (_lose (GameState.data state))
       then
         ret (GameState.upd
                (fun d => set__win true (set_scoreChange (scoreChange d + 500) d))
                state)
       else ret state
     else ret state) ;;
  if memPos position (GameState.getCapsules state)
  then
    let state :=
      GameState.upd (fun d => set_capsules (removePos position (capsules d)) d)
                    state in
    let state := GameState.upd (set__capsuleEaten (Some position)) state in
    lift (scareAll state)
  else ret state.

Definition applyAction (state : GameState.t) (action : Directions.t)
  : M GameState.t :=
  legal <~ getLegalActions state ;;
  if negb (Directions.mem action legal)
  then raise (Exception Msg.illegal)
  else
    pacmanState <~ lift (index (agentStates (GameState.data state)) 0) ;;
    let vector := Actions.directionToVector action PACMAN_SPEED in
    c <~ ConfigRef.generateSuccessor (AgentState.configuration pacmanState) vector ;;
    let pacmanState := AgentState.with_configuration pacmanState c in
    state <~ lift (GameState.putAgent 0 pacmanState state) ;;
    next <~ GameState.getPosition pacmanState ;;
    let nearest := Util.nearestPoint next in
    if Qle_bool (Util.manhattanDistance (Util.point nearest) next) (1 # 2)
    then consume nearest state
    else ret state.

End PacmanRules.

(** ** pacman.py: GhostRules *)

Module GhostRules.

Import GameStateData.

Definition GHOST_SPEED : Q := 1.

Definition getLegalActions (state : GameState.t) (ghostIndex : Z)
  : M (list Directions.t) :=
  g <~ lift (GameState.getGhostState state ghostIndex) ;;
  conf <~ getConfig (AgentState.configuration g) ;;
  possibleActions <~
    lift (Actions.getPossibleActions conf (GameState.getWalls state)) ;;
  let reverse := Actions.reverseDirection (Configuration.direction conf) in
  let possibleActions :=
    if Directions.mem Directions.STOP possibleActions
    then Directions.remove Directions.STOP possibleActions
    else possibleActions in
  let possibleActions :=
    if Directions.mem reverse possibleActions && (len possibleActions >? 1)
    then Directions.remove reverse possibleActions
    else possibleActions in
  ret possibleActions.

Definition applyAction (state : GameState.t) (action : Directions.t)
  (ghostIndex : Z) : M GameState.t :=
  legal <~ getLegalActions state ghostIndex ;;
  if negb (Directions.mem action legal)
  then raise (Exception Msg.illegalGhost)
  else
    ghostState <~ lift (index (agentStates (GameState.data state)) ghostIndex) ;;
    let speed := GHOST_SPEED in
    let speed :=
      if AgentState.scaredTimer ghostState >? 0 then (speed / 2)%Q else speed in
    let vector := Actions.directionToVector action speed in
    c <~ ConfigRef.generateSuccessor
           (AgentState.configuration ghostState) vector ;;
    lift (GameState.putAgent ghostIndex
            (AgentState.with_configuration ghostState c) state).

(** [decrementTimer] changes the agent state it is given, and the
    [Configuration] object that state refers to. *)
Definition decrementTimer (ghostState : AgentState.t) : M AgentState.t :=
  let timer := AgentState.scaredTimer ghostState in
  _ <~ (if timer =? 1
        then
          c <~ getConfig (AgentState.configuration ghostState) ;;
          putConfig (AgentState.configuration ghostState)
            (Configuration.Make
               (Util.point (Util.nearestPoint (Configuration.pos c)))
               (Configuration.direction c))
        else ret tt) ;;
  ret (AgentState.with_scaredTimer ghostState (Z.max 0 (timer - 1))).

Definition canKill (pacmanPosition ghostPosition : Q * Q) : bool :=
  Qle_bool (Util.manhattanDistance ghostPosition pacmanPosition)
           COLLISION_TOLERANCE.

Definition placeGhost (ghostState : AgentState.t) : AgentState.t :=
  AgentState.with_configuration ghostState (AgentState.start ghostState).

(** [ghostState] is the object [state.data.agentStates[agentIndex]]. *)
Definition collide (state : GameState.t) (ghostState : AgentState.t)
  (agentIndex : Z) : M GameState.t :=
  if AgentState.scaredTimer ghostState >? 0
  then
    let state :=
      GameState.upd (fun d => set_scoreChange (scoreChange d + 200) d) state in
    let ghostState := placeGhost ghostState in
    let ghostState := AgentState.with_scaredTimer ghostState 0 in
    state <~ lift (GameState.putAgent agentIndex ghostState state) ;;
    l <~ getEaten (_eaten (GameState.data state)) ;;
    l' <~ lift (assign l agentIndex true) ;;
    _ <~ putEaten (_eaten (GameState.data state)) l' ;;
    ret state
  else
    if negb (_win (GameState.data state))
    then
      ret (GameState.upd
             (fun d => set__lose true (set_scoreChange (scoreChange d - 500) d))
             state)
    else ret state.

(** One pursuer checked against Pacman. *)
Definition checkOne (pacmanPosition : Q * Q) (index_ : Z) (state : GameState.t)
  : M GameState.t :=
  ghostState <~ lift (index (agentStates (GameState.data state)) index_) ;;
  ghostPosition <~ GameState.getPosition ghostState ;;
  if canKill pacmanPosition ghostPosition
  then collide state ghostState index_
  else ret state.

Definition checkDeath (state : GameState.t) (agentIndex : Z) : M GameState.t :=
  pacmanPosition <~ GameState.getPacmanPosition state ;;
  if agentIndex =? 0
  then
    forM (range2 1 (len (agentStates (GameState.data state))))
         (checkOne pacmanPosition) state
  else checkOne pacmanPosition agentIndex state.

End GhostRules.

(** ** pacman.py: GameState, the two operations on states

    [GameState.getLegalActions] and [GameState.generateSuccessor]; they come
    after the rules they dispatch to.  The class-level set [explored] takes
    no part in the rules and is left out. *)

Definition getLegalActions (self : GameState.t) (agentIndex : Z)
  : M (list Directions.t) :=
  if GameState.isWin self || GameState.isLose self then ret []
  else if agentIndex =? 0 then PacmanRules.getLegalActions self
  else GhostRules.getLegalActions self agentIndex.

Definition generateSuccessor (self : GameState.t) (agentIndex : Z)
  (action : Directions.t) : M GameState.t :=
  if GameState.isWin self || GameState.isLose self
  then raise (Exception Msg.terminal)
  else
    let state := GameState.__init__ self in
    state <~
      (if agentIndex =? 0
       then
         e <~ newEaten (map (fun _ => false) (range (GameState.getNumAgents state))) ;;
         let state := GameState.upd (GameStateData.set__eaten e) state in
         PacmanRules.applyAction state action
       else GhostRules.applyAction state action agentIndex) ;;
    state <~
      (if agentIndex =? 0
       then
         ret (GameState.upd
                (fun d => GameStateData.set_scoreChange
                            (GameStateData.scoreChange d + - TIME_PENALTY) d)
                state)
       else
         g <~ lift (index (GameStateData.agentStates (GameState.data state))
                          agentIndex) ;;
         g' <~ GhostRules.decrementTimer g ;;
         lift (GameState.putAgent agentIndex g' state)) ;;
    state <~ GhostRules.checkDeath state agentIndex ;;
    let state := GameState.upd (GameStateData.set__agentMoved (Some agentIndex)) state in
    let state :=
      GameState.upd
        (fun d => GameStateData.set_score
                    (GameStateData.score d + GameStateData.scoreChange d) d)
        state in
    ret state.

(** ** game.py and pacman.py: the [__eq__] methods

    [GameState.__eq__] compares the [data] of two states;
    [GameStateData.__eq__] compares the agent states, the food, the capsules
    and the score, in this order, and nothing else. *)

Module Eq.

(** [==] on two lists of the same kind of elements. *)
Fixpoint list_eqb {A} (eqb : A -> A -> bool) (l1 l2 : list A) : bool :=
  match l1, l2 with
  | [], [] => true
  | a :: l1', b :: l2' => eqb a b && list_eqb eqb l1' l2'
  | _, _ => false
  end.

(** [==] on two positions, tuples of numbers. *)
Definition position (p q : Q * Q) : bool :=
  Qeq_bool (fst p) (fst q) && Qeq_bool (snd p) (snd q).

(** [Configuration.__eq__] *)
Definition configuration (self other : Configuration.t) : bool :=
  position (Configuration.pos self) (Configuration.pos other)
  && Directions.eqb (Configuration.direction self)
                    (Configuration.direction other).

(** [AgentState.__eq__] *)
Definition agentState (self other : AgentState.t) : M bool :=
  c1 <~ getConfig (AgentState.configuration self) ;;
  c2 <~ getConfig (AgentState.configuration other) ;;
  ret (configuration c1 c2
       && (AgentState.scaredTimer self =? AgentState.scaredTimer other)).

(** [==] on two lists of agent states: lists of different lengths differ;
    otherwise the elements are compared up to the first difference. *)
Fixpoint agentStatesFrom (l1 l2 : list AgentState.t) : M bool :=
  match l1, l2 with
  | [], [] => ret true
  | a :: l1', b :: l2' =>
      e <~ agentState a b ;;
      if e : bool then agentStatesFrom l1' l2' else ret false
  | _, _ => ret false
  end.

Definition agentStates (l1 l2 : list AgentState.t) : M bool :=
  if (length l1 =? length l2)%nat then agentStatesFrom l1 l2 else ret false.

(** [Grid.__eq__]: [self.data == other.data] *)
Definition grid (self other : GridRef.t) : M bool :=
  m1 <~ getMatrix (Grid.data self) ;;
  m2 <~ getMatrix (Grid.data other) ;;
  ret (list_eqb (list_eqb Bool.eqb) m1 m2).

(** [GameStateData.__eq__] *)
Definition gameStateData (self other : GameStateData.t) : M bool :=
  a <~ agentStates (GameStateData.agentStates self)
                   (GameStateData.agentStates other) ;;
  if negb a then ret false
  else
    f <~ grid (GameStateData.food self) (GameStateData.food other) ;;
    if negb f then ret false
    else if negb (list_eqb PacmanRules.posEqb
                    (GameStateData.capsules self)
                    (GameStateData.capsules other))
    then ret false
    else if negb (GameStateData.score self =? GameStateData.score other)
    then ret false
    else ret true.

(** [GameState.__eq__] on two states. *)
Definition gameState (self other : GameState.t) : M bool :=
  gameStateData (GameState.data self) (GameState.data other).

End Eq.

(** ** game.py: GameStateData.initialize *)

Module LayoutFile.

(** Modelled from the spec: [layout.py] is not among the sources; a layout
    is "an opaque structure describing walls/food/capsules/start positions".
    [rules] is the part the rules read, the other fields are the attributes
    [GameStateData.initialize] reads: the food grid, the capsule list and the
    list of [(isPacman, pos)] pairs. *)
Record t := Make {
  rules : Layout.t;
  food : GridRef.t;
  capsules : list (Z * Z);
  agentPositions : list (bool * (Q * Q))
}.

End LayoutFile.

Module Initial.



End Initial.

(** ** pacman.py: parseAgentArgs *)

Module Str.

Import String Ascii.

(** [c in s] for a one-character string [c]. *)
Fixpoint contains (c : ascii) (s : string) : bool :=
  match s with
  | EmptyString => false
  | String a s' => Ascii.eqb a c || contains c s'
  end.

(** [s.split(sep)] for a one-character separator. *)
Fixpoint split (sep : ascii) (s : string) : list string :=
  match s with
  | EmptyString => [EmptyString]
  | String a s' =>
      if Ascii.eqb a sep then EmptyString :: split sep s'
      else
        match split sep s' with
        | p :: ps => String a p :: ps
        | [] => [String a EmptyString]
        end
  end.

(** [sep.join(l)] *)
Fixpoint join (sep : ascii) (l : list string) : string :=
  match l with
  | [] => EmptyString
  | [p] => p
  | p :: l' => append p (String sep (join sep l'))
  end.

Definition comma : ascii := Ascii.ascii_of_nat 44.
Definition equals : ascii := Ascii.ascii_of_nat 61.

End Str.

(** A value of the options dictionary: a string, or the int [1]. *)
Inductive optval :=
| OptStr (s : String.string)
| OptInt (z : Z).

(** The options dictionary: its items in insertion order, no key twice. *)
Definition options := list (String.string * optval).

(** [opts[key] = val] *)
Fixpoint options_set (opts : options) (key : String.string) (val : optval)
  : options :=
  match opts with
  | [] => [(key, val)]
  | (k, v) :: opts' =>
      if String.eqb key k then (k, val) :: opts'
      else (k, v) :: options_set opts' key val
  end.

(** The body of the loop of [parseAgentArgs]: [key, val = p.split("=")]
    raises [ValueError] unless the split gives two pieces. *)
Definition parsePiece (p : String.string) (opts : options) : result options :=
  '(key, val) <-
     (if Str.contains Str.equals p
      then
        match Str.split Str.equals p with
        | [key; val] => Ok (key, OptStr val)
        | _ => Raise ValueError
        end
      else Ok (p, OptInt 1)) ;;
  Ok (options_set opts key val).

Definition parseAgentArgs (str : option String.string) : result options :=
  match str with
  | None => Ok []
  | Some s => for_ (Str.split Str.comma s) parsePiece []
  end.

(** ** Scenarios

    A corridor of three free cells, (1,1), (2,1) and (3,1), walled all
    around; Pacman is agent 0 and one pursuer is agent 1. *)

Module Scenario.

Definition wallCol : list bool := [true; true; true].
Definition openCol : list bool := [true; false; true].

Definition walls : Grid.grid :=
  Grid.Make 5 3 [wallCol; openCol; openCol; openCol; wallCol].

Definition noFood : list bool := [false; false; false].
Definition foodMid : list bool := [false; true; false].

(** One food cell, at (2,1). *)
Definition foodAt2 : Grid.matrix := [noFood; noFood; foodMid; noFood; noFood].

(** Pacman's configuration at address 0, the pursuer's at address 1; one
    [_eaten] list and one food matrix. *)
Definition store (pacmanPos ghostPos : Q * Q) (ghostDir : Directions.t)
  : Store.t :=
  Store.Make [Configuration.Make pacmanPos Directions.STOP;
              Configuration.Make ghostPos ghostDir]
             [[false; false]]
             [foodAt2].

Definition pacman : AgentState.t := AgentState.Make 0%nat 0%nat true 0 0 0.

Definition ghost (scaredTimer : Z) : AgentState.t :=
  AgentState.Make 1%nat 1%nat false scaredTimer 0 0.

Definition data (scaredTimer : Z) : GameStateData.t :=
  GameStateData.Make (Grid.Make 5 3 0%nat) [] [pacman; ghost scaredTimer]
    (Layout.Make walls) 0%nat 0 None None None None false false 0.

Definition state (scaredTimer : Z) : GameState.t :=
  GameState.Make (data scaredTimer).

(** Pacman at (1,1), the pursuer at (3,1), nobody facing anywhere. *)
Definition store0 : Store.t := store (1, 1)%Q (3, 1)%Q Directions.STOP.

(** The same state, with the win flag set. *)
Definition won : GameState.t :=
  GameState.upd (GameStateData.set__win true) (state 0).

(** The same state, with a capsule on the middle cell. *)
Definition withCapsule : GameState.t :=
  GameState.upd (GameStateData.set_capsules [(2, 1)]) (state 0).


End Scenario.

(** Options as they are written on the command line. *)
Module Sample.
Import String.
Local Open Scope string_scope.
Definition items : list (string * option string) :=
  [("numTraining", Some "10"); ("verbose", None)].
End Sample.

(** * Notions used in the statements *)

(** ** Serialization *)

Section Cells.

(** [packBits] and [_unpackBits] find cell [i] through the method
    [self._cellIndexToPosition]; their loops are studied here for any
    implementation [locate] of that method. *)
Variable locate : Grid.grid -> Z -> result (pynum * pynum).

Definition packStepAt (g : Grid.grid) (i : Z) (s : list Z * Z)
  : result (list Z * Z) :=
  let '(bits, currentInt) := s in
  let bit := Grid.CELLS_PER_INT - (i mod Grid.CELLS_PER_INT) - 1 in
  '(x, y) <- locate g i ;;
  c <- Grid.get g x y ;;
  let currentInt := if c : bool then currentInt + 2 ^ bit else currentInt in
  if (i + 1) mod Grid.CELLS_PER_INT =? 0
  then Ok (bits ++ [currentInt], 0)
  else Ok (bits, currentInt).

Definition packBitsAt (g : Grid.grid) : result (list Z) :=
  '(bits, currentInt) <-
     for_ (range (Grid.height g * Grid.width g)) (packStepAt g)
          ([Grid.width g; Grid.height g], 0) ;;
  Ok (bits ++ [currentInt]).

Fixpoint unpackCellsAt (bools : list bool) (s : Grid.grid * Z)
  : result (Grid.grid * Z) :=
  match bools with
  | [] => Ok s
  | bit :: rest =>
      let '(g, cell) := s in
      if cell =? Grid.width g * Grid.height g then Ok s
      else
        '(x, y) <- locate g cell ;;
        g' <- Grid.set g x y bit ;;
        unpackCellsAt rest (g', cell + 1)
  end.

Definition unpackBitsAt (g : Grid.grid) (bits : list Z) : result Grid.grid :=
  '(g', _) <-
     for_ bits
       (fun packed s =>
          bools <- Grid._unpackInt packed Grid.CELLS_PER_INT ;;
          unpackCellsAt bools s)
       (g, 0) ;;
  Ok g'.

Definition reconstituteGridAt (bitRep : list Z) : result Grid.grid :=
  match bitRep with
  | w :: h :: [] => Ok (Grid.init w h false)
  | w :: h :: rest => unpackBitsAt (Grid.init w h false) rest
  | _ => Raise ValueError
  end.

(** The value [packBits] reads for cell [i], [false] where the read raises. *)
Definition cellBit (g : Grid.grid) (i : Z) : bool :=
  match ('(x, y) <- locate g i ;; Grid.get g x y) with
  | Ok b => b
  | Raise _ => false
  end.

End Cells.

(** The word that holds the bits [bs 0 .. bs 29], the first one highest. *)
Definition wordOf (bs : Z -> bool) : Z :=
  sum (map (fun j => if bs j then 2 ^ (29 - j) else 0) (range 30)).

(** The 30 bits of a word, from the one at position [i] on. *)
Definition lowBits (bs : Z -> bool) (i : Z) : Z :=
  wordOf (fun j => (i <=? j) && bs j).

(** The grid of the first scenario: [Grid(3,2)] with (0,0) and (2,1) set. *)
Definition grid_3x2 : Grid.grid :=
  Grid.Make 3 2 [[true; false]; [false; false]; [false; true]].

(** The variant of [_cellIndexToPosition] with [//] in place of [/]. *)
Definition locateInt (g : Grid.grid) (index : Z) : result (pynum * pynum) :=
  x <- floordiv index (Grid.height g) ;;
  y <- mod_ index (Grid.height g) ;;
  Ok (PyInt x, PyInt y).

(** A grid as [Grid(width, height)] builds it: [width] columns of [height]
    cells each. *)
Definition shaped (g : Grid.grid) : Prop :=
  0 <= Grid.width g /\ 0 <= Grid.height g
  /\ length (Grid.data g) = Z.to_nat (Grid.width g)
  /\ forall col, In col (Grid.data g) -> length col = Z.to_nat (Grid.height g).

(** Cell [i] of a matrix whose columns have [h] cells. *)
Definition entry (m : Grid.matrix) (h : Z) (i : Z) : option bool :=
  match nth_error m (Z.to_nat (i / h)) with
  | Some col => nth_error col (Z.to_nat (i mod h))
  | None => None
  end.

(** ** Legal actions *)

(** The position is on the grid, up to [TOLERANCE]. *)
Definition aligned (conf : Configuration.t) : bool :=
  let '(x, y) := Configuration.pos conf in
  negb (Qgtb (Qabs (x - inject_Z (int (x + (1 # 2))))
              + Qabs (y - inject_Z (int (y + (1 # 2)))))
             Actions.TOLERANCE).

(** What [walls] holds one step from the rounded position, in direction [d];
    [STOP] is the cell itself. *)
Definition wallAt (walls : Grid.grid) (conf : Configuration.t)
  (d : Directions.t) : result bool :=
  let '(x, y) := Configuration.pos conf in
  let '(dx, dy) := Actions._directions d in
  Grid.get walls (PyInt (int (x + (1 # 2)) + dx)) (PyInt (int (y + (1 # 2)) + dy)).

Definition keep (wall : bool) (d : Directions.t) : list Directions.t :=
  if wall then [] else [d].

(** ** Transitions *)

(** The bookkeeping that ends [generateSuccessor]. *)
Definition finish (agentIndex : Z) (st : GameState.t) : GameState.t :=
  GameState.upd
    (fun d => GameStateData.set_score
                (GameStateData.score d + GameStateData.scoreChange d) d)
    (GameState.upd (GameStateData.set__agentMoved (Some agentIndex)) st).

(** ** Collisions *)

(** What the collision check of one pursuer adds to the score, as
    [GhostRules.collide] has it: [reach] tells that the pursuer stands within
    [COLLISION_TOLERANCE] of Pacman, [timer] is its scared timer at the check
    and [won] the win flag. *)
Definition payoff (reach : bool) (timer : Z) (won : bool) : Z :=
  if reach
  then if timer >? 0 then 200 else if won then 0 else -500
  else 0.

(** The payoff of pursuer [g] on Pacman's move, Pacman ending at [pac];
    [scare] tells that the move ate a capsule, which sets every pursuer's
    timer to [SCARED_TIME] before the checks.  The pursuer's position is
    read in the store [h]; a reference outside the store counts for 0. *)
Definition payoffOf (pac : Q * Q) (scare won : bool) (h : Store.t)
  (g : AgentState.t) : Z :=
  match nth_error (Store.configs h) (AgentState.configuration g) with
  | Some c =>
      payoff (GhostRules.canKill pac (Configuration.pos c))
             (if scare then SCARED_TIME else AgentState.scaredTimer g) won
  | None => 0
  end.

(** ** Cells, words and neighbours *)

(** The cell at column [x] and row [y] of a matrix, [false] outside it. *)
Definition cellAt (m : Grid.matrix) (x y : Z) : bool :=
  nth (Z.to_nat y) (nth (Z.to_nat x) m []) false.

(** The cells of column [x] that hold [key], in row order. *)
Definition cellsOf (g : Grid.grid) (key : bool) (x : Z) : list (Z * Z) :=
  map (pair x)
      (filter (fun y => Bool.eqb (cellAt (Grid.data g) x y) key)
              (range (Grid.height g))).

(** What is left of [packed] after [_unpackInt] has taken [m] bits. *)
Definition remainder (packed m : Z) : Z :=
  if packed <? 2 ^ 30 then packed mod 2 ^ (30 - m)
  else packed - (2 ^ 30 - 2 ^ (30 - m)).

(** The cell at offset [d] from [(x, y)] lies in the grid and is no wall. *)
Definition freeAt (walls : Grid.grid) (x y : Z) (d : Z * Z) : bool :=
  (0 <=? x + fst d) && (x + fst d <? Grid.width walls)
  && (0 <=? y + snd d) && (y + snd d <? Grid.height walls)
  && negb (cellAt (Grid.data walls) (x + fst d) (y + snd d)).

(** The offsets [getLegalNeighbors] tries, in the order of
    [Actions._directionsAsList]. *)
Definition offsets : list (Z * Z) := [(0, 1); (0, -1); (1, 0); (-1, 0); (0, 0)].


(** The agent states of the entries [E], the configuration of the first
    one at address [base], each one's after the previous one's. *)
Fixpoint agentsFrom (base : nat) (E : list (bool * (Q * Q)))
  : list AgentState.t :=
  match E with
  | [] => []
  | (isPacman, _) :: E' =>
      AgentState.Make base base isPacman 0 0 0 :: agentsFrom (S base) E'
  end.


(** How many times the character [c] occurs in [s]. *)
Fixpoint occurrences (c : Ascii.ascii) (s : String.string) : nat :=
  match s with
  | String.EmptyString => O
  | String.String a s' =>
      if Ascii.eqb a c then S (occurrences c s') else occurrences c s'
  end.

(** An option as it is written on the command line: [key] or [key=value]. *)
Definition render (item : String.string * option String.string)
  : String.string :=
  match item with
  | (key, None) => key
  | (key, Some val) => String.append key (String.String Str.equals val)
  end.

(** The value [parseAgentArgs] stores for a written option. *)
Definition stored (item : String.string * option String.string)
  : String.string * optval :=
  match item with
  | (key, None) => (key, OptInt 1)
  | (key, Some val) => (key, OptStr val)
  end.

(** A text without [,] and without [=]. *)
Definition plain (s : String.string) : Prop :=
  Str.contains Str.comma s = false /\ Str.contains Str.equals s = false.

(** * Properties *)

(** ** Loops and indices *)

Lemma for_app {A S} (l1 l2 : list A) (body : A -> S -> result S) (s : S) :
  for_ (l1 ++ l2) body s = bind (for_ l1 body s) (for_ l2 body).
Proof.
  revert s; induction l1 as [|a l1 IH]; intros s; simpl; [reflexivity|].
  destruct (body a s); simpl; auto.
Qed.

Lemma range_length (n : Z) : length (range n) = Z.to_nat n.
Proof. unfold range. now rewrite length_map, length_seq. Qed.

Lemma range_succ (m : Z) : 0 <= m -> range (m + 1) = range m ++ [m].
Proof.
  intros Hm. unfold range.
  replace (Z.to_nat (m + 1)) with (Z.to_nat m + 1)%nat by lia.
  rewrite seq_app, map_app. simpl. now rewrite Z2Nat.id.
Qed.

Lemma range_first (n : Z) : 0 < n -> exists l, range n = 0 :: l.
Proof.
  intros H. unfold range.
  destruct (Z.to_nat n) as [|k] eqn:E; [lia|].
  simpl. now eexists.
Qed.

Lemma in_range (n i : Z) : In i (range n) <-> 0 <= i < n.
Proof.
  unfold range. rewrite in_map_iff. split.
  - intros (k & <- & Hk). apply in_seq in Hk. lia.
  - intros H. exists (Z.to_nat i). split; [lia|]. apply in_seq. lia.
Qed.

Lemma nth_range (n : Z) (k : nat) :
  (k < Z.to_nat n)%nat -> nth k (range n) 0 = Z.of_nat k.
Proof.
  intros H. unfold range.
  rewrite (nth_indep _ 0 (Z.of_nat 0)) by (rewrite length_map, length_seq; lia).
  rewrite map_nth, seq_nth by lia. reflexivity.
Qed.

(** ** Grid: serialization *)

Section Pack.

Variable locate : Grid.grid -> Z -> result (pynum * pynum).
Variable g : Grid.grid.

Lemma packStep_ok (i : Z) (bits : list Z) (cur : Z) (s' : list Z * Z) :
  packStepAt locate g i (bits, cur) = Ok s' ->
  s' = let cur' := cur + (if cellBit locate g i then 2 ^ (29 - i mod 30) else 0) in
       if (i + 1) mod 30 =? 0 then (bits ++ [cur'], 0) else (bits, cur').
Proof.
  unfold packStepAt, cellBit, Grid.CELLS_PER_INT.
  replace (30 - i mod 30 - 1) with (29 - i mod 30) by lia.
  destruct (locate g i) as [[x y]|e]; cbn [bind];
    [|discriminate].
  destruct (Grid.get g x y) as [c|e]; cbn [bind]; [|discriminate].
  destruct c; destruct ((i + 1) mod 30 =? 0); intros H; inversion H;
    rewrite ?Z.add_0_r; reflexivity.
Qed.

Lemma sum_map_ext_in (f h : Z -> Z) (l : list Z) :
  (forall j, In j l -> f j = h j) -> sum (map f l) = sum (map h l).
Proof.
  induction l as [|a l IH]; simpl; intros H; [reflexivity|].
  rewrite H, IH; auto.
Qed.

Lemma sum_map_bump (f h : Z -> Z) (r d : Z) (l : list Z) :
  NoDup l -> In r l -> h r = f r + d ->
  (forall j, In j l -> j <> r -> h j = f j) ->
  sum (map h l) = sum (map f l) + d.
Proof.
  induction l as [|a l IH]; simpl; intros Hnd Hin Hr Hj; [contradiction|].
  inversion Hnd as [|? ? Hna Hnd']; subst.
  destruct Hin as [->|Hin].
  - rewrite Hr.
    rewrite (sum_map_ext_in h f l); [lia|].
    intros j Hjl. apply Hj; auto. intros ->. contradiction.
  - rewrite IH; auto.
    rewrite (Hj a); [lia|auto|]. intros ->. contradiction.
Qed.

Lemma range_NoDup (m : Z) : NoDup (range m).
Proof.
  unfold range. generalize (seq_NoDup (Z.to_nat m) 0).
  induction 1 as [|a l Ha Hl IH]; simpl; constructor; [|assumption].
  rewrite in_map_iff. intros (b & Hb & Hin).
  apply Nat2Z.inj in Hb. subst b. contradiction.
Qed.

Lemma wordOf_ext (bs bs' : Z -> bool) :
  (forall j, 0 <= j < 30 -> bs j = bs' j) -> wordOf bs = wordOf bs'.
Proof.
  intros H. unfold wordOf. apply sum_map_ext_in.
  intros j Hj. apply in_range in Hj. now rewrite H.
Qed.

Lemma wordOf_none : wordOf (fun _ => false) = 0.
Proof. reflexivity. Qed.

Lemma wordOf_snoc (F : Z -> bool) (r : Z) :
  0 <= r < 30 ->
  wordOf (fun j => (j <? r + 1) && F j) =
  wordOf (fun j => (j <? r) && F j) + (if F r then 2 ^ (29 - r) else 0).
Proof.
  intros Hr. unfold wordOf.
  apply sum_map_bump with (r := r).
  - apply range_NoDup.
  - apply in_range. lia.
  - replace (r <? r + 1) with true by (symmetry; apply Z.ltb_lt; lia).
    rewrite Z.ltb_irrefl. simpl. reflexivity.
  - intros j _ Hj.
    destruct (Z.ltb_spec j (r + 1)), (Z.ltb_spec j r); try lia; reflexivity.
Qed.

(** The state of the loop after [m] cells. *)
Lemma pack_loop (m : nat) (bits : list Z) (cur : Z) :
  for_ (range (Z.of_nat m)) (packStepAt locate g)
       ([Grid.width g; Grid.height g], 0) = Ok (bits, cur) ->
  bits = [Grid.width g; Grid.height g]
           ++ map (fun k => wordOf (fun j => cellBit locate g (30 * k + j)))
                  (range (Z.of_nat m / 30))
  /\ cur = wordOf (fun j => (j <? Z.of_nat m mod 30)
                            && cellBit locate g (30 * (Z.of_nat m / 30) + j)).
Proof.
  revert bits cur. induction m as [|m IH]; intros bits cur H.
  - change (Ok ([Grid.width g; Grid.height g], 0) = Ok (bits, cur)) in H.
    inversion H; subst. split; reflexivity.
  - replace (Z.of_nat (S m)) with (Z.of_nat m + 1) in * by lia.
    rewrite range_succ, for_app in H by lia.
    destruct (for_ (range (Z.of_nat m)) (packStepAt locate g)
                   ([Grid.width g; Grid.height g], 0)) as [[bits0 cur0]|e] eqn:E;
      cbn [bind for_] in H; [|discriminate].
    destruct (IH _ _ eq_refl) as [Hb Hc]. clear IH.
    destruct (packStepAt locate g (Z.of_nat m) (bits0, cur0)) as [s'|e] eqn:Es;
      cbn [bind] in H; [|discriminate].
    inversion H; subst s'; clear H.
    apply packStep_ok in Es. cbv zeta in Es.
    set (q := Z.of_nat m / 30) in *. set (r := Z.of_nat m mod 30) in *.
    assert (Hm : Z.of_nat m = 30 * q + r) by (apply Z.div_mod; lia).
    assert (Hr : 0 <= r < 30) by (apply Z.mod_pos_bound; lia).
    assert (Hq : 0 <= q) by (apply Z.div_pos; lia).
    assert (Hcur : cur0 + (if cellBit locate g (Z.of_nat m) then 2 ^ (29 - r) else 0)
                   = wordOf (fun j => (j <? r + 1) && cellBit locate g (30 * q + j))).
    { rewrite (wordOf_snoc (fun j => cellBit locate g (30 * q + j))) by lia.
      rewrite Hc, Hm. reflexivity. }
    rewrite Hcur in Es.
    destruct (Z.eqb_spec ((Z.of_nat m + 1) mod 30) 0) as [Hz|Hz].
    + assert (Hr29 : r = 29).
      { assert (Hd : (Z.of_nat m + 1) = 30 * q + (r + 1)) by lia.
        rewrite Hd in Hz.
        rewrite Z.add_comm, Z.mul_comm, Z.mod_add in Hz by lia.
        destruct (Z.eq_dec r 29); [assumption|].
        rewrite Z.mod_small in Hz by lia. lia. }
      assert (Hq' : (Z.of_nat m + 1) / 30 = q + 1).
      { symmetry. apply (Z.div_unique _ _ _ 0); lia. }
      assert (Hr' : (Z.of_nat m + 1) mod 30 = 0) by assumption.
      injection Es as -> ->. rewrite Hq', Hr'.
      rewrite range_succ, map_app by lia. cbn [map].
      split.
      * rewrite Hb, <- app_assoc. do 3 f_equal.
        apply wordOf_ext. intros j Hj. rewrite Hr29.
        replace (j <? 29 + 1) with true by (symmetry; apply Z.ltb_lt; lia).
        reflexivity.
      * symmetry. apply wordOf_ext with (bs' := fun _ => false) .
        intros j Hj. replace (j <? 0) with false by (symmetry; apply Z.ltb_ge; lia).
        reflexivity.
    + assert (Hr29 : r < 29).
      { destruct (Z.eq_dec r 29) as [E29|]; [|lia].
        exfalso. apply Hz.
        replace (Z.of_nat m + 1) with (0 + (q + 1) * 30) by lia.
        now rewrite Z.mod_add by lia. }
      assert (Hq' : (Z.of_nat m + 1) / 30 = q).
      { symmetry. apply (Z.div_unique _ _ _ (r + 1)); lia. }
      assert (Hr' : (Z.of_nat m + 1) mod 30 = r + 1).
      { symmetry. apply (Z.mod_unique _ _ q); lia. }
      injection Es as -> ->. rewrite Hq', Hr'. split; [assumption|reflexivity].
Qed.

End Pack.

(** The methods of the class are these loops at its own
    [_cellIndexToPosition]. *)
Lemma packBits_at (g : Grid.grid) :
  Grid.packBits g = packBitsAt Grid._cellIndexToPosition g.
Proof. reflexivity. Qed.

Lemma unpackBits_at (g : Grid.grid) (bits : list Z) :
  Grid._unpackBits g bits = unpackBitsAt Grid._cellIndexToPosition g bits.
Proof. reflexivity. Qed.

Lemma reconstituteGrid_at (bitRep : list Z) :
  Grid.reconstituteGrid bitRep
  = reconstituteGridAt Grid._cellIndexToPosition bitRep.
Proof.
  destruct bitRep as [|w [|h [|b rest]]]; reflexivity.
Qed.

Lemma sum_map_mod (f : Z -> Z) (d : Z) (l : list Z) :
  0 < d -> (forall j, In j l -> f j mod d = 0) -> sum (map f l) mod d = 0.
Proof.
  intros Hd. induction l as [|a l IH]; simpl; intros H.
  - now apply Z.mod_0_l, Z.neq_sym, Z.lt_neq.
  - rewrite Z.add_mod, H, IH by (auto; lia).
    simpl. now apply Z.mod_0_l, Z.neq_sym, Z.lt_neq.
Qed.

Lemma wordOf_low_bits (F : Z -> bool) (r : Z) :
  0 <= r < 30 -> wordOf (fun j => (j <? r) && F j) mod 2 ^ (30 - r) = 0.
Proof.
  intros Hr. unfold wordOf. apply sum_map_mod.
  - apply Z.pow_pos_nonneg; lia.
  - intros j Hj. apply in_range in Hj.
    assert (Hd : 2 ^ (30 - r) <> 0) by (apply Z.pow_nonzero; lia).
    destruct (Z.ltb_spec j r); cbn [andb]; [|now apply Z.mod_0_l].
    destruct (F j); [|now apply Z.mod_0_l].
    replace (29 - j) with ((r - 1 - j) + (30 - r)) by lia.
    rewrite Z.pow_add_r by lia. apply Z.mod_mul, Z.pow_nonzero; lia.
Qed.

Lemma cellIndexToPosition_ok (g : Grid.grid) (i : Z) (x y : pynum) :
  Grid._cellIndexToPosition g i = Ok (x, y) ->
  x = PyFloat (inject_Z i / inject_Z (Grid.height g))%Q
  /\ y = PyInt (i mod Grid.height g).
Proof.
  unfold Grid._cellIndexToPosition, truediv, mod_.
  destruct (Grid.height g =? 0); cbn [bind]; [discriminate|].
  intros H. injection H as <- <-. split; reflexivity.
Qed.

(** C1 (code defect).  [packBits] does not return on any grid that has a
    cell: [_cellIndexToPosition] computes the column with [/], a float in
    Python 3, and indexing [self.data] with it raises [TypeError].  So
    [unpack(pack(g))] is never reached, let alone equal to [g]. *)
Theorem packBits_raises_on_cells (g : Grid.grid) :
  0 < Grid.height g * Grid.width g -> Grid.packBits g = Raise TypeError.
Proof.
  intros Hn. unfold Grid.packBits.
  destruct (range_first _ Hn) as [l ->]. cbn [for_].
  assert (Hh : (Grid.height g =? 0) = false) by (apply Z.eqb_neq; nia).
  unfold Grid.packStep at 1, Grid._cellIndexToPosition, truediv, mod_.
  rewrite Hh. reflexivity.
Qed.

Lemma packBits_raises_on_cells_witness :
  0 < Grid.height grid_3x2 * Grid.width grid_3x2
  /\ Grid.packBits grid_3x2 = Raise TypeError.
Proof.
  split; [reflexivity|].
  apply (packBits_raises_on_cells grid_3x2). reflexivity.
Defined.

(** C9 (code defect).  [packBits] returns the packed words of no grid that
    has a cell: it raises [TypeError] at its first cell, the column index of
    [_cellIndexToPosition] being a float.  It returns only on a grid without
    cells, and then the width, the height and the single word 0. *)
Theorem packBits_outcomes (g : Grid.grid) :
  Grid.packBits g
  = if 0 <? Grid.height g * Grid.width g then Raise TypeError
    else Ok [Grid.width g; Grid.height g; 0].
Proof.
  unfold Grid.packBits.
  destruct (Z.ltb_spec 0 (Grid.height g * Grid.width g)) as [Hn|Hn].
  - destruct (range_first _ Hn) as [l ->]. cbn [for_].
    assert (Hh : (Grid.height g =? 0) = false) by (apply Z.eqb_neq; nia).
    unfold Grid.packStep at 1, Grid._cellIndexToPosition, truediv, mod_.
    rewrite Hh. reflexivity.
  - unfold range.
    replace (Z.to_nat (Grid.height g * Grid.width g)) with 0%nat by lia.
    reflexivity.
Qed.

(** What the loop of [packBits] returns when it returns, however the cells
    are found: the width and the height, then [floor(n/30) + 1] words; word
    [k] holds the cells [30k .. 30k+29] that exist, the first one in the
    highest of 30 bits; the unused low bits of the final word are 0. *)
Lemma packBitsAt_format (locate : Grid.grid -> Z -> result (pynum * pynum))
  (g : Grid.grid) (bits : list Z) :
  packBitsAt locate g = Ok bits ->
  let n := Z.max 0 (Grid.height g * Grid.width g) in
  exists words : list Z,
    bits = Grid.width g :: Grid.height g :: words
    /\ len words = n / 30 + 1
    /\ (forall k, 0 <= k <= n / 30 ->
          nth (Z.to_nat k) words 0
          = wordOf (fun j => (30 * k + j <? n) && cellBit locate g (30 * k + j)))
    /\ nth (Z.to_nat (n / 30)) words 0 mod 2 ^ (30 - n mod 30) = 0.
Proof.
  intros H n. unfold packBitsAt in H.
  assert (Hr : range (Grid.height g * Grid.width g) = range (Z.of_nat (Z.to_nat n))).
  { unfold range. f_equal. f_equal. subst n. lia. }
  rewrite Hr in H.
  destruct (for_ (range (Z.of_nat (Z.to_nat n))) (packStepAt locate g)
                 ([Grid.width g; Grid.height g], 0)) as [[bs cur]|e] eqn:E;
    cbn [bind] in H; [|discriminate].
  injection H as <-.
  apply pack_loop in E. destruct E as [-> ->].
  assert (Hn : 0 <= n) by (subst n; lia).
  rewrite Z2Nat.id by assumption.
  set (q := n / 30). set (r := n mod 30).
  assert (Hq : 0 <= q) by (apply Z.div_pos; lia).
  assert (Hrb : 0 <= r < 30) by (apply Z.mod_pos_bound; lia).
  assert (Hdm : n = 30 * q + r) by (apply Z.div_mod; lia).
  set (full := fun k => wordOf (fun j => cellBit locate g (30 * k + j))).
  set (lastw := wordOf (fun j => (j <? r) && cellBit locate g (30 * q + j))).
  exists (map full (range q) ++ [lastw]).
  assert (Hlen : length (map full (range q)) = Z.to_nat q)
    by now rewrite length_map, range_length.
  assert (Hlast : nth (Z.to_nat q) (map full (range q) ++ [lastw]) 0 = lastw).
  { rewrite app_nth2 by lia. rewrite Hlen, Nat.sub_diag. reflexivity. }
  split; [|split; [|split]].
  - rewrite <- app_assoc. reflexivity.
  - unfold len. rewrite length_app, Hlen. simpl. lia.
  - intros k Hk. destruct (Z.eq_dec k q) as [->|Hkq].
    + rewrite Hlast. apply wordOf_ext. intros j Hj. f_equal.
      destruct (Z.ltb_spec j r), (Z.ltb_spec (30 * q + j) n); try lia; reflexivity.
    + rewrite app_nth1 by lia.
      rewrite (nth_indep _ 0 (full 0)) by lia.
      rewrite map_nth, nth_range by lia. rewrite Z2Nat.id by lia.
      apply wordOf_ext. intros j Hj.
      replace (30 * k + j <? n) with true; [reflexivity|].
      symmetry. apply Z.ltb_lt. lia.
  - rewrite Hlast. apply wordOf_low_bits. assumption.
Qed.

(** ** Running a computation step by step *)

Lemma bind_ok {A B} (m : result A) (k : A -> result B) (b : B) :
  bind m k = Ok b -> exists a, m = Ok a /\ k a = Ok b.
Proof. destruct m as [a|e]; simpl; [eauto|discriminate]. Qed.

Lemma bindM_ok {A B} (m : M A) (k : A -> M B) (h h' : Store.t) (b : B) :
  bindM m k h = Ok (b, h') ->
  exists a h1, m h = Ok (a, h1) /\ k a h1 = Ok (b, h').
Proof.
  unfold bindM. destruct (m h) as [[a h1]|e]; [eauto|discriminate].
Qed.

Lemma lift_ok {A} (r : result A) (h h' : Store.t) (a : A) :
  lift r h = Ok (a, h') -> r = Ok a /\ h' = h.
Proof.
  unfold lift. destruct r; intros H; inversion H; auto.
Qed.

Lemma ret_ok {A} (a a' : A) (h h' : Store.t) :
  ret a h = Ok (a', h') -> a' = a /\ h' = h.
Proof. unfold ret. intros H; inversion H; auto. Qed.

Lemma getConfig_ok (r : ref) (h h' : Store.t) (c : Configuration.t) :
  getConfig r h = Ok (c, h') -> nth_error (Store.configs h) r = Some c /\ h' = h.
Proof.
  unfold getConfig, deref, lift.
  destruct (nth_error (Store.configs h) r); intros H; inversion H; auto.
Qed.

Lemma getEaten_ok (r : ref) (h h' : Store.t) (l : list bool) :
  getEaten r h = Ok (l, h') -> nth_error (Store.eatens h) r = Some l /\ h' = h.
Proof.
  unfold getEaten, deref, lift.
  destruct (nth_error (Store.eatens h) r); intros H; inversion H; auto.
Qed.

Lemma getMatrix_ok (r : ref) (h h' : Store.t) (m : Grid.matrix) :
  getMatrix r h = Ok (m, h') -> nth_error (Store.matrices h) r = Some m /\ h' = h.
Proof.
  unfold getMatrix, deref, lift.
  destruct (nth_error (Store.matrices h) r); intros H; inversion H; auto.
Qed.

(** Split a successful run at its first step, as long as there is one. *)
Ltac step H :=
  let a := fresh "a" in
  let h := fresh "h" in
  let E := fresh "E" in
  match type of H with
  | bindM _ _ _ = Ok _ =>
      apply bindM_ok in H; destruct H as (a & h & E & H)
  | bind _ _ = Ok _ =>
      apply bind_ok in H; destruct H as (a & E & H)
  end.

Ltac done_step H :=
  match type of H with
  | lift _ _ = Ok _ => apply lift_ok in H; destruct H as [H ?]
  | ret _ _ = Ok _ => apply ret_ok in H; destruct H as [? ?]
  | getConfig _ _ = Ok _ => apply getConfig_ok in H; destruct H as [H ?]
  | getEaten _ _ = Ok _ => apply getEaten_ok in H; destruct H as [H ?]
  | getMatrix _ _ = Ok _ => apply getMatrix_ok in H; destruct H as [H ?]
  | raise _ _ = Ok _ => discriminate H
  | Raise _ = Ok _ => discriminate H
  end.

Tactic Notation "mstep" hyp(H) "as" ident(a) ident(h) ident(E) :=
  apply bindM_ok in H; destruct H as (a & h & E & H).


(** ** Terminal states *)

(** C4.  On a state whose win or lose flag is set, [generateSuccessor]
    raises the terminal-state exception for every agent index and action,
    and [getLegalActions] returns the empty list for every agent index. *)
Theorem terminal_state_rejects (s : GameState.t) (agentIndex : Z)
  (action : Directions.t) (h : Store.t) :
  GameState.isWin s = true \/ GameState.isLose s = true ->
  generateSuccessor s agentIndex action h = Raise (Exception Msg.terminal)
  /\ getLegalActions s agentIndex h = Ok ([], h).
Proof.
  intros Ht.
  assert (E : GameState.isWin s || GameState.isLose s = true)
    by (apply orb_true_iff; exact Ht).
  unfold generateSuccessor, getLegalActions. rewrite E. split; reflexivity.
Qed.

Lemma terminal_state_rejects_witness :
  generateSuccessor Scenario.won 1 Directions.WEST Scenario.store0
  = Raise (Exception Msg.terminal)
  /\ getLegalActions Scenario.won 1 Scenario.store0 = Ok ([], Scenario.store0).
Proof.
  apply (terminal_state_rejects Scenario.won 1 Directions.WEST).
  left. reflexivity.
Defined.

(** ** Legal actions of a pursuer *)

Lemma getPossibleActions_aligned (conf : Configuration.t) (walls : Grid.grid) :
  aligned conf = true ->
  Actions.getPossibleActions conf walls =
  (bN <- wallAt walls conf Directions.NORTH ;;
   bS <- wallAt walls conf Directions.SOUTH ;;
   bE <- wallAt walls conf Directions.EAST ;;
   bW <- wallAt walls conf Directions.WEST ;;
   bP <- wallAt walls conf Directions.STOP ;;
   Ok (keep bN Directions.NORTH ++ keep bS Directions.SOUTH
       ++ keep bE Directions.EAST ++ keep bW Directions.WEST
       ++ keep bP Directions.STOP)).
Proof.
  unfold aligned, Actions.getPossibleActions, wallAt.
  destruct (Configuration.pos conf) as [x y].
  intros Ha. apply negb_true_iff in Ha. rewrite Ha.
  cbn [Actions._directionsAsList map for_ Actions._directions].
  repeat match goal with
         | |- context [Grid.get ?w ?a ?b] =>
             destruct (Grid.get w a b) as [[|]|]; cbn [bind negb]
         end; reflexivity.
Qed.




(** ** Lists under Python indexing *)

Lemma slot_lt (n : nat) (i : Z) (k : nat) : slot n i = Some k -> (k < n)%nat.
Proof.
  unfold slot.
  destruct (Z.leb_spec 0 i), (Z.ltb_spec i (Z.of_nat n)); cbn [andb];
    try (intros E; injection E as <-; lia);
    destruct (Z.leb_spec (- Z.of_nat n) i), (Z.ltb_spec i 0); cbn [andb];
    try discriminate; intros E; injection E as <-; lia.
Qed.

Lemma slot_nonneg (n : nat) (i : Z) (k : nat) :
  0 <= i -> slot n i = Some k -> k = Z.to_nat i.
Proof.
  unfold slot. intros Hi.
  destruct (Z.leb_spec 0 i), (Z.ltb_spec i (Z.of_nat n)); cbn [andb];
    try (intros E; injection E as <-; lia);
    destruct (Z.leb_spec (- Z.of_nat n) i), (Z.ltb_spec i 0); cbn [andb];
    try discriminate; lia.
Qed.

Lemma index_ok {A} (l : list A) (i : Z) (a : A) :
  index l i = Ok a ->
  exists k, slot (length l) i = Some k /\ nth_error l k = Some a.
Proof.
  unfold index. destruct (slot (length l) i) as [k|]; [|discriminate].
  destruct (nth_error l k) as [b|] eqn:E; [|discriminate].
  intros H; injection H as <-. eauto.
Qed.

Lemma index_slot {A} (l : list A) (i : Z) (k : nat) (a : A) :
  slot (length l) i = Some k -> nth_error l k = Some a -> index l i = Ok a.
Proof. unfold index. now intros -> ->. Qed.

Lemma assign_ok {A} (l l' : list A) (i : Z) (v : A) :
  assign l i v = Ok l' ->
  exists k, slot (length l) i = Some k /\ l' = update l k v.
Proof.
  unfold assign. destruct (slot (length l) i) as [k|]; [|discriminate].
  intros H; injection H as <-. eauto.
Qed.

Lemma update_length {A} (l : list A) (k : nat) (v : A) :
  length (update l k v) = length l.
Proof.
  revert k; induction l as [|a l IH]; intros [|k]; simpl; auto.
Qed.

Lemma nth_error_update_eq {A} (l : list A) (k : nat) (v : A) :
  (k < length l)%nat -> nth_error (update l k v) k = Some v.
Proof.
  revert k; induction l as [|a l IH]; intros [|k]; simpl; intros H;
    try lia; auto. apply IH. lia.
Qed.

Lemma nth_error_update_neq {A} (l : list A) (k j : nat) (v : A) :
  k <> j -> nth_error (update l k v) j = nth_error l j.
Proof.
  revert k j; induction l as [|a l IH]; intros [|k] [|j]; simpl; intros H;
    try lia; auto.
Qed.

Lemma nth_error_snoc {A} (l : list A) (a : A) :
  nth_error (l ++ [a]) (length l) = Some a.
Proof.
  rewrite nth_error_app2 by lia. now rewrite Nat.sub_diag.
Qed.

Lemma nth_error_snoc_old {A} (l : list A) (a : A) (k : nat) :
  (k < length l)%nat -> nth_error (l ++ [a]) k = nth_error l k.
Proof. intros H. now rewrite nth_error_app1. Qed.

Lemma update_snoc {A} (l : list A) (a v : A) :
  update (l ++ [a]) (length l) v = l ++ [v].
Proof. induction l as [|b l IH]; simpl; [reflexivity|now rewrite IH]. Qed.

Lemma count_bool_cons (v b : bool) (l : list bool) :
  count_bool v (b :: l) = (if Bool.eqb v b then 1 else 0) + count_bool v l.
Proof.
  unfold count_bool. cbn [filter].
  destruct (Bool.eqb v b); cbn [length]; lia.
Qed.

(** Clearing a cell that was set lowers the count of set cells by one;
    setting a cell that was clear raises it by one. *)
Lemma count_bool_update (l : list bool) (k : nat) (b : bool) :
  nth_error l k = Some (negb b) ->
  count_bool true (update l k b)
  = count_bool true l + (if b then 1 else -1).
Proof.
  revert k; induction l as [|a l IH]; intros [|k]; cbn [update nth_error];
    try discriminate.
  - intros H; injection H as ->. rewrite !count_bool_cons.
    destruct b; cbn [Bool.eqb negb]; lia.
  - intros H. rewrite !count_bool_cons, (IH _ H). lia.
Qed.

Lemma count_false_all (n : Z) :
  count_bool true (map (fun _ => false) (range n)) = 0.
Proof.
  unfold count_bool. induction (range n) as [|a l IH]; simpl; auto.
Qed.

Lemma sum_cons (a : Z) (l : list Z) : sum (a :: l) = a + sum l.
Proof. reflexivity. Qed.

Lemma count_update (m : Grid.matrix) (k : nat) (col col' : list bool) :
  nth_error m k = Some col ->
  Grid.count (update m k col') true
  = Grid.count m true - count_bool true col + count_bool true col'.
Proof.
  unfold Grid.count.
  revert k; induction m as [|a m IH]; intros [|k];
    cbn [update nth_error map]; try discriminate; rewrite !sum_cons.
  - intros H; injection H as ->. lia.
  - intros H. rewrite (IH _ H). lia.
Qed.

(** ** Cells of a grid *)

Lemma grid_get_ok (w h : Z) (m : Grid.matrix) (x y : Z) (b : bool) :
  Grid.get (Grid.Make w h m) (PyInt x) (PyInt y) = Ok b ->
  exists kx ky col,
    slot (length m) x = Some kx /\ nth_error m kx = Some col
    /\ slot (length col) y = Some ky /\ nth_error col ky = Some b.
Proof.
  unfold Grid.get, Grid.__getitem__, getitem. cbn [Grid.data].
  intros H. step H.
  apply index_ok in E. destruct E as (kx & Hkx & Hcol).
  apply index_ok in H. destruct H as (ky & Hky & Hb).
  exists kx, ky, a. auto.
Qed.

Lemma grid_get_slot (w h : Z) (m : Grid.matrix) (x y : Z) (b : bool)
  (kx ky : nat) (col : list bool) :
  slot (length m) x = Some kx -> nth_error m kx = Some col ->
  slot (length col) y = Some ky -> nth_error col ky = Some b ->
  Grid.get (Grid.Make w h m) (PyInt x) (PyInt y) = Ok b.
Proof.
  intros Hkx Hcol Hky Hb.
  unfold Grid.get, Grid.__getitem__, getitem. cbn [Grid.data].
  rewrite (index_slot _ _ _ _ Hkx Hcol). cbn [bind].
  apply (index_slot _ _ _ _ Hky Hb).
Qed.

Lemma grid_set_ok (w h : Z) (m : Grid.matrix) (x y : Z) (v : bool)
  (g' : Grid.grid) :
  Grid.set (Grid.Make w h m) (PyInt x) (PyInt y) v = Ok g' ->
  exists kx ky col,
    slot (length m) x = Some kx /\ nth_error m kx = Some col
    /\ slot (length col) y = Some ky
    /\ g' = Grid.Make w h (update m kx (update col ky v)).
Proof.
  unfold Grid.set, Grid.__getitem__, getitem, setitem.
  cbn [Grid.data Grid.width Grid.height].
  intros H. step H.
  apply index_ok in E. destruct E as (kx & Hkx & Hcol).
  step H. apply assign_ok in E. destruct E as (ky & Hky & ->).
  step H. apply assign_ok in E. destruct E as (kx' & Hkx' & ->).
  injection H as <-.
  assert (kx' = kx) by congruence. subst kx'.
  exists kx, ky, a. auto.
Qed.

(** Clearing a cell that holds food leaves one food cell less. *)
Lemma clear_cell_count (w h : Z) (m : Grid.matrix) (x y : Z) (g' : Grid.grid) :
  Grid.get (Grid.Make w h m) (PyInt x) (PyInt y) = Ok true ->
  Grid.set (Grid.Make w h m) (PyInt x) (PyInt y) false = Ok g' ->
  Grid.count (Grid.data g') true = Grid.count m true - 1.
Proof.
  intros Hg Hs.
  apply grid_get_ok in Hg. destruct Hg as (kx & ky & col & Hkx & Hcol & Hky & Hb).
  apply grid_set_ok in Hs.
  destruct Hs as (kx' & ky' & col' & Hkx' & Hcol' & Hky' & ->).
  assert (kx' = kx) by congruence. subst kx'.
  assert (col' = col) by congruence. subst col'.
  assert (ky' = ky) by congruence. subst ky'.
  cbn [Grid.data].
  rewrite (count_update _ _ _ _ Hcol).
  rewrite (count_bool_update col ky false Hb). lia.
Qed.

(** No write of [False] makes a cell hold food. *)
Lemma clear_cell_mono (w h : Z) (m : Grid.matrix) (x y : Z) (g' : Grid.grid)
  (x' y' : Z) :
  Grid.set (Grid.Make w h m) (PyInt x) (PyInt y) false = Ok g' ->
  Grid.get g' (PyInt x') (PyInt y') = Ok true ->
  Grid.get (Grid.Make w h m) (PyInt x') (PyInt y') = Ok true.
Proof.
  intros Hs Hg.
  apply grid_set_ok in Hs.
  destruct Hs as (kx & ky & col & Hkx & Hcol & Hky & ->).
  apply grid_get_ok in Hg.
  destruct Hg as (jx & jy & c & Hjx & Hc & Hjy & Hb).
  rewrite update_length in Hjx.
  destruct (Nat.eq_dec kx jx) as [->|Hne].
  - rewrite nth_error_update_eq in Hc by (eapply slot_lt; eauto).
    injection Hc as <-. rewrite update_length in Hjy.
    destruct (Nat.eq_dec ky jy) as [->|Hne].
    + rewrite nth_error_update_eq in Hb by (eapply slot_lt; eauto).
      discriminate.
    + rewrite nth_error_update_neq in Hb by assumption.
      eapply grid_get_slot; eauto.
  - rewrite nth_error_update_neq in Hc by assumption.
    eapply grid_get_slot; eauto.
Qed.

(** ** The rules, step by step *)

Import GameStateData.

Lemma getPosition_ok (a : AgentState.t) (h h' : Store.t) (p : Q * Q) :
  GameState.getPosition a h = Ok (p, h') ->
  exists c, nth_error (Store.configs h) (AgentState.configuration a) = Some c
            /\ p = Configuration.pos c /\ h' = h.
Proof.
  unfold GameState.getPosition. intros H. step H.
  done_step E. done_step H. subst. eauto.
Qed.

Lemma generateSuccessor_config_ok (r c : ref) (v : Q * Q) (h h' : Store.t) :
  ConfigRef.generateSuccessor r v h = Ok (c, h') ->
  exists conf conf',
    nth_error (Store.configs h) r = Some conf
    /\ Configuration.pos conf'
       = (fst (Configuration.pos conf) + fst v, snd (Configuration.pos conf) + snd v)%Q
    /\ c = length (Store.configs h)
    /\ h' = Store.Make (Store.configs h ++ [conf']) (Store.eatens h)
                       (Store.matrices h).
Proof.
  unfold ConfigRef.generateSuccessor. intros H. step H. done_step E. subst.
  destruct (Configuration.pos a) as [x y] eqn:Ep. destruct v as [dx dy].
  unfold newConfig in H. injection H as <- <-.
  eexists a, (Configuration.Make _ _). rewrite Ep.
  cbn [Configuration.pos fst snd].
  repeat split; try reflexivity; assumption.
Qed.

Lemma putAgent_ok (i : Z) (a : AgentState.t) (st st' : GameState.t) :
  GameState.putAgent i a st = Ok st' ->
  exists k,
    slot (length (agentStates (GameState.data st))) i = Some k
    /\ st' = GameState.upd
               (set_agentStates (update (agentStates (GameState.data st)) k a)) st.
Proof.
  unfold GameState.putAgent. intros H. step H.
  apply assign_ok in E. destruct E as (k & Hk & ->).
  injection H as <-. eauto.
Qed.

Lemma pacman_legal_store (st : GameState.t) (h h' : Store.t)
  (l : list Directions.t) :
  PacmanRules.getLegalActions st h = Ok (l, h') -> h' = h.
Proof.
  unfold PacmanRules.getLegalActions. intros H.
  step H. done_step E. step H. done_step E0. done_step H. congruence.
Qed.

Lemma ghost_legal_store (st : GameState.t) (i : Z) (h h' : Store.t)
  (l : list Directions.t) :
  GhostRules.getLegalActions st i h = Ok (l, h') -> h' = h.
Proof.
  unfold GhostRules.getLegalActions. intros H.
  step H. done_step E. step H. done_step E0. step H. done_step E1.
  done_step H. congruence.
Qed.

Lemma scare_loop (idxs : list Z) (st st' : GameState.t) :
  for_ idxs
    (fun i state =>
       a <- index (agentStates (GameState.data state)) i ;;
       GameState.putAgent i (AgentState.with_scaredTimer a SCARED_TIME) state)
    st = Ok st' ->
  exists l,
    st' = GameState.upd (set_agentStates l) st
    /\ length l = length (agentStates (GameState.data st)).
Proof.
  revert st. induction idxs as [|i idxs IH]; intros st H.
  - injection H as <-. exists (agentStates (GameState.data st)).
    destruct st as [[]]. split; reflexivity.
  - cbn [for_] in H. step H. step E.
    apply putAgent_ok in E. destruct E as (k & Hk & ->).
    apply IH in H. destruct H as (l & -> & Hl).
    exists l. split; [reflexivity|].
    rewrite Hl. cbn. apply update_length.
Qed.

Lemma scareAll_ok (st st' : GameState.t) :
  PacmanRules.scareAll st = Ok st' ->
  exists l,
    st' = GameState.upd (set_agentStates l) st
    /\ length l = length (agentStates (GameState.data st)).
Proof. apply scare_loop. Qed.

(** What [consume] does to the state and to the store. *)
Lemma consume_ok (position : Z * Z) (st st' : GameState.t) (h h' : Store.t) :
  PacmanRules.consume position st h = Ok (st', h') ->
  let d := GameState.data st in
  let d' := GameState.data st' in
  exists (m : Grid.matrix) (f : bool),
    nth_error (Store.matrices h) (Grid.data (food d)) = Some m
    /\ Grid.get (Grid.Make (Grid.width (food d)) (Grid.height (food d)) m)
                (PyInt (fst position)) (PyInt (snd position)) = Ok f
    /\ Store.configs h' = Store.configs h
    /\ Store.eatens h' = Store.eatens h
    /\ layout d' = layout d
    /\ _eaten d' = _eaten d
    /\ score d' = score d
    /\ _lose d' = _lose d
    /\ length (agentStates d') = length (agentStates d)
    /\ (if f
        then
          exists g',
            Grid.set (Grid.Make (Grid.width (food d)) (Grid.height (food d)) m)
                     (PyInt (fst position)) (PyInt (snd position)) false = Ok g'
            /\ Store.matrices h' = Store.matrices h ++ [Grid.data g']
            /\ food d' = Grid.Make (Grid.width (food d)) (Grid.height (food d))
                                   (length (Store.matrices h))
            /\ _foodEaten d' = Some position
            /\ (if (Grid.count (Grid.data g') true =? 0) && negb (_lose d)
                then scoreChange d' = scoreChange d + 10 + 500 /\ _win d' = true
                else scoreChange d' = scoreChange d + 10 /\ _win d' = _win d)
        else
          Store.matrices h' = Store.matrices h
          /\ food d' = food d
          /\ _foodEaten d' = _foodEaten d
          /\ scoreChange d' = scoreChange d
          /\ _win d' = _win d).
Proof.
  destruct position as [x y]. unfold PacmanRules.consume.
  intros H. cbv zeta. mstep H as f h0 Ef.
  (* the read of the cell *)
  unfold GridRef.get, GridRef.view in Ef.
  mstep Ef as g0 h1 Eg. mstep Eg as m h2 Em.
  done_step Em. done_step Eg. done_step Ef. subst h2 h1 h0 g0.
  exists m, f. cbn [fst snd].
  split; [assumption|]. split; [assumption|].
  mstep H as s1 h1 E1.
  (* the capsule, which touches neither the food nor the store *)
  assert (Hcaps :
    h' = h1
    /\ food (GameState.data st') = food (GameState.data s1)
    /\ layout (GameState.data st') = layout (GameState.data s1)
    /\ _eaten (GameState.data st') = _eaten (GameState.data s1)
    /\ score (GameState.data st') = score (GameState.data s1)
    /\ _lose (GameState.data st') = _lose (GameState.data s1)
    /\ _win (GameState.data st') = _win (GameState.data s1)
    /\ _foodEaten (GameState.data st') = _foodEaten (GameState.data s1)
    /\ scoreChange (GameState.data st') = scoreChange (GameState.data s1)
    /\ length (agentStates (GameState.data st'))
       = length (agentStates (GameState.data s1))).
  { destruct (PacmanRules.memPos (x, y) (GameState.getCapsules s1)).
    - done_step H. apply scareAll_ok in H. destruct H as (l & -> & Hl).
      subst. cbn in Hl |- *. repeat split; auto.
    - done_step H. subst. repeat split; reflexivity. }
  clear H.
  destruct Hcaps as (-> & Hf & Hla & Hea & Hsc & Hlo & Hwi & Hfe & Hch & Hlen).
  rewrite Hf, Hla, Hea, Hsc, Hlo, Hwi, Hfe, Hch, Hlen. clear Hf Hla Hea Hsc Hlo Hwi Hfe Hch Hlen.
  destruct f.
  - (* food *)
    mstep E1 as g h2 Ec.
    unfold GridRef.copy in Ec.
    cbn [GameState.data GameState.upd food set_scoreChange] in Ec.
    mstep Ec as m0 h3 Em0. done_step Em0. subst h3.
    assert (m0 = m) by congruence. subst m0.
    mstep Ec as r h4 Er. unfold newMatrix in Er. injection Er as <- <-.
    done_step Ec. subst g h2. rewrite map_id in E1.
    mstep E1 as u h5 Es.
    unfold GridRef.set, GridRef.view in Es.
    cbn [GameState.data GameState.upd food set_food Grid.data Grid.width
         Grid.height] in Es.
    mstep Es as g1 h6 Ev. mstep Ev as m1 h7 Em1.
    done_step Em1. done_step Ev. subst h7 h6 g1.
    cbn [Store.matrices] in Em1. rewrite nth_error_snoc in Em1.
    injection Em1 as <-.
    mstep Es as g' h8 Eset. done_step Eset. subst h8.
    unfold putMatrix in Es. cbn [Store.matrices Store.configs Store.eatens] in Es.
    rewrite length_app in Es. cbn [length] in Es.
    replace (length (Store.matrices h) <? length (Store.matrices h) + 1)%nat
      with true in Es by (symmetry; apply Nat.ltb_lt; lia).
    injection Es as <- <-. rewrite update_snoc in E1.
    mstep E1 as numFood h9 En.
    unfold GameState.getNumFood, GridRef.count in En.
    cbn [GameState.data GameState.upd food set__foodEaten set_food Grid.data] in En.
    mstep En as m2 h10 Em2. done_step Em2. done_step En. subst h10 h9 numFood.
    cbn [Store.matrices] in Em2. rewrite nth_error_snoc in Em2.
    injection Em2 as <-.
    cbn [GameState.data GameState.upd _lose set__foodEaten set_food
         set_scoreChange] in E1.
    destruct ((Grid.count (Grid.data g') true =? 0)
              && negb (_lose (GameState.data st))) eqn:Ew;
      done_step E1; subst s1 h1;
      cbn [Store.configs Store.eatens Store.matrices];
      repeat (split; [reflexivity|]);
      exists g'; rewrite Ew; cbn; repeat split; auto; lia.
  - (* no food *)
    done_step E1. subst s1 h1. repeat split; reflexivity.
Qed.

Lemma pacman_applyAction_ok (st st' : GameState.t) (action : Directions.t)
  (h h' : Store.t) :
  PacmanRules.applyAction st action h = Ok (st', h') ->
  exists legal pac conf conf',
    PacmanRules.getLegalActions st h = Ok (legal, h)
    /\ Directions.mem action legal = true
    /\ index (agentStates (GameState.data st)) 0 = Ok pac
    /\ nth_error (Store.configs h) (AgentState.configuration pac) = Some conf
    /\ Configuration.pos conf'
       = (fst (Configuration.pos conf)
          + fst (Actions.directionToVector action PacmanRules.PACMAN_SPEED),
          snd (Configuration.pos conf)
          + snd (Actions.directionToVector action PacmanRules.PACMAN_SPEED))%Q
    /\ let h1 := Store.Make (Store.configs h ++ [conf']) (Store.eatens h)
                            (Store.matrices h) in
       let st1 :=
         GameState.upd
           (set_agentStates
              (update (agentStates (GameState.data st)) 0
                 (AgentState.with_configuration pac (length (Store.configs h)))))
           st in
       let next := Configuration.pos conf' in
       let nearest := Util.nearestPoint next in
       if Qle_bool (Util.manhattanDistance (Util.point nearest) next) (1 # 2)
       then PacmanRules.consume nearest st1 h1 = Ok (st', h')
       else st' = st1 /\ h' = h1.
Proof.
  unfold PacmanRules.applyAction. intros H.
  mstep H as legal h0 El.
  assert (h0 = h) by (eapply pacman_legal_store; eauto). subst h0.
  destruct (Directions.mem action legal) eqn:Emem; cbn [negb] in H;
    [|done_step H].
  mstep H as pac h0 Ep. done_step Ep. subst h0.
  mstep H as c h1 Ec.
  apply generateSuccessor_config_ok in Ec.
  destruct Ec as (conf & conf' & Hconf & Hpos & -> & ->).
  mstep H as st1 h2 Eput. done_step Eput. subst h2.
  apply putAgent_ok in Eput. destruct Eput as (k & Hk & ->).
  assert (k = 0%nat).
  { apply index_ok in Ep. destruct Ep as (k0 & Hk0 & _).
    assert (k0 = k) by congruence. subst k0.
    apply slot_nonneg in Hk; [|lia]. exact Hk. }
  subst k.
  mstep H as next h3 En. apply getPosition_ok in En.
  destruct En as (c & Hc & -> & ->).
  cbn [AgentState.configuration AgentState.with_configuration Store.configs] in Hc.
  rewrite nth_error_snoc in Hc. injection Hc as <-.
  exists legal, pac, conf, conf'.
  repeat (split; [assumption|]). cbv zeta.
  destruct (Qle_bool _ _); [exact H|].
  done_step H. auto.
Qed.

Lemma ghost_applyAction_ok (st st' : GameState.t) (action : Directions.t)
  (ghostIndex : Z) (h h' : Store.t) :
  GhostRules.applyAction st action ghostIndex h = Ok (st', h') ->
  exists legal g k conf conf',
    GhostRules.getLegalActions st ghostIndex h = Ok (legal, h)
    /\ Directions.mem action legal = true
    /\ slot (length (agentStates (GameState.data st))) ghostIndex = Some k
    /\ nth_error (agentStates (GameState.data st)) k = Some g
    /\ nth_error (Store.configs h) (AgentState.configuration g) = Some conf
    /\ Configuration.pos conf'
       = (let v := Actions.directionToVector action
                     (if AgentState.scaredTimer g >? 0
                      then (GhostRules.GHOST_SPEED / 2)%Q
                      else GhostRules.GHOST_SPEED) in
          (fst (Configuration.pos conf) + fst v,
           snd (Configuration.pos conf) + snd v)%Q)
    /\ h' = Store.Make (Store.configs h ++ [conf']) (Store.eatens h)
                       (Store.matrices h)
    /\ st' = GameState.upd
               (set_agentStates
                  (update (agentStates (GameState.data st)) k
                     (AgentState.with_configuration g (length (Store.configs h)))))
               st.
Proof.
  unfold GhostRules.applyAction. intros H.
  mstep H as legal h0 El.
  assert (h0 = h) by (eapply ghost_legal_store; eauto). subst h0.
  destruct (Directions.mem action legal) eqn:Emem; cbn [negb] in H;
    [|done_step H].
  mstep H as g h0 Eg. done_step Eg. subst h0.
  apply index_ok in Eg. destruct Eg as (k & Hk & Hg).
  mstep H as c h1 Ec.
  apply generateSuccessor_config_ok in Ec.
  destruct Ec as (conf & conf' & Hconf & Hpos & -> & ->).
  done_step H. subst h'.
  apply putAgent_ok in H. destruct H as (k' & Hk' & ->).
  assert (k' = k) by congruence. subst k'.
  exists legal, g, k, conf, conf'.
  repeat (split; [assumption|]). split; reflexivity.
Qed.

Lemma decrementTimer_ok (g g' : AgentState.t) (h h' : Store.t) :
  GhostRules.decrementTimer g h = Ok (g', h') ->
  g' = AgentState.with_scaredTimer g (Z.max 0 (AgentState.scaredTimer g - 1))
  /\ (if AgentState.scaredTimer g =? 1
      then
        exists c,
          nth_error (Store.configs h) (AgentState.configuration g) = Some c
          /\ (AgentState.configuration g < length (Store.configs h))%nat
          /\ h' = Store.Make
                    (update (Store.configs h) (AgentState.configuration g)
                       (Configuration.Make
                          (Util.point (Util.nearestPoint (Configuration.pos c)))
                          (Configuration.direction c)))
                    (Store.eatens h) (Store.matrices h)
      else h' = h).
Proof.
  unfold GhostRules.decrementTimer. intros H.
  mstep H as u h0 E. done_step H. subst g' h'.
  split; [reflexivity|].
  destruct (AgentState.scaredTimer g =? 1).
  - mstep E as c h1 Ec. done_step Ec. subst h1.
    unfold putConfig in E.
    destruct (Nat.ltb_spec (AgentState.configuration g)
                           (length (Store.configs h))); [|discriminate].
    injection E as <-. exists c. auto.
  - done_step E. auto.
Qed.

(** ** Collisions *)

Lemma collide_ok (st st' : GameState.t) (g : AgentState.t) (agentIndex : Z)
  (h h' : Store.t) :
  GhostRules.collide st g agentIndex h = Ok (st', h') ->
  if AgentState.scaredTimer g >? 0
  then
    exists k l j,
      slot (length (agentStates (GameState.data st))) agentIndex = Some k
      /\ nth_error (Store.eatens h) (_eaten (GameState.data st)) = Some l
      /\ slot (length l) agentIndex = Some j
      /\ st' = GameState.upd
                 (fun d =>
                    set_agentStates
                      (update (agentStates d) k
                         (AgentState.with_scaredTimer (GhostRules.placeGhost g) 0))
                      (set_scoreChange (scoreChange d + 200) d))
                 st
      /\ h' = Store.Make (Store.configs h)
                (update (Store.eatens h) (_eaten (GameState.data st))
                        (update l j true))
                (Store.matrices h)
  else
    h' = h
    /\ st' = if negb (_win (GameState.data st))
             then GameState.upd
                    (fun d => set__lose true
                                (set_scoreChange (scoreChange d - 500) d)) st
             else st.
Proof.
  unfold GhostRules.collide. intros H.
  destruct (AgentState.scaredTimer g >? 0).
  - mstep H as st1 h1 Ep. done_step Ep. subst h1.
    apply putAgent_ok in Ep. destruct Ep as (k & Hk & ->).
    cbn [GameState.data GameState.upd agentStates set_scoreChange] in Hk.
    mstep H as l h1 El. done_step El. subst h1.
    cbn [GameState.data GameState.upd _eaten set_agentStates set_scoreChange] in El.
    mstep H as l' h1 Ea. done_step Ea. subst h1.
    apply assign_ok in Ea. destruct Ea as (j & Hj & ->).
    mstep H as u h1 Eput. done_step H. subst st' h'.
    unfold putEaten in Eput.
    cbn [GameState.data GameState.upd _eaten set_agentStates set_scoreChange]
      in Eput.
    assert (Hlt : (_eaten (GameState.data st) < length (Store.eatens h))%nat).
    { apply nth_error_Some. congruence. }
    apply Nat.ltb_lt in Hlt. rewrite Hlt in Eput.
    injection Eput as _ Eh. subst h1.
    exists k, l, j. repeat (split; [assumption|]). split; reflexivity.
  - destruct (negb (_win (GameState.data st))); done_step H; subst; auto.
Qed.

Lemma checkOne_ok (pac : Q * Q) (idx : Z) (st st' : GameState.t)
  (h h' : Store.t) :
  GhostRules.checkOne pac idx st h = Ok (st', h') ->
  exists g k c,
    slot (length (agentStates (GameState.data st))) idx = Some k
    /\ nth_error (agentStates (GameState.data st)) k = Some g
    /\ nth_error (Store.configs h) (AgentState.configuration g) = Some c
    /\ if GhostRules.canKill pac (Configuration.pos c)
       then GhostRules.collide st g idx h = Ok (st', h')
       else st' = st /\ h' = h.
Proof.
  unfold GhostRules.checkOne. intros H.
  mstep H as g h1 Eg. done_step Eg. subst h1.
  apply index_ok in Eg. destruct Eg as (k & Hk & Hg).
  mstep H as p h1 Ep. apply getPosition_ok in Ep.
  destruct Ep as (c & Hc & -> & ->).
  exists g, k, c. repeat (split; [assumption|]).
  destruct (GhostRules.canKill pac (Configuration.pos c)); [exact H|].
  done_step H. auto.
Qed.

(** What one check adds to the score and to the flags: [e] tells that the
    pursuer was eaten, [k] that it killed Pacman. *)
Lemma checkOne_effect (pac : Q * Q) (idx : Z) (st st' : GameState.t)
  (h h' : Store.t) :
  GhostRules.checkOne pac idx st h = Ok (st', h') ->
  let d := GameState.data st in
  let d' := GameState.data st' in
  food d' = food d /\ capsules d' = capsules d /\ layout d' = layout d
  /\ _eaten d' = _eaten d /\ score d' = score d
  /\ _foodEaten d' = _foodEaten d /\ _win d' = _win d
  /\ length (agentStates d') = length (agentStates d)
  /\ Store.configs h' = Store.configs h
  /\ Store.matrices h' = Store.matrices h
  /\ exists e k : bool,
       scoreChange d' = scoreChange d + (if e then 200 else 0)
                        - (if k then 500 else 0)
       /\ _lose d' = _lose d || k
       /\ (k = true -> _win d = false)
       /\ (if e
           then exists l j,
               nth_error (Store.eatens h) (_eaten d) = Some l
               /\ slot (length l) idx = Some j
               /\ Store.eatens h'
                  = update (Store.eatens h) (_eaten d) (update l j true)
           else Store.eatens h' = Store.eatens h).
Proof.
  intros H. cbv zeta. apply checkOne_ok in H.
  destruct H as (g & k & c & Hk & Hg & Hc & H).
  destruct (GhostRules.canKill pac (Configuration.pos c)).
  - apply collide_ok in H. destruct (AgentState.scaredTimer g >? 0).
    + destruct H as (k' & l & j & Hk' & Hl & Hj & -> & ->).
      cbn. rewrite update_length. repeat (split; [reflexivity|]).
      exists true, false. rewrite orb_false_r.
      repeat split; try lia; try discriminate.
      exists l, j. auto.
    + destruct H as [-> ->].
      destruct (_win (GameState.data st)) eqn:Ew; cbn [negb].
      * repeat (split; [auto|]). exists false, false.
        rewrite orb_false_r. repeat split; try lia; try discriminate.
      * cbn. repeat (split; [auto|]). exists false, true.
        rewrite orb_true_r. repeat split; auto; lia.
  - destruct H as [-> ->]. repeat (split; [reflexivity|]).
    exists false, false. rewrite orb_false_r.
    repeat split; try lia; try discriminate.
Qed.

(** One check of a pursuer that stands within Manhattan distance 0.7 of
    Pacman: the payoff goes to the score change of the transition. *)
Lemma check_payoff (pac : Q * Q) (idx : Z) (st st' : GameState.t)
  (h h' : Store.t) (g : AgentState.t) (c : Configuration.t) :
  GhostRules.checkOne pac idx st h = Ok (st', h') ->
  index (agentStates (GameState.data st)) idx = Ok g ->
  nth_error (Store.configs h) (AgentState.configuration g) = Some c ->
  (Util.manhattanDistance (Configuration.pos c) pac <= COLLISION_TOLERANCE)%Q ->
  (0 < AgentState.scaredTimer g ->
   scoreChange (GameState.data st') = scoreChange (GameState.data st) + 200
   /\ exists g',
        index (agentStates (GameState.data st')) idx = Ok g'
        /\ AgentState.configuration g' = AgentState.start g
        /\ AgentState.scaredTimer g' = 0)
  /\ (AgentState.scaredTimer g = 0 ->
      _win (GameState.data st) = false ->
      scoreChange (GameState.data st') = scoreChange (GameState.data st) - 500
      /\ _lose (GameState.data st') = true).
Proof.
  intros H Hg Hc Hd.
  apply checkOne_ok in H. destruct H as (g0 & k & c0 & Hk & Hg0 & Hc0 & H).
  apply index_ok in Hg. destruct Hg as (k' & Hk' & Hg).
  assert (k' = k) by congruence. subst k'.
  assert (g0 = g) by congruence. subst g0.
  assert (c0 = c) by congruence. subst c0.
  assert (Hkill : GhostRules.canKill pac (Configuration.pos c) = true)
    by (apply Qle_bool_iff; exact Hd).
  rewrite Hkill in H. apply collide_ok in H.
  split.
  - intros Ht. apply Z.gtb_lt in Ht. rewrite Ht in H.
    destruct H as (k' & l & j & Hk'' & Hl & Hj & -> & ->).
    assert (k' = k) by congruence. subst k'.
    cbn. split; [reflexivity|].
    exists (AgentState.with_scaredTimer (GhostRules.placeGhost g) 0).
    split; [|split; reflexivity].
    eapply index_slot.
    + rewrite update_length. exact Hk.
    + apply nth_error_update_eq. eapply slot_lt; eauto.
  - intros Ht Hw.
    replace (AgentState.scaredTimer g >? 0) with false in H
      by (rewrite Ht; reflexivity).
    destruct H as [-> ->]. rewrite Hw. cbn. split; reflexivity.
Qed.

(** ** A transition, phase by phase *)

Lemma copyAgentStates_id (l : list AgentState.t) :
  GameStateData.copyAgentStates l = l.
Proof.
  unfold GameStateData.copyAgentStates.
  assert (G : forall acc, fold_left
             (fun copiedStates agentState =>
                copiedStates ++ [AgentState.copy agentState]) l acc = acc ++ l).
  { induction l as [|a l IH]; intros acc; cbn [fold_left].
    - now rewrite app_nil_r.
    - rewrite IH, <- app_assoc. destruct a. reflexivity. }
  apply (G []).
Qed.

Lemma pacman_turn_ok (s s' : GameState.t) (action : Directions.t)
  (h h' : Store.t) :
  generateSuccessor s 0 action h = Ok (s', h') ->
  GameState.isWin s = false /\ GameState.isLose s = false
  /\ exists st1 h1 st3,
       let h0 := Store.Make (Store.configs h)
                   (Store.eatens h
                    ++ [map (fun _ => false)
                            (range (len (agentStates (GameState.data s))))])
                   (Store.matrices h) in
       let st0 := GameState.upd (set__eaten (length (Store.eatens h)))
                                (GameState.__init__ s) in
       PacmanRules.applyAction st0 action h0 = Ok (st1, h1)
       /\ GhostRules.checkDeath
            (GameState.upd (fun d => set_scoreChange (scoreChange d + -1) d) st1)
            0 h1 = Ok (st3, h')
       /\ s' = finish 0 st3.
Proof.
  unfold generateSuccessor. intros H.
  destruct (GameState.isWin s) eqn:Ew; [discriminate|].
  destruct (GameState.isLose s) eqn:El; [discriminate|].
  cbn [orb] in H. change (0 =? 0) with true in H. cbv iota in H.
  split; [reflexivity|]. split; [reflexivity|].
  mstep H as st1 h1 Ea. mstep Ea as e h0 Ee.
  unfold newEaten in Ee. injection Ee as <- <-.
  mstep H as st2 h2 Et. done_step Et. subst st2 h2.
  mstep H as st3 h3 Ec. done_step H. subst s' h3.
  exists st1, h1, st3. cbv zeta.
  unfold GameState.getNumAgents in Ea.
  cbn [GameState.__init__ GameState.data GameStateData.__init__ agentStates] in Ea.
  rewrite copyAgentStates_id in Ea.
  split; [exact Ea|]. split; [exact Ec|reflexivity].
Qed.

Lemma ghost_turn_ok (s s' : GameState.t) (agentIndex : Z)
  (action : Directions.t) (h h' : Store.t) :
  generateSuccessor s agentIndex action h = Ok (s', h') ->
  agentIndex <> 0 ->
  GameState.isWin s = false /\ GameState.isLose s = false
  /\ exists g k conf conf' h2 st3,
       slot (length (agentStates (GameState.data s))) agentIndex = Some k
       /\ nth_error (agentStates (GameState.data s)) k = Some g
       /\ nth_error (Store.configs h) (AgentState.configuration g) = Some conf
       /\ Configuration.pos conf'
          = (let v := Actions.directionToVector action
                        (if AgentState.scaredTimer g >? 0
                         then (GhostRules.GHOST_SPEED / 2)%Q
                         else GhostRules.GHOST_SPEED) in
             (fst (Configuration.pos conf) + fst v,
              snd (Configuration.pos conf) + snd v)%Q)
       /\ h2 = Store.Make
                 (Store.configs h
                  ++ [if AgentState.scaredTimer g =? 1
                      then Configuration.Make
                             (Util.point
                                (Util.nearestPoint (Configuration.pos conf')))
                             (Configuration.direction conf')
                      else conf'])
                 (Store.eatens h) (Store.matrices h)
       /\ GhostRules.checkDeath
            (GameState.upd
               (set_agentStates
                  (update (agentStates (GameState.data s)) k
                     (AgentState.with_scaredTimer
                        (AgentState.with_configuration g
                           (length (Store.configs h)))
                        (Z.max 0 (AgentState.scaredTimer g - 1)))))
               (GameState.__init__ s))
            agentIndex h2 = Ok (st3, h')
       /\ s' = finish agentIndex st3.
Proof.
  unfold generateSuccessor. intros H Hi.
  destruct (GameState.isWin s) eqn:Ew; [discriminate|].
  destruct (GameState.isLose s) eqn:El; [discriminate|].
  cbn [orb] in H. apply Z.eqb_neq in Hi. rewrite Hi in H.
  split; [reflexivity|]. split; [reflexivity|].
  mstep H as st1 h1 Ea.
  apply ghost_applyAction_ok in Ea.
  destruct Ea as (legal & g & k & conf & conf' & _ & _ & Hk & Hg & Hc & Hp & -> & ->).
  cbn [GameState.__init__ GameState.data GameStateData.__init__ agentStates]
    in Hk, Hg.
  rewrite copyAgentStates_id in Hk, Hg.
  mstep H as st2 h2 Et.
  mstep Et as g0 h3 Eg. done_step Eg. subst h3.
  cbn [GameState.data GameState.upd agentStates set_agentStates
       GameState.__init__ GameStateData.__init__] in Eg.
  rewrite copyAgentStates_id in Eg.
  apply index_ok in Eg. destruct Eg as (k' & Hk' & Hg0).
  rewrite update_length in Hk'.
  assert (k' = k) by congruence. subst k'.
  rewrite nth_error_update_eq in Hg0 by (eapply slot_lt; eauto).
  injection Hg0 as <-.
  mstep Et as g1 h3 Ed. apply decrementTimer_ok in Ed.
  destruct Ed as [-> Hh3].
  cbn [AgentState.scaredTimer AgentState.with_configuration
       AgentState.configuration Store.configs Store.eatens Store.matrices]
    in Hh3.
  done_step Et. subst h3.
  apply putAgent_ok in Et. destruct Et as (k2 & Hk2 & ->).
  cbn [GameState.data GameState.upd agentStates set_agentStates
       GameState.__init__ GameStateData.__init__] in Hk2.
  rewrite copyAgentStates_id, update_length in Hk2.
  assert (k2 = k) by congruence. subst k2.
  mstep H as st3 h3 Ec. done_step H. subst s' h3.
  exists g, k, conf, conf'.
  eexists _, st3.
  repeat (split; [eassumption|]).
  split; [reflexivity|].
  split; [|reflexivity].
  (* the state and the store that reach [checkDeath] *)
  match goal with
  | |- GhostRules.checkDeath ?a _ ?b = _ =>
      match type of Ec with
      | GhostRules.checkDeath ?a' _ ?b' = _ =>
          replace a with a'; [replace b with b'; [exact Ec|]|]
      end
  end.
  - destruct (AgentState.scaredTimer g =? 1).
    + destruct Hh3 as (c & Hc' & _ & ->).
      rewrite nth_error_snoc in Hc'. injection Hc' as <-.
      rewrite update_snoc. reflexivity.
    + subst h2. reflexivity.
  - cbn [GameState.data GameState.upd agentStates set_agentStates
         GameState.__init__ GameStateData.__init__].
    rewrite copyAgentStates_id.
    unfold GameState.upd. f_equal.
    cbn [GameState.data]. unfold set_agentStates. cbn.
    f_equal.
    generalize (agentStates (GameState.data s)) k.
    induction l as [|x l IH]; intros [|n]; cbn; try reflexivity.
    now rewrite IH.
Qed.

Lemma range2_props (a b : Z) :
  NoDup (range2 a b) /\ forall i, In i (range2 a b) -> a <= i < b.
Proof.
  unfold range2. split.
  - generalize (seq_NoDup (Z.to_nat (b - a)) 0).
    induction 1 as [|x l Hx Hl IH]; cbn [map]; constructor; [|assumption].
    rewrite in_map_iff. intros (y & Hy & Hin).
    assert (y = x) by lia. subst y. contradiction.
  - intros i Hi. apply in_map_iff in Hi. destruct Hi as (k & <- & Hk).
    apply in_seq in Hk. lia.
Qed.

(** Pacman's turn: the checks of all pursuers, one after the other.  [l]
    is the [_eaten] list before the checks and [l'] after them; [K] counts
    the pursuers that killed Pacman. *)
Lemma check_loop (pac : Q * Q) (idxs : list Z) :
  forall (st st' : GameState.t) (h h' : Store.t) (l : list bool),
    forM idxs (GhostRules.checkOne pac) st h = Ok (st', h') ->
    nth_error (Store.eatens h) (_eaten (GameState.data st)) = Some l ->
    NoDup idxs ->
    (forall i, In i idxs ->
               0 <= i /\ (forall b, nth_error l (Z.to_nat i) = Some b -> b = false)) ->
    let d := GameState.data st in
    let d' := GameState.data st' in
    food d' = food d /\ capsules d' = capsules d /\ layout d' = layout d
    /\ _eaten d' = _eaten d /\ score d' = score d
    /\ _foodEaten d' = _foodEaten d /\ _win d' = _win d
    /\ length (agentStates d') = length (agentStates d)
    /\ Store.configs h' = Store.configs h
    /\ Store.matrices h' = Store.matrices h
    /\ exists (l' : list bool) (K : Z),
         nth_error (Store.eatens h') (_eaten d) = Some l'
         /\ 0 <= K
         /\ scoreChange d'
            = scoreChange d
              + 200 * (count_bool true l' - count_bool true l) - 500 * K
         /\ _lose d' = _lose d || (0 <? K)
         /\ (_win d = true -> K = 0).
Proof.
  induction idxs as [|i idxs IH]; intros st st' h h' l H Hl Hnd Hfalse; cbv zeta.
  - cbn [forM] in H. done_step H. subst st' h'.
    repeat (split; [reflexivity|]).
    exists l, 0. rewrite orb_false_r.
    repeat split; auto; lia.
  - cbn [forM] in H. mstep H as st1 h1 E1.
    apply checkOne_effect in E1. cbv zeta in E1.
    destruct E1 as (Hf & Hcp & Hla & Hea & Hsc & Hfe & Hw & Hlen & Hcf & Hmx
                    & e & k & Hch & Hlo & Hkw & He).
    inversion Hnd as [|? ? Hni Hnd']; subst.
    destruct (Hfalse i (or_introl eq_refl)) as [Hi0 Hif].
    (* the [_eaten] list after this check *)
    assert (Hl1 : exists l1,
      nth_error (Store.eatens h1) (_eaten (GameState.data st1)) = Some l1
      /\ count_bool true l1 = count_bool true l + (if e then 1 else 0)
      /\ forall i', In i' idxs ->
           0 <= i' /\ (forall b, nth_error l1 (Z.to_nat i') = Some b -> b = false)).
    { rewrite Hea. destruct e.
      - destruct He as (l0 & j & Hl0 & Hj & ->).
        assert (l0 = l) by congruence. subst l0.
        exists (update l j true).
        assert (Hjl : (j < length l)%nat) by (eapply slot_lt; eauto).
        assert (j = Z.to_nat i) by (eapply slot_nonneg; eauto). subst j.
        split; [|split].
        + apply nth_error_update_eq. apply nth_error_Some. congruence.
        + apply (count_bool_update l (Z.to_nat i) true).
          destruct (nth_error l (Z.to_nat i)) as [b|] eqn:Eb.
          * now rewrite (Hif b eq_refl).
          * apply nth_error_None in Eb. lia.
        + intros i' Hi'. destruct (Hfalse i' (or_intror Hi')) as [Hi'0 Hi'f].
          split; [assumption|]. intros b Hb.
          rewrite nth_error_update_neq in Hb; [auto|].
          intros Heq. apply Hni.
          assert (i' = i) by lia. now subst i'.
      - rewrite He. exists l. split; [assumption|]. split; [lia|].
        intros i' Hi'. apply Hfalse. now right. }
    destruct Hl1 as (l1 & Hl1 & Hcnt & Hfalse1).
    specialize (IH st1 st' h1 h' l1 H Hl1 Hnd' Hfalse1). cbv zeta in IH.
    destruct IH as (Hf' & Hcp' & Hla' & Hea' & Hsc' & Hfe' & Hw' & Hlen' & Hcf'
                    & Hmx' & l' & K & Hl' & HK & Hch' & Hlo' & Hkw').
    repeat (split; [congruence|]).
    exists l', (K + (if k then 1 else 0)).
    rewrite Hea in Hl'.
    split; [assumption|]. split; [destruct k; lia|].
    split; [rewrite Hch', Hch, Hcnt; destruct e, k; lia|].
    split.
    + rewrite Hlo', Hlo. destruct k, (_lose (GameState.data st));
        destruct (Z.ltb_spec 0 K); destruct (Z.ltb_spec 0 (K + 1));
        destruct (Z.ltb_spec 0 (K + 0)); try reflexivity; lia.
    + intros Hwin. rewrite Hw in Hkw'. specialize (Hkw' Hwin).
      destruct k; [|lia]. specialize (Hkw eq_refl). congruence.
Qed.

Lemma shallowCopy_id (g : GridRef.t) : GridRef.shallowCopy g = g.
Proof. destruct g. reflexivity. Qed.

Lemma nth_error_all_false (l : list Z) (k : nat) (b : bool) :
  nth_error (map (fun _ => false) l) k = Some b -> b = false.
Proof.
  intros H. apply nth_error_In, in_map_iff in H.
  destruct H as (_ & H & _). auto.
Qed.

(** Pacman's turn, from the predecessor to the successor.  [l'] is the
    successor's [_eaten] list and [K] counts the pursuers that killed
    Pacman. *)
Lemma pacman_turn_summary (s s' : GameState.t) (action : Directions.t)
  (h h' : Store.t) :
  generateSuccessor s 0 action h = Ok (s', h') ->
  let d := GameState.data s in
  let d' := GameState.data s' in
  exists pac conf conf' l' K,
    index (agentStates d) 0 = Ok pac
    /\ nth_error (Store.configs h) (AgentState.configuration pac) = Some conf
    /\ Configuration.pos conf'
       = (fst (Configuration.pos conf)
          + fst (Actions.directionToVector action PacmanRules.PACMAN_SPEED),
          snd (Configuration.pos conf)
          + snd (Actions.directionToVector action PacmanRules.PACMAN_SPEED))%Q
    /\ Store.configs h' = Store.configs h ++ [conf']
    /\ nth_error (Store.eatens h') (_eaten d') = Some l'
    /\ 0 <= K
    /\ _lose d' = (0 <? K)
    /\ (_win d' = true -> K = 0)
    /\ let next := Configuration.pos conf' in
       let nearest := Util.nearestPoint next in
       let rest := 200 * count_bool true l' - 500 * K - 1 in
       let untouched :=
         Store.matrices h' = Store.matrices h /\ food d' = food d
         /\ _foodEaten d' = None /\ _win d' = false
         /\ score d' = score d + rest in
       if Qle_bool (Util.manhattanDistance (Util.point nearest) next) (1 # 2)
       then
         exists m f,
           nth_error (Store.matrices h) (Grid.data (food d)) = Some m
           /\ Grid.get (Grid.Make (Grid.width (food d)) (Grid.height (food d)) m)
                       (PyInt (fst nearest)) (PyInt (snd nearest)) = Ok f
           /\ if f
              then
                exists g',
                  Grid.set
                    (Grid.Make (Grid.width (food d)) (Grid.height (food d)) m)
                    (PyInt (fst nearest)) (PyInt (snd nearest)) false = Ok g'
                  /\ Store.matrices h' = Store.matrices h ++ [Grid.data g']
                  /\ food d' = Grid.Make (Grid.width (food d))
                                 (Grid.height (food d))
                                 (length (Store.matrices h))
                  /\ _foodEaten d' = Some nearest
                  /\ if Grid.count (Grid.data g') true =? 0
                     then _win d' = true /\ score d' = score d + 10 + 500 + rest
                     else _win d' = false /\ score d' = score d + 10 + rest
              else untouched
       else untouched.
Proof.
  intros H. cbv zeta.
  apply pacman_turn_ok in H.
  destruct H as (_ & _ & st1 & h1 & st3 & Ha & Hc & ->). cbv zeta in Ha.
  apply pacman_applyAction_ok in Ha.
  destruct Ha as (legal & pac & conf & conf' & _ & _ & Hpac & Hconf & Hpos & Ha).
  cbv zeta in Ha.
  cbn [GameState.__init__ GameState.data GameState.upd GameStateData.__init__
       agentStates set__eaten Store.configs Store.eatens Store.matrices]
    in Hpac, Hconf, Ha.
  rewrite copyAgentStates_id in Hpac, Ha.
  (* the checks *)
  unfold GhostRules.checkDeath in Hc. mstep Hc as pacPos h2 Epos.
  assert (h2 = h1).
  { unfold GameState.getPacmanPosition in Epos. mstep Epos as a0 h3 E0.
    done_step E0. apply getPosition_ok in Epos. destruct Epos as (? & _ & _ & ->).
    assumption. }
  subst h2. clear Epos. change (0 =? 0) with true in Hc. cbv iota in Hc.
  assert (Hloop : forall l,
    nth_error (Store.eatens h1) (_eaten (GameState.data st1)) = Some l ->
    (forall k b, nth_error l k = Some b -> b = false) ->
    count_bool true l = 0 ->
    exists l' K,
      nth_error (Store.eatens h') (_eaten (GameState.data st3)) = Some l'
      /\ 0 <= K
      /\ _lose (GameState.data st3) = _lose (GameState.data st1) || (0 <? K)
      /\ (_win (GameState.data st1) = true -> K = 0)
      /\ scoreChange (GameState.data st3)
         = scoreChange (GameState.data st1) + (200 * count_bool true l' - 500 * K - 1)
      /\ food (GameState.data st3) = food (GameState.data st1)
      /\ score (GameState.data st3) = score (GameState.data st1)
      /\ _foodEaten (GameState.data st3) = _foodEaten (GameState.data st1)
      /\ _win (GameState.data st3) = _win (GameState.data st1)
      /\ Store.configs h' = Store.configs h1
      /\ Store.matrices h' = Store.matrices h1).
  { intros l Hl Hfalse Hcount.
    destruct (range2_props 1
                (len (agentStates
                        (GameState.data
                           (GameState.upd
                              (fun d => set_scoreChange (scoreChange d + -1) d)
                              st1))))) as [Hnd Hin].
    pose proof (check_loop pacPos _ _ _ _ _ l Hc Hl Hnd) as L.
    cbv zeta in L.
    destruct L as (Hf & _ & _ & Hea & Hsc & Hfe & Hw & _ & Hcf & Hmx
                   & l' & K & Hl' & HK & Hch & Hlo & Hkw).
    { intros i Hi. apply Hin in Hi. split; [lia|]. intros b. apply Hfalse. }
    exists l', K.
    cbn [GameState.data GameState.upd _eaten _lose _win scoreChange food score
         _foodEaten set_scoreChange] in *.
    rewrite Hea. repeat (split; [assumption|]).
    split; [rewrite Hch, Hcount; lia|].
    repeat split; assumption. }
  exists pac, conf, conf'.
  unfold finish.
  cbn [GameState.data GameState.upd _eaten _lose _win scoreChange food score
       _foodEaten set_score set__agentMoved].
  destruct (Qle_bool _ _).
  - (* Pacman stands on a cell and may eat *)
    apply consume_ok in Ha. cbv zeta in Ha.
    destruct Ha as (m & f & Hm & Hget & Hcf1 & Hea1 & _ & Heid & Hsc1 & Hlo1 & _ & Hf).
    cbn [GameState.data GameState.upd _eaten _lose _win scoreChange food score
         _foodEaten set_agentStates set__eaten Store.configs Store.eatens
         Store.matrices GameState.__init__ GameStateData.__init__]
      in Hm, Hget, Hcf1, Hea1, Heid, Hsc1, Hlo1, Hf.
    rewrite shallowCopy_id in Hm, Hget, Hf.
    destruct (Hloop (map (fun _ => false)
                       (range (len (agentStates (GameState.data s))))))
      as (l' & K & Hl' & HK & Hlose & HwK & Hch & Hfood & Hscore & Hfe & Hwin
          & Hcf3 & Hmx3).
    { rewrite Heid, Hea1. apply nth_error_snoc. }
    { intros k b. apply nth_error_all_false. }
    { apply count_false_all. }
    exists l', K.
    rewrite Hlo1 in Hlose. cbn [orb] in Hlose.
    rewrite Hwin, Hfood, Hscore, Hfe, Hch, Hsc1, Hcf3, Hmx3, Hcf1.
    rewrite Hwin in *.
    repeat (split; [assumption|]). split; [reflexivity|].
    repeat (split; [assumption|]).
    exists m, f. repeat (split; [assumption|]).
    destruct f.
    + destruct Hf as (g' & Hset & Hmx1 & Hfd & Hfe1 & Hw1).
      exists g'. repeat (split; [assumption|]).
      cbn [negb andb] in Hw1. rewrite andb_true_r in Hw1.
      destruct (Grid.count (Grid.data g') true =? 0);
        destruct Hw1 as [-> ->]; (split; [reflexivity|lia]).
    + destruct Hf as (Hmx1 & Hfd & Hfe1 & -> & Hw1).
      repeat (split; [assumption|]). lia.
  - (* Pacman is between two cells *)
    destruct Ha as [-> ->].
    destruct (Hloop (map (fun _ => false)
                       (range (len (agentStates (GameState.data s))))))
      as (l' & K & Hl' & HK & Hlose & HwK & Hch & Hfood & Hscore & Hfe & Hwin
          & Hcf3 & Hmx3).
    { cbn. apply nth_error_snoc. }
    { intros k b. apply nth_error_all_false. }
    { apply count_false_all. }
    exists l', K.
    cbn [GameState.data GameState.upd _eaten _lose _win scoreChange food score
         _foodEaten set_agentStates set__eaten Store.configs Store.eatens
         Store.matrices orb GameState.__init__ GameStateData.__init__] in *.
    rewrite shallowCopy_id in Hfood.
    rewrite Hwin, Hfood, Hscore, Hfe, Hch, Hcf3, Hmx3.
    repeat (split; [assumption|]). split; [reflexivity|].
    repeat (split; [assumption|]).
    repeat (split; [reflexivity|]). lia.
Qed.

(** ** The last food cell *)

(** C2, as stated, fails in the corridor: Pacman at (1,1) moves east onto
    the only food cell, at (2,1), from score 0; the successor's score is
    509, since the move also costs the time penalty. *)
Lemma last_food_score_counterexample :
  ~ (forall s' h',
       generateSuccessor (Scenario.state 0) 0 Directions.EAST Scenario.store0
       = Ok (s', h') ->
       score (GameState.data s')
       = score (GameState.data (Scenario.state 0)) + (10 + 500)).
Proof.
  intros H.
  assert (E : exists s' h',
             generateSuccessor (Scenario.state 0) 0 Directions.EAST
               Scenario.store0 = Ok (s', h')
             /\ score (GameState.data s') = 509).
  { eexists _, _. split; vm_compute; reflexivity. }
  destruct E as (s' & h' & E & Hs).
  specialize (H s' h' E). rewrite Hs in H. discriminate H.
Qed.

(** C2 (amended).  When exactly one food cell remains and Pacman's action
    takes him onto it, the successor's score is the predecessor's plus the
    item reward and the win bonus, less the time penalty (10 + 500 - 1; from
    score 0 it is 509), plus 200 for each pursuer eaten in the same move
    (those marked in the successor's [_eaten] list); the win flag is set,
    and [getLegalActions] on the successor returns the empty list for every
    agent. *)
Theorem last_food_wins (s s' : GameState.t) (action : Directions.t)
  (h h' : Store.t) (pac : AgentState.t) (conf : Configuration.t)
  (m : Grid.matrix) :
  generateSuccessor s 0 action h = Ok (s', h') ->
  index (agentStates (GameState.data s)) 0 = Ok pac ->
  nth_error (Store.configs h) (AgentState.configuration pac) = Some conf ->
  nth_error (Store.matrices h) (Grid.data (food (GameState.data s))) = Some m ->
  Grid.count m true = 1 ->
  let v := Actions.directionToVector action PacmanRules.PACMAN_SPEED in
  let next := (fst (Configuration.pos conf) + fst v,
               snd (Configuration.pos conf) + snd v)%Q in
  let nearest := Util.nearestPoint next in
  (Util.manhattanDistance (Util.point nearest) next <= 1 # 2)%Q ->
  Grid.get (Grid.Make (Grid.width (food (GameState.data s)))
                      (Grid.height (food (GameState.data s))) m)
           (PyInt (fst nearest)) (PyInt (snd nearest)) = Ok true ->
  exists l',
    nth_error (Store.eatens h') (_eaten (GameState.data s')) = Some l'
    /\ score (GameState.data s')
       = score (GameState.data s) + 10 + 500 - TIME_PENALTY
         + 200 * count_bool true l'
    /\ GameState.isWin s' = true
    /\ forall agentIndex, getLegalActions s' agentIndex h' = Ok ([], h').
Proof.
  intros H Hpac Hconf Hm Hcount v next nearest Hnear Hfood.
  apply pacman_turn_summary in H. cbv zeta in H.
  destruct H as (pac0 & conf0 & conf' & l' & K & Hpac0 & Hconf0 & Hpos & _
                 & Hl' & HK & _ & HwK & H).
  assert (pac0 = pac) by congruence. subst pac0.
  assert (conf0 = conf) by congruence. subst conf0.
  fold v in Hpos. fold next in Hpos. rewrite Hpos in H. fold nearest in H.
  apply Qle_bool_iff in Hnear. rewrite Hnear in H.
  destruct H as (m0 & f & Hm0 & Hget & H).
  assert (m0 = m) by congruence. subst m0.
  assert (f = true) by congruence. subst f.
  destruct H as (g' & Hset & _ & _ & _ & H).
  rewrite (clear_cell_count _ _ _ _ _ _ Hfood Hset), Hcount in H.
  change (1 - 1 =? 0) with true in H. cbv iota in H.
  destruct H as [Hwin Hscore].
  specialize (HwK Hwin). subst K.
  exists l'. split; [assumption|]. split; [unfold TIME_PENALTY; lia|].
  split; [exact Hwin|].
  intros agentIndex. unfold getLegalActions, GameState.isWin.
  rewrite Hwin. reflexivity.
Qed.

Lemma last_food_wins_witness :
  exists s' h',
    generateSuccessor (Scenario.state 0) 0 Directions.EAST Scenario.store0
    = Ok (s', h')
    /\ GameState.isWin s' = true
    /\ getLegalActions s' 1 h' = Ok ([], h').
Proof.
  assert (E : exists s' h',
             generateSuccessor (Scenario.state 0) 0 Directions.EAST
               Scenario.store0 = Ok (s', h')).
  { eexists _, _. vm_compute. reflexivity. }
  destruct E as (s' & h' & E). exists s', h'. split; [exact E|].
  assert (Hq : (Util.manhattanDistance
                  (Util.point (Util.nearestPoint (1 + 1 * 1, 1 + 0 * 1)%Q))
                  (1 + 1 * 1, 1 + 0 * 1)%Q <= 1 # 2)%Q)
    by (apply Qle_bool_iff; reflexivity).
  destruct (last_food_wins (Scenario.state 0) s' Directions.EAST
              Scenario.store0 h' Scenario.pacman
              (Configuration.Make (1, 1)%Q Directions.STOP)
              Scenario.foodAt2 E eq_refl eq_refl eq_refl eq_refl Hq eq_refl)
    as (l' & _ & _ & Hw & Hl).
  split; [exact Hw|apply Hl].
Defined.

(** ** Food only disappears *)

Lemma checkDeath_ghost_ok (st st' : GameState.t) (agentIndex : Z)
  (h h' : Store.t) :
  GhostRules.checkDeath st agentIndex h = Ok (st', h') ->
  agentIndex <> 0 ->
  exists pac pconf,
    index (agentStates (GameState.data st)) 0 = Ok pac
    /\ nth_error (Store.configs h) (AgentState.configuration pac) = Some pconf
    /\ GhostRules.checkOne (Configuration.pos pconf) agentIndex st h
       = Ok (st', h').
Proof.
  unfold GhostRules.checkDeath. intros H Hi.
  mstep H as p h1 Ep. unfold GameState.getPacmanPosition in Ep.
  mstep Ep as pac h2 Ea. done_step Ea. subst h2.
  apply getPosition_ok in Ep. destruct Ep as (pconf & Hc & -> & ->).
  apply Z.eqb_neq in Hi. rewrite Hi in H.
  exists pac, pconf. auto.
Qed.

(** C7.  The successor has at most as many food cells as its predecessor,
    and every cell that holds food in the successor held food in the
    predecessor. *)
Theorem food_never_grows (s s' : GameState.t) (agentIndex : Z)
  (action : Directions.t) (h h' : Store.t) (m : Grid.matrix) :
  generateSuccessor s agentIndex action h = Ok (s', h') ->
  nth_error (Store.matrices h) (Grid.data (food (GameState.data s))) = Some m ->
  exists m',
    nth_error (Store.matrices h') (Grid.data (food (GameState.data s')))
    = Some m'
    /\ Grid.count m' true <= Grid.count m true
    /\ forall x y,
         Grid.get (Grid.Make (Grid.width (food (GameState.data s')))
                             (Grid.height (food (GameState.data s'))) m')
                  (PyInt x) (PyInt y) = Ok true ->
         Grid.get (Grid.Make (Grid.width (food (GameState.data s)))
                             (Grid.height (food (GameState.data s))) m)
                  (PyInt x) (PyInt y) = Ok true.
Proof.
  intros H Hm.
  destruct (Z.eq_dec agentIndex 0) as [->|Hi].
  - (* Pacman's turn *)
    apply pacman_turn_summary in H. cbv zeta in H.
    destruct H as (pac & conf & conf' & l' & K & _ & _ & _ & _ & _ & _ & _ & _ & H).
    assert (Hsame :
      Store.matrices h' = Store.matrices h
      /\ food (GameState.data s') = food (GameState.data s)
      /\ _foodEaten (GameState.data s') = None
      /\ _win (GameState.data s') = false
      /\ score (GameState.data s')
         = score (GameState.data s) + (200 * count_bool true l' - 500 * K - 1) ->
      exists m',
        nth_error (Store.matrices h') (Grid.data (food (GameState.data s')))
        = Some m'
        /\ Grid.count m' true <= Grid.count m true
        /\ forall x y,
             Grid.get (Grid.Make (Grid.width (food (GameState.data s')))
                                 (Grid.height (food (GameState.data s'))) m')
                      (PyInt x) (PyInt y) = Ok true ->
             Grid.get (Grid.Make (Grid.width (food (GameState.data s)))
                                 (Grid.height (food (GameState.data s))) m)
                      (PyInt x) (PyInt y) = Ok true).
    { intros (Hmx & Hfd & _). exists m. rewrite Hmx, Hfd.
      split; [assumption|]. split; [lia|auto]. }
    destruct (Qle_bool _ _); [|auto].
    destruct H as (m0 & f & Hm0 & Hget & H).
    assert (m0 = m) by congruence. subst m0.
    destruct f; [|auto].
    destruct H as (g' & Hset & Hmx & Hfd & _).
    exists (Grid.data g'). rewrite Hmx, Hfd. cbn [Grid.data Grid.width Grid.height].
    split; [apply nth_error_snoc|].
    split; [rewrite (clear_cell_count _ _ _ _ _ _ Hget Hset); lia|].
    intros x y Hxy. eapply clear_cell_mono; [exact Hset|].
    destruct (grid_set_ok _ _ _ _ _ _ _ Hset) as (kx & ky & col & _ & _ & _ & Eg).
    rewrite Eg in Hxy |- *. exact Hxy.
  - (* a pursuer's turn *)
    apply ghost_turn_ok in H; [|assumption].
    destruct H as (_ & _ & g & k & conf & conf' & h2 & st3 & _ & _ & _ & _ & -> & Hc & ->).
    apply (checkDeath_ghost_ok _ _ _ _ _ Hc) in Hi.
    destruct Hi as (pac & pconf & _ & _ & Hone).
    apply checkOne_effect in Hone. cbv zeta in Hone.
    destruct Hone as (Hfd & _ & _ & _ & _ & _ & _ & _ & _ & Hmx & _).
    unfold finish.
    cbn [GameState.data GameState.upd food set_score set__agentMoved
         set_agentStates GameState.__init__ GameStateData.__init__
         Store.matrices] in *.
    rewrite shallowCopy_id in Hfd.
    exists m. rewrite Hmx, Hfd. split; [assumption|]. split; [lia|auto].
Qed.

Lemma food_never_grows_witness :
  exists s' h' m',
    generateSuccessor (Scenario.state 0) 0 Directions.EAST Scenario.store0
    = Ok (s', h')
    /\ nth_error (Store.matrices h') (Grid.data (food (GameState.data s')))
       = Some m'
    /\ Grid.count m' true <= Grid.count Scenario.foodAt2 true.
Proof.
  assert (E : exists s' h',
             generateSuccessor (Scenario.state 0) 0 Directions.EAST
               Scenario.store0 = Ok (s', h')).
  { eexists _, _. vm_compute. reflexivity. }
  destruct E as (s' & h' & E).
  destruct (food_never_grows (Scenario.state 0) s' 0 Directions.EAST
              Scenario.store0 h' Scenario.foodAt2 E eq_refl)
    as (m' & Hm' & Hle & _).
  exists s', h', m'. auto.
Defined.

(** ** The score of a transition *)

(** C10.  On Pacman's turn the successor's score is the predecessor's plus
    what was eaten (10 for a food cell, 500 for the last one), plus 200 for
    each pursuer eaten, less 500 for each pursuer that killed him, less the
    time penalty of 1; so a move that eats nothing and meets nobody lowers
    the score by exactly 1.  On a pursuer's turn the score changes by the
    collision alone: there is no time penalty. *)
Theorem time_penalty (s s' : GameState.t) (agentIndex : Z)
  (action : Directions.t) (h h' : Store.t) :
  generateSuccessor s agentIndex action h = Ok (s', h') ->
  let d := GameState.data s in
  let d' := GameState.data s' in
  if agentIndex =? 0
  then
    exists (l' : list bool) (K : Z),
      nth_error (Store.eatens h') (_eaten d') = Some l'
      /\ 0 <= K /\ _lose d' = (0 <? K)
      /\ score d'
         = score d
           + (match _foodEaten d' with Some _ => 10 | None => 0 end)
           + (if _win d' then 500 else 0)
           + 200 * count_bool true l' - 500 * K
           - TIME_PENALTY
      /\ (_foodEaten d' = None -> count_bool true l' = 0 -> _lose d' = false ->
          score d' = score d - 1)
  else
    exists e : bool,
      score d' = score d + (if e then 200 else 0)
                 - (if _lose d' then 500 else 0).
Proof.
  intros H. cbv zeta.
  destruct (Z.eqb_spec agentIndex 0) as [->|Hi].
  - apply pacman_turn_summary in H. cbv zeta in H.
    destruct H as (pac & conf & conf' & l' & K & _ & _ & _ & _
                   & Hl' & HK & Hlose & HwK & H).
    exists l', K. repeat (split; [assumption|]).
    assert (Hscore :
      score (GameState.data s')
      = score (GameState.data s)
        + (match _foodEaten (GameState.data s') with Some _ => 10 | None => 0 end)
        + (if _win (GameState.data s') then 500 else 0)
        + 200 * count_bool true l' - 500 * K - TIME_PENALTY).
    { unfold TIME_PENALTY.
      assert (Hun :
        Store.matrices h' = Store.matrices h
        /\ food (GameState.data s') = food (GameState.data s)
        /\ _foodEaten (GameState.data s') = None
        /\ _win (GameState.data s') = false
        /\ score (GameState.data s')
           = score (GameState.data s)
             + (200 * count_bool true l' - 500 * K - 1) ->
        score (GameState.data s')
        = score (GameState.data s)
          + (match _foodEaten (GameState.data s') with Some _ => 10 | None => 0 end)
          + (if _win (GameState.data s') then 500 else 0)
          + 200 * count_bool true l' - 500 * K - 1).
      { intros (_ & _ & -> & -> & ->). lia. }
      destruct (Qle_bool _ _); [|auto].
      destruct H as (m & f & _ & _ & H).
      destruct f; [|auto].
      destruct H as (g' & _ & _ & _ & -> & H).
      destruct (Grid.count (Grid.data g') true =? 0);
        destruct H as [-> ->]; lia. }
    split; [exact Hscore|].
    intros Hfe Hcnt Hlo. rewrite Hlo in Hlose.
    assert (K = 0) by (destruct (Z.ltb_spec 0 K); [discriminate|lia]).
    assert (Hw : _win (GameState.data s') = false).
    { destruct (Qle_bool _ _).
      - destruct H as (m & f & _ & _ & H). destruct f.
        + destruct H as (g' & _ & _ & _ & Hfe' & _). congruence.
        + now destruct H as (_ & _ & _ & Hw & _).
      - now destruct H as (_ & _ & _ & Hw & _). }
    rewrite Hscore, Hfe, Hcnt, Hw. unfold TIME_PENALTY. lia.
  - apply ghost_turn_ok in H; [|assumption].
    destruct H as (_ & _ & g & k & conf & conf' & h2 & st3
                   & _ & _ & _ & _ & -> & Hc & ->).
    apply (checkDeath_ghost_ok _ _ _ _ _ Hc) in Hi.
    destruct Hi as (pac & pconf & _ & _ & Hone).
    apply checkOne_effect in Hone. cbv zeta in Hone.
    destruct Hone as (_ & _ & _ & _ & Hsc & _ & _ & _ & _ & _
                      & e & kk & Hch & Hlo & _).
    unfold finish.
    cbn [GameState.data GameState.upd score scoreChange _lose set_score
         set__agentMoved set_agentStates GameState.__init__
         GameStateData.__init__ orb] in *.
    exists e. rewrite Hsc, Hch, Hlo. lia.
Qed.

(** The pursuer steps west, away from any collision: the score stays 0. *)
Lemma time_penalty_witness :
  exists s' h' (e : bool),
    generateSuccessor (Scenario.state 0) 1 Directions.WEST Scenario.store0
    = Ok (s', h')
    /\ score (GameState.data s')
       = score (GameState.data (Scenario.state 0)) + (if e then 200 else 0)
         - (if _lose (GameState.data s') then 500 else 0).
Proof.
  assert (E : exists s' h',
             generateSuccessor (Scenario.state 0) 1 Directions.WEST
               Scenario.store0 = Ok (s', h')).
  { eexists _, _. vm_compute. reflexivity. }
  destruct E as (s' & h' & E).
  destruct (time_penalty (Scenario.state 0) s' 1 Directions.WEST
              Scenario.store0 h' E) as (e & He).
  exists s', h', e. auto.
Defined.

(** ** The scared timer on a pursuer's own turn *)

(** C6, as stated, fails in the corridor: the pursuer, scared with timer
    5 at (2,1), steps west to (1.5,1), half a cell from Pacman at (1,1);
    it is eaten, and its timer in the successor is 0, not 4. *)
Lemma timer_decrement_counterexample :
  ~ (forall s' h' g',
       generateSuccessor (Scenario.state 5) 1 Directions.WEST
         (Scenario.store (1, 1)%Q (2, 1)%Q Directions.STOP) = Ok (s', h') ->
       index (agentStates (GameState.data s')) 1 = Ok g' ->
       AgentState.scaredTimer g' = Z.max 0 (5 - 1)).
Proof.
  intros H.
  assert (E : exists s' h' g',
             generateSuccessor (Scenario.state 5) 1 Directions.WEST
               (Scenario.store (1, 1)%Q (2, 1)%Q Directions.STOP) = Ok (s', h')
             /\ index (agentStates (GameState.data s')) 1 = Ok g'
             /\ AgentState.scaredTimer g' = 0).
  { eexists _, _, _. split; [|split]; vm_compute; reflexivity. }
  destruct E as (s' & h' & g' & E & Hg & Ht).
  specialize (H s' h' g' E Hg). rewrite Ht in H. discriminate H.
Qed.

(** A pursuer's own turn, from the predecessor to the successor: [p1] is
    where the pursuer stands after its move and the update of its timer,
    [t1] that timer. *)
Lemma ghost_turn_summary (s s' : GameState.t) (agentIndex : Z)
  (action : Directions.t) (h h' : Store.t) (g pacman : AgentState.t)
  (conf pconf : Configuration.t) :
  generateSuccessor s agentIndex action h = Ok (s', h') ->
  0 < agentIndex ->
  index (agentStates (GameState.data s)) agentIndex = Ok g ->
  nth_error (Store.configs h) (AgentState.configuration g) = Some conf ->
  index (agentStates (GameState.data s)) 0 = Ok pacman ->
  nth_error (Store.configs h) (AgentState.configuration pacman) = Some pconf ->
  let t := AgentState.scaredTimer g in
  let t1 := Z.max 0 (t - 1) in
  let v := Actions.directionToVector action
             (if t >? 0 then (GhostRules.GHOST_SPEED / 2)%Q
              else GhostRules.GHOST_SPEED) in
  let moved := (fst (Configuration.pos conf) + fst v,
                snd (Configuration.pos conf) + snd v)%Q in
  let p1 := if t =? 1 then Util.point (Util.nearestPoint moved) else moved in
  let g1 := AgentState.with_scaredTimer
              (AgentState.with_configuration g (length (Store.configs h))) t1 in
  exists g' c1,
    index (agentStates (GameState.data s')) agentIndex = Ok g'
    /\ nth_error (Store.configs h') (length (Store.configs h)) = Some c1
    /\ Configuration.pos c1 = p1
    /\ if GhostRules.canKill (Configuration.pos pconf) p1
       then
         if t1 >? 0
         then g' = AgentState.with_scaredTimer (GhostRules.placeGhost g1) 0
              /\ score (GameState.data s') = score (GameState.data s) + 200
              /\ _lose (GameState.data s') = false
         else g' = g1
              /\ score (GameState.data s') = score (GameState.data s) - 500
              /\ _lose (GameState.data s') = true
       else g' = g1
            /\ score (GameState.data s') = score (GameState.data s)
            /\ _lose (GameState.data s') = false.
Proof.
  intros H Hi Hg Hconf Hpac Hpconf t t1 v moved p1 g1.
  apply ghost_turn_ok in H; [|lia].
  destruct H as (_ & _ & g0 & k & conf0 & conf' & h2 & st3
                 & Hk & Hg0 & Hconf0 & Hpos & -> & Hc & ->).
  apply index_ok in Hg. destruct Hg as (k' & Hk' & Hg).
  assert (k' = k) by congruence. subst k'.
  assert (g0 = g) by congruence. subst g0.
  assert (conf0 = conf) by congruence. subst conf0.
  assert (Hkpos : k = Z.to_nat agentIndex) by (eapply slot_nonneg; eauto; lia).
  assert (Hklt : (k < length (agentStates (GameState.data s)))%nat)
    by (eapply slot_lt; eauto).
  fold t in Hpos, Hc. fold v in Hpos. fold moved in Hpos. fold t1 in Hc.
  apply checkDeath_ghost_ok in Hc; [|lia].
  destruct Hc as (pac0 & pconf0 & Hpac0 & Hpconf0 & Hone).
  cbn [GameState.data GameState.upd agentStates set_agentStates
       GameState.__init__ GameStateData.__init__ Store.configs] in Hpac0, Hpconf0.
  (* Pacman is where he was *)
  assert (pac0 = pacman).
  { apply index_ok in Hpac0. destruct Hpac0 as (j & Hj & Hp0).
    rewrite update_length in Hj.
    apply index_ok in Hpac. destruct Hpac as (j' & Hj' & Hp).
    rewrite ?copyAgentStates_id in Hj.
    assert (j' = j) by congruence. subst j'.
    assert (j = 0%nat) by (apply slot_nonneg in Hj; lia). subst j.
    rewrite nth_error_update_neq in Hp0 by lia.
    rewrite ?copyAgentStates_id in Hp0. congruence. }
  subst pac0.
  assert (pconf0 = pconf).
  { rewrite nth_error_snoc_old in Hpconf0; [congruence|].
    apply nth_error_Some. congruence. }
  subst pconf0.
  (* the pursuer after its move and the decrement *)
  apply checkOne_ok in Hone.
  destruct Hone as (gg & k1 & c & Hk1 & Hg1 & Hcc & Hone).
  cbn [GameState.data GameState.upd agentStates set_agentStates
       GameState.__init__ GameStateData.__init__ Store.configs] in Hk1, Hg1, Hcc.
  rewrite ?copyAgentStates_id in Hk1, Hg1.
  rewrite update_length in Hk1.
  assert (k1 = k) by congruence. subst k1.
  rewrite nth_error_update_eq in Hg1 by assumption.
  injection Hg1 as <-.
  cbn [AgentState.configuration AgentState.with_scaredTimer
       AgentState.with_configuration] in Hcc.
  rewrite nth_error_snoc in Hcc.
  assert (Hceq : c = if t =? 1
                     then Configuration.Make
                            (Util.point (Util.nearestPoint (Configuration.pos conf')))
                            (Configuration.direction conf')
                     else conf') by congruence.
  subst c. clear Hcc.
  assert (Hp1 : Configuration.pos
                  (if t =? 1
                   then Configuration.Make
                          (Util.point (Util.nearestPoint (Configuration.pos conf')))
                          (Configuration.direction conf')
                   else conf') = p1).
  { subst p1. destruct (t =? 1); cbn [Configuration.pos]; rewrite Hpos;
      reflexivity. }
  rewrite Hp1 in Hone.
  fold g1 in Hone.
  set (st2 := GameState.upd
                (set_agentStates
                   (update (agentStates (GameState.data s)) k g1))
                (GameState.__init__ s)) in *.
  assert (Hidx : forall a, nth_error (agentStates (GameState.data st3)) k = Some a
                           -> index (agentStates (GameState.data (finish agentIndex st3)))
                                    agentIndex = Ok a).
  { intros a Ha. eapply index_slot; [|exact Ha].
    unfold finish. cbn [GameState.data GameState.upd agentStates set_score
                        set__agentMoved].
    assert (Hlen : length (agentStates (GameState.data st3))
                   = length (agentStates (GameState.data s))).
    { destruct (GhostRules.canKill (Configuration.pos pconf) p1).
      - apply collide_ok in Hone. destruct (AgentState.scaredTimer g1 >? 0).
        + destruct Hone as (? & ? & ? & _ & _ & _ & -> & _). subst st2.
          cbn. rewrite ?copyAgentStates_id, ?update_length. reflexivity.
        + destruct Hone as [_ ->]. subst st2.
          destruct (negb _); cbn; rewrite ?copyAgentStates_id, ?update_length;
            reflexivity.
      - destruct Hone as [-> _]. subst st2. cbn.
        rewrite ?copyAgentStates_id, ?update_length. reflexivity. }
    rewrite Hlen. exact Hk. }
  assert (Hst2k : nth_error (agentStates (GameState.data st2)) k = Some g1).
  { subst st2. cbn. rewrite ?copyAgentStates_id.
    now apply nth_error_update_eq. }
  assert (Ht1 : AgentState.scaredTimer g1 = t1) by reflexivity.
  assert (Hc1 : nth_error
                  (Store.configs h
                   ++ [if t =? 1
                       then Configuration.Make
                              (Util.point
                                 (Util.nearestPoint (Configuration.pos conf')))
                              (Configuration.direction conf')
                       else conf'])
                  (length (Store.configs h))
                = Some (if t =? 1
                        then Configuration.Make
                               (Util.point
                                  (Util.nearestPoint (Configuration.pos conf')))
                               (Configuration.direction conf')
                        else conf')) by apply nth_error_snoc.
  destruct (GhostRules.canKill (Configuration.pos pconf) p1) eqn:Ekill.
  - apply collide_ok in Hone. rewrite Ht1 in Hone.
    destruct (t1 >? 0) eqn:Escared.
    + (* eaten *)
      destruct Hone as (k2 & l & j & Hk2 & _ & _ & -> & ->).
      subst st2.
      cbn [GameState.data GameState.upd agentStates set_agentStates
           GameState.__init__ GameStateData.__init__] in Hk2.
      rewrite ?copyAgentStates_id, ?update_length in Hk2.
      assert (k2 = k) by congruence. subst k2.
      eexists _, _. split; [|split; [exact Hc1|split; [exact Hp1|]]].
      * apply Hidx. cbn. rewrite ?copyAgentStates_id.
        apply nth_error_update_eq. now rewrite update_length.
      * split; [reflexivity|]. unfold finish. cbn. split; [lia|reflexivity].
    + (* not scared any more *)
      destruct Hone as [-> ->].
      eexists _, _. split; [|split; [exact Hc1|split; [exact Hp1|]]].
      * apply Hidx. destruct (negb _); exact Hst2k.
      * split; [reflexivity|]. subst st2. unfold finish. cbn.
        split; [lia|reflexivity].
  - destruct Hone as [-> ->].
    eexists _, _. split; [|split; [exact Hc1|split; [exact Hp1|]]].
    + apply Hidx. exact Hst2k.
    + split; [reflexivity|]. subst st2. unfold finish. cbn.
      split; [lia|reflexivity].
Qed.

(** C6 (amended).  On a pursuer's own turn the timer is first lowered by
    exactly 1, with floor 0, and the successor holds that value unless the
    pursuer then stands within collision distance of Pacman with the
    lowered timer still positive, in which case the collision resets it to
    0; and when the timer goes from 1 to 0, the pursuer's position in the
    successor is the grid point nearest to where its move took it. *)
Theorem timer_decrement (s s' : GameState.t) (agentIndex : Z)
  (action : Directions.t) (h h' : Store.t) (g pacman : AgentState.t)
  (conf pconf : Configuration.t) :
  generateSuccessor s agentIndex action h = Ok (s', h') ->
  0 < agentIndex ->
  index (agentStates (GameState.data s)) agentIndex = Ok g ->
  nth_error (Store.configs h) (AgentState.configuration g) = Some conf ->
  index (agentStates (GameState.data s)) 0 = Ok pacman ->
  nth_error (Store.configs h) (AgentState.configuration pacman) = Some pconf ->
  let t := AgentState.scaredTimer g in
  let t1 := Z.max 0 (t - 1) in
  let v := Actions.directionToVector action
             (if t >? 0 then (GhostRules.GHOST_SPEED / 2)%Q
              else GhostRules.GHOST_SPEED) in
  let moved := (fst (Configuration.pos conf) + fst v,
                snd (Configuration.pos conf) + snd v)%Q in
  let p1 := if t =? 1 then Util.point (Util.nearestPoint moved) else moved in
  exists g',
    index (agentStates (GameState.data s')) agentIndex = Ok g'
    /\ AgentState.scaredTimer g'
       = (if GhostRules.canKill (Configuration.pos pconf) p1 && (t1 >? 0)
          then 0 else t1)
    /\ (t = 1 ->
        AgentState.scaredTimer g' = 0
        /\ exists c',
             nth_error (Store.configs h') (AgentState.configuration g') = Some c'
             /\ Configuration.pos c' = Util.point (Util.nearestPoint moved)).
Proof.
  intros H Hi Hg Hconf Hpac Hpconf t t1 v moved p1.
  destruct (ghost_turn_summary _ _ _ _ _ _ _ _ _ _ H Hi Hg Hconf Hpac Hpconf)
    as (g' & c1 & Hg' & Hc1 & Hp1 & Hcases).
  fold t in Hp1, Hcases. fold t1 in Hcases. fold v in Hp1, Hcases.
  fold moved in Hp1, Hcases. fold p1 in Hp1, Hcases.
  exists g'. split; [exact Hg'|].
  assert (Hconfig :
    (t1 >? 0) = false -> AgentState.scaredTimer g' = t1
                         /\ AgentState.configuration g' = length (Store.configs h)).
  { intros E. rewrite E in Hcases.
    destruct (GhostRules.canKill (Configuration.pos pconf) p1);
      destruct Hcases as (-> & _); split; reflexivity. }
  split.
  - destruct (GhostRules.canKill (Configuration.pos pconf) p1); cbn [andb].
    + destruct (t1 >? 0) eqn:E.
      * now destruct Hcases as (-> & _).
      * now apply Hconfig.
    + now destruct Hcases as (-> & _).
  - intros Ht.
    assert (E : (t1 >? 0) = false) by (subst t1; rewrite Ht; reflexivity).
    destruct (Hconfig E) as [Ht' Hc'].
    split; [rewrite Ht'; subst t1; rewrite Ht; reflexivity|].
    exists c1. rewrite Hc'. split; [exact Hc1|].
    rewrite Hp1. subst p1. rewrite Ht. reflexivity.
Qed.

(** The pursuer, with timer 1 at (3,1), steps half a cell west and is put
    back on the grid as its timer runs out. *)
Lemma timer_decrement_witness :
  exists s' h' g' c',
    generateSuccessor (Scenario.state 1) 1 Directions.WEST Scenario.store0
    = Ok (s', h')
    /\ index (agentStates (GameState.data s')) 1 = Ok g'
    /\ AgentState.scaredTimer g' = 0
    /\ nth_error (Store.configs h') (AgentState.configuration g') = Some c'
    /\ Configuration.pos c' = (inject_Z 3, inject_Z 1).
Proof.
  assert (E : exists s' h',
             generateSuccessor (Scenario.state 1) 1 Directions.WEST
               Scenario.store0 = Ok (s', h')).
  { eexists _, _. vm_compute. reflexivity. }
  destruct E as (s' & h' & E).
  assert (Hi : 0 < 1) by reflexivity.
  destruct (timer_decrement (Scenario.state 1) s' 1 Directions.WEST
              Scenario.store0 h' (Scenario.ghost 1) Scenario.pacman
              (Configuration.Make (3, 1)%Q Directions.STOP)
              (Configuration.Make (1, 1)%Q Directions.STOP)
              E Hi eq_refl eq_refl eq_refl eq_refl)
    as (g' & Hg' & _ & Hsnap).
  destruct (Hsnap eq_refl) as (Ht & c' & Hc' & Hp).
  exists s', h', g', c'. repeat (split; [assumption|]). exact Hp.
Defined.

(** ** What a transition does to the objects of its predecessor *)

Lemma checkOne_frame (pac : Q * Q) (idx : Z) (st st' : GameState.t)
  (h h' : Store.t) (r : ref) :
  GhostRules.checkOne pac idx st h = Ok (st', h') ->
  r <> _eaten (GameState.data st) ->
  nth_error (Store.eatens h') r = nth_error (Store.eatens h) r.
Proof.
  intros H Hr. apply checkOne_effect in H. cbv zeta in H.
  destruct H as (_ & _ & _ & _ & _ & _ & _ & _ & _ & _ & e & k & _ & _ & _ & He).
  destruct e.
  - destruct He as (l & j & _ & _ & ->).
    apply nth_error_update_neq. congruence.
  - now rewrite He.
Qed.

Lemma check_loop_frame (pac : Q * Q) (idxs : list Z) (r : ref) :
  forall (st st' : GameState.t) (h h' : Store.t),
    forM idxs (GhostRules.checkOne pac) st h = Ok (st', h') ->
    r <> _eaten (GameState.data st) ->
    nth_error (Store.eatens h') r = nth_error (Store.eatens h) r.
Proof.
  induction idxs as [|i idxs IH]; intros st st' h h' H Hr.
  - cbn [forM] in H. done_step H. now subst.
  - cbn [forM] in H. mstep H as st1 h1 E1.
    pose proof (checkOne_frame _ _ _ _ _ _ r E1 Hr) as F1.
    apply checkOne_effect in E1. cbv zeta in E1.
    destruct E1 as (_ & _ & _ & Hea & _).
    rewrite <- F1. apply (IH _ _ _ _ H). congruence.
Qed.

Lemma pacman_turn_eatens (s s' : GameState.t) (action : Directions.t)
  (h h' : Store.t) (r : ref) (l : list bool) :
  generateSuccessor s 0 action h = Ok (s', h') ->
  nth_error (Store.eatens h) r = Some l ->
  nth_error (Store.eatens h') r = Some l.
Proof.
  intros H Hl.
  assert (Hlt : (r < length (Store.eatens h))%nat)
    by (apply nth_error_Some; congruence).
  apply pacman_turn_ok in H.
  destruct H as (_ & _ & st1 & h1 & st3 & Ha & Hc & _). cbv zeta in Ha.
  apply pacman_applyAction_ok in Ha.
  destruct Ha as (legal & pac & conf & conf' & _ & _ & _ & _ & _ & Ha).
  cbv zeta in Ha.
  assert (H1 : Store.eatens h1
               = Store.eatens h
                 ++ [map (fun _ => false)
                         (range (len (agentStates (GameState.data s))))]
               /\ _eaten (GameState.data st1) = length (Store.eatens h)).
  { destruct (Qle_bool _ _).
    - apply consume_ok in Ha. cbv zeta in Ha.
      destruct Ha as (m & f & _ & _ & _ & Hea1 & _ & Heid & _).
      cbn [GameState.data GameState.upd _eaten set_agentStates set__eaten
           Store.eatens GameState.__init__ GameStateData.__init__
           agentStates] in Hea1, Heid.
      rewrite ?copyAgentStates_id in Hea1. auto.
    - destruct Ha as [-> ->]. cbn. rewrite ?copyAgentStates_id. auto. }
  destruct H1 as [Hea1 Heid].
  unfold GhostRules.checkDeath in Hc. mstep Hc as pacPos h2 Epos.
  assert (h2 = h1).
  { unfold GameState.getPacmanPosition in Epos. mstep Epos as a0 h3 E0.
    done_step E0. apply getPosition_ok in Epos.
    destruct Epos as (? & _ & _ & ->). assumption. }
  subst h2. change (0 =? 0) with true in Hc. cbv iota in Hc.
  rewrite (check_loop_frame _ _ r _ _ _ _ Hc).
  - rewrite Hea1, nth_error_snoc_old by assumption. exact Hl.
  - cbn [GameState.data GameState.upd _eaten set_scoreChange]. lia.
Qed.

(** X27.  Every object the store held before a transition is the same
    after it, but for the [_eaten] list of the predecessor on a pursuer's
    turn: the configurations and the matrices are kept on every turn, and
    the [_eaten] lists on Pacman's turn. *)
Lemma predecessor_objects (s s' : GameState.t) (agentIndex : Z)
  (action : Directions.t) (h h' : Store.t) :
  generateSuccessor s agentIndex action h = Ok (s', h') ->
  (forall r c, nth_error (Store.configs h) r = Some c ->
               nth_error (Store.configs h') r = Some c)
  /\ (forall r m, nth_error (Store.matrices h) r = Some m ->
                  nth_error (Store.matrices h') r = Some m)
  /\ (forall r l, nth_error (Store.eatens h) r = Some l ->
                  agentIndex = 0 \/ r <> _eaten (GameState.data s) ->
                  nth_error (Store.eatens h') r = Some l).
Proof.
  intros H.
  destruct (Z.eq_dec agentIndex 0) as [->|Hi].
  - pose proof (fun r l => pacman_turn_eatens _ _ _ _ _ r l H) as He.
    apply pacman_turn_summary in H. cbv zeta in H.
    destruct H as (pac & conf & conf' & l' & K & _ & _ & _ & Hcf & _ & _ & _ & _ & H).
    split; [|split].
    + intros r c Hr. rewrite Hcf, nth_error_snoc_old; [assumption|].
      apply nth_error_Some. congruence.
    + intros r m Hr.
      assert (Hmx : Store.matrices h' = Store.matrices h
                    \/ exists x, Store.matrices h' = Store.matrices h ++ [x]).
      { destruct (Qle_bool _ _).
        - destruct H as (m0 & f & _ & _ & H). destruct f.
          + destruct H as (g' & _ & Hmx & _). eauto.
          + destruct H as (Hmx & _). auto.
        - destruct H as (Hmx & _). auto. }
      destruct Hmx as [->|[x ->]]; [assumption|].
      rewrite nth_error_snoc_old; [assumption|].
      apply nth_error_Some. congruence.
    + intros r l Hr _. now apply He.
  - apply ghost_turn_ok in H; [|assumption].
    destruct H as (_ & _ & g & k & conf & conf' & h2 & st3
                   & _ & _ & _ & _ & -> & Hc & _).
    apply checkDeath_ghost_ok in Hc; [|assumption].
    destruct Hc as (pac & pconf & _ & _ & Hone).
    pose proof (fun r => checkOne_frame _ _ _ _ _ _ r Hone) as He.
    apply checkOne_effect in Hone. cbv zeta in Hone.
    destruct Hone as (_ & _ & _ & _ & _ & _ & _ & _ & Hcf & Hmx & _).
    cbn [GameState.data GameState.upd _eaten set_agentStates
         GameState.__init__ GameStateData.__init__ Store.configs
         Store.matrices Store.eatens] in *.
    split; [|split].
    + intros r c Hr. rewrite Hcf, nth_error_snoc_old; [assumption|].
      apply nth_error_Some. congruence.
    + intros r m Hr. now rewrite Hmx.
    + intros r l Hr [Hz|Hne]; [contradiction|].
      rewrite He; assumption.
Qed.

(** C8 (code defect).  A pursuer's turn can change the predecessor: the
    successor shares the predecessor's [_eaten] list, and the collision of
    a scared pursuer writes to it.  In the corridor, the pursuer, scared at
    (2,1), steps west next to Pacman and is eaten; the predecessor's
    [_eaten] list was [False, False] before the call and is [False, True]
    after it. *)
Theorem ghost_turn_changes_predecessor_eaten :
  exists s' h',
    generateSuccessor (Scenario.state 5) 1 Directions.WEST
      (Scenario.store (1, 1)%Q (2, 1)%Q Directions.STOP) = Ok (s', h')
    /\ nth_error
         (Store.eatens (Scenario.store (1, 1)%Q (2, 1)%Q Directions.STOP))
         (_eaten (GameState.data (Scenario.state 5))) = Some [false; false]
    /\ nth_error (Store.eatens h')
         (_eaten (GameState.data (Scenario.state 5))) = Some [false; true].
Proof.
  eexists _, _. split; [|split]; vm_compute; reflexivity.
Qed.

(** ** Collisions on a pursuer's own turn *)

(** The moving pursuer ends within reach of Pacman: the score changes by its
    payoff alone, at its timer less one. *)
Lemma ghost_turn_payoff (s s' : GameState.t) (agentIndex : Z)
  (action : Directions.t) (h h' : Store.t) (g pacman : AgentState.t)
  (conf pconf : Configuration.t) :
  generateSuccessor s agentIndex action h = Ok (s', h') ->
  0 < agentIndex ->
  index (agentStates (GameState.data s)) agentIndex = Ok g ->
  nth_error (Store.configs h) (AgentState.configuration g) = Some conf ->
  index (agentStates (GameState.data s)) 0 = Ok pacman ->
  nth_error (Store.configs h) (AgentState.configuration pacman) = Some pconf ->
  let t := AgentState.scaredTimer g in
  let t1 := Z.max 0 (t - 1) in
  let v := Actions.directionToVector action
             (if t >? 0 then (GhostRules.GHOST_SPEED / 2)%Q
              else GhostRules.GHOST_SPEED) in
  let moved := (fst (Configuration.pos conf) + fst v,
                snd (Configuration.pos conf) + snd v)%Q in
  let p1 := if t =? 1 then Util.point (Util.nearestPoint moved) else moved in
  (Util.manhattanDistance p1 (Configuration.pos pconf) <= COLLISION_TOLERANCE)%Q ->
  exists g',
    index (agentStates (GameState.data s')) agentIndex = Ok g'
    /\ (0 < t1 ->
        score (GameState.data s') = score (GameState.data s) + 200
        /\ AgentState.configuration g' = AgentState.start g
        /\ AgentState.scaredTimer g' = 0)
    /\ (t1 = 0 ->
        score (GameState.data s') = score (GameState.data s) - 500
        /\ _lose (GameState.data s') = true).
Proof.
  intros H Hi Hg Hconf Hpac Hpconf t t1 v moved p1 Hd.
  destruct (ghost_turn_summary _ _ _ _ _ _ _ _ _ _ H Hi Hg Hconf Hpac Hpconf)
    as (g' & c1 & Hg' & _ & _ & Hcases).
  fold t in Hcases. fold t1 in Hcases. fold v in Hcases.
  fold moved in Hcases. fold p1 in Hcases.
  assert (Hkill : GhostRules.canKill (Configuration.pos pconf) p1 = true)
    by (apply Qle_bool_iff; exact Hd).
  rewrite Hkill in Hcases.
  exists g'. split; [exact Hg'|]. split.
  - intros Ht. apply Z.gtb_lt in Ht. rewrite Ht in Hcases.
    destruct Hcases as (-> & Hs & _). split; [exact Hs|]. split; reflexivity.
  - intros Ht. rewrite Ht in Hcases. change (0 >? 0) with false in Hcases.
    destruct Hcases as (_ & Hs & Hl). split; assumption.
Qed.

(** ** The serialization with integer division

    With [//] in place of [/] in [_cellIndexToPosition] every cell is
    found, and packing followed by unpacking gives the grid back.  The
    class as written differs from this in that one operator. *)

Lemma slot_in_range (n : nat) (i : Z) :
  0 <= i < Z.of_nat n -> slot n i = Some (Z.to_nat i).
Proof.
  intros H. unfold slot.
  replace (0 <=? i) with true by (symmetry; apply Z.leb_le; lia).
  replace (i <? Z.of_nat n) with true by (symmetry; apply Z.ltb_lt; lia).
  reflexivity.
Qed.

Lemma cell_coordinates (w h i : Z) :
  0 <= w -> 0 <= h -> 0 <= i < h * w ->
  0 < h /\ 0 <= i / h < w /\ 0 <= i mod h < h.
Proof.
  intros Hw Hh Hi.
  assert (0 < h) by nia.
  split; [assumption|]. split.
  - split; [apply Z.div_pos; lia|].
    apply Z.div_lt_upper_bound; lia.
  - apply Z.mod_pos_bound. assumption.
Qed.

Lemma init_shaped (w h : Z) (v : bool) :
  0 <= w -> 0 <= h -> shaped (Grid.init w h v).
Proof.
  intros Hw Hh. unfold shaped, Grid.init. cbn [Grid.width Grid.height Grid.data].
  repeat split; try assumption.
  - now rewrite length_map, range_length.
  - intros col Hc. apply in_map_iff in Hc. destruct Hc as (_ & <- & _).
    now rewrite length_map, range_length.
Qed.

Lemma located_column (g : Grid.grid) (i : Z) :
  shaped g -> 0 <= i < Grid.height g * Grid.width g ->
  exists col,
    nth_error (Grid.data g) (Z.to_nat (i / Grid.height g)) = Some col
    /\ length col = Z.to_nat (Grid.height g)
    /\ locateInt g i = Ok (PyInt (i / Grid.height g), PyInt (i mod Grid.height g))
    /\ slot (length (Grid.data g)) (i / Grid.height g)
       = Some (Z.to_nat (i / Grid.height g))
    /\ slot (length col) (i mod Grid.height g)
       = Some (Z.to_nat (i mod Grid.height g)).
Proof.
  intros (Hw & Hh & Hlen & Hcols) Hi.
  destruct (cell_coordinates _ _ _ Hw Hh Hi) as (Hh0 & Hx & Hy).
  destruct (nth_error (Grid.data g) (Z.to_nat (i / Grid.height g)))
    as [col|] eqn:Ec.
  - exists col.
    assert (Hcl : length col = Z.to_nat (Grid.height g))
      by (apply Hcols; eapply nth_error_In; eauto).
    split; [reflexivity|]. split; [assumption|]. split; [|split].
    + unfold locateInt, floordiv, mod_.
      replace (Grid.height g =? 0) with false by (symmetry; apply Z.eqb_neq; lia).
      reflexivity.
    + apply slot_in_range. lia.
    + apply slot_in_range. lia.
  - apply nth_error_None in Ec. lia.
Qed.

(** Reading cell [i]. *)
Lemma get_located (g : Grid.grid) (i : Z) :
  shaped g -> 0 <= i < Grid.height g * Grid.width g ->
  exists b,
    entry (Grid.data g) (Grid.height g) i = Some b
    /\ ('(x, y) <- locateInt g i ;; Grid.get g x y) = Ok b.
Proof.
  intros Hs Hi.
  destruct (located_column g i Hs Hi) as (col & Hcol & Hcl & Hloc & Hsx & Hsy).
  destruct Hs as (Hw & Hh & _).
  destruct (cell_coordinates _ _ _ Hw Hh Hi) as (Hh0 & Hx & Hy).
  destruct (nth_error col (Z.to_nat (i mod Grid.height g))) as [b|] eqn:Eb.
  - exists b. unfold entry. rewrite Hcol. split; [assumption|].
    rewrite Hloc. cbn [bind]. destruct g as [w h m].
    eapply grid_get_slot; eauto.
  - apply nth_error_None in Eb. lia.
Qed.

(** Writing cell [i]. *)
Lemma set_located (g : Grid.grid) (i : Z) (v : bool) :
  shaped g -> 0 <= i < Grid.height g * Grid.width g ->
  exists g',
    ('(x, y) <- locateInt g i ;; Grid.set g x y v) = Ok g'
    /\ shaped g'
    /\ Grid.width g' = Grid.width g /\ Grid.height g' = Grid.height g
    /\ forall j, 0 <= j < Grid.height g * Grid.width g ->
                 entry (Grid.data g') (Grid.height g) j
                 = if j =? i then Some v
                   else entry (Grid.data g) (Grid.height g) j.
Proof.
  intros Hs Hi.
  destruct (located_column g i Hs Hi) as (col & Hcol & Hcl & Hloc & Hsx & Hsy).
  destruct Hs as (Hw & Hh & Hlen & Hcols).
  destruct (cell_coordinates _ _ _ Hw Hh Hi) as (Hh0 & Hx & Hy).
  destruct g as [w h m]. cbn [Grid.width Grid.height Grid.data] in *.
  exists (Grid.Make w h
            (update m (Z.to_nat (i / h)) (update col (Z.to_nat (i mod h)) v))).
  split; [|split; [|split; [reflexivity|split; [reflexivity|]]]].
  - rewrite Hloc. cbn [bind].
    unfold Grid.set, Grid.__getitem__, getitem, setitem, index, assign.
    cbn [Grid.data Grid.width Grid.height].
    rewrite Hsx, Hcol. cbn [bind]. rewrite Hsy. reflexivity.
  - unfold shaped. cbn [Grid.width Grid.height Grid.data].
    repeat split; try assumption.
    + now rewrite update_length.
    + intros c Hc. apply In_nth_error in Hc. destruct Hc as (k & Hk).
      destruct (Nat.eq_dec (Z.to_nat (i / h)) k) as [<-|Hne].
      * rewrite nth_error_update_eq in Hk by lia.
        injection Hk as <-. now rewrite update_length.
      * rewrite nth_error_update_neq in Hk by assumption.
        apply Hcols. eapply nth_error_In; eauto.
  - intros j Hj. cbn [Grid.data].
    destruct (cell_coordinates _ _ _ Hw Hh Hj) as (_ & Hjx & Hjy).
    unfold entry.
    destruct (Z.eqb_spec j i) as [->|Hne].
    + rewrite nth_error_update_eq by lia.
      apply nth_error_update_eq. lia.
    + destruct (Nat.eq_dec (Z.to_nat (i / h)) (Z.to_nat (j / h))) as [Ex|Ex].
      * rewrite <- Ex. rewrite nth_error_update_eq by lia. rewrite Hcol.
        apply nth_error_update_neq.
        intros Ey. apply Hne.
        rewrite (Z.div_mod j h), (Z.div_mod i h) by lia.
        assert (j / h = i / h) by lia. assert (j mod h = i mod h) by lia.
        congruence.
      * now rewrite nth_error_update_neq by assumption.
Qed.

(** [packBits] returns as soon as every cell can be read. *)
Lemma pack_total (locate : Grid.grid -> Z -> result (pynum * pynum))
  (g : Grid.grid) (m : nat) (s0 : list Z * Z) :
  (forall i, 0 <= i < Z.of_nat m ->
             exists b, ('(x, y) <- locate g i ;; Grid.get g x y) = Ok b) ->
  exists r, for_ (range (Z.of_nat m)) (packStepAt locate g) s0 = Ok r.
Proof.
  induction m as [|m IH]; intros Hread.
  - exists s0. reflexivity.
  - replace (Z.of_nat (S m)) with (Z.of_nat m + 1) by lia.
    rewrite range_succ, for_app by lia.
    destruct IH as ([bits cur] & ->); [intros i Hi; apply Hread; lia|].
    cbn [bind for_].
    destruct (Hread (Z.of_nat m)) as (b & Hb); [lia|].
    unfold packStepAt.
    destruct (locate g (Z.of_nat m)) as [[x y]|]; cbn [bind] in Hb |- *;
      [|discriminate].
    rewrite Hb. cbn [bind].
    destruct ((Z.of_nat m + 1) mod Grid.CELLS_PER_INT =? 0); eexists; reflexivity.
Qed.

Lemma lowBits_step (bs : Z -> bool) (i : Z) :
  0 <= i < 30 ->
  lowBits bs i = (if bs i then 2 ^ (29 - i) else 0) + lowBits bs (i + 1).
Proof.
  intros Hi. unfold lowBits, wordOf. rewrite Z.add_comm.
  apply sum_map_bump with (r := i).
  - apply range_NoDup.
  - apply in_range. lia.
  - replace (i <=? i) with true by (symmetry; apply Z.leb_le; lia).
    replace (i + 1 <=? i) with false by (symmetry; apply Z.leb_gt; lia).
    cbn [andb]. reflexivity.
  - intros j _ Hj.
    destruct (Z.leb_spec i j), (Z.leb_spec (i + 1) j); try lia; reflexivity.
Qed.

Lemma lowBits_end (bs : Z -> bool) : lowBits bs 30 = 0.
Proof.
  unfold lowBits. rewrite <- wordOf_none. apply wordOf_ext.
  intros j Hj. replace (30 <=? j) with false by (symmetry; apply Z.leb_gt; lia).
  reflexivity.
Qed.

Lemma lowBits_start (bs : Z -> bool) : lowBits bs 0 = wordOf bs.
Proof.
  unfold lowBits. apply wordOf_ext.
  intros j Hj. replace (0 <=? j) with true by (symmetry; apply Z.leb_le; lia).
  reflexivity.
Qed.

Lemma lowBits_bound (bs : Z -> bool) (k : nat) :
  (k <= 30)%nat ->
  0 <= lowBits bs (30 - Z.of_nat k) < 2 ^ Z.of_nat k.
Proof.
  induction k as [|k IH]; intros Hk.
  - rewrite Z.sub_0_r, lowBits_end. cbn. lia.
  - specialize (IH ltac:(lia)).
    rewrite lowBits_step by lia.
    replace (30 - Z.of_nat (S k) + 1) with (30 - Z.of_nat k) by lia.
    replace (29 - (30 - Z.of_nat (S k))) with (Z.of_nat k) by lia.
    replace (Z.of_nat (S k)) with (Z.of_nat k + 1) by lia.
    rewrite Z.pow_add_r by lia. change (2 ^ 1) with 2.
    assert (0 < 2 ^ Z.of_nat k) by (apply Z.pow_pos_nonneg; lia).
    destruct (bs (30 - (Z.of_nat k + 1))); lia.
Qed.

(** [_unpackInt] reads back the bits of a word. *)
Lemma unpackInt_wordOf (bs : Z -> bool) :
  Grid._unpackInt (wordOf bs) Grid.CELLS_PER_INT = Ok (map bs (range 30)).
Proof.
  unfold Grid._unpackInt, Grid.CELLS_PER_INT.
  pose proof (lowBits_bound bs 30 ltac:(lia)) as Hb.
  change (30 - Z.of_nat 30) with 0 in Hb. rewrite lowBits_start in Hb.
  replace (wordOf bs <? 0) with false by (symmetry; apply Z.ltb_ge; lia).
  assert (L : forall m : nat, (m <= 30)%nat ->
    for_ (range (Z.of_nat m))
      (fun i '(bools, packed) =>
         if packed >=? 2 ^ (30 - i - 1)
         then Ok (bools ++ [true], packed - 2 ^ (30 - i - 1))
         else Ok (bools ++ [false], packed))
      ([], wordOf bs)
    = Ok (map bs (range (Z.of_nat m)), lowBits bs (Z.of_nat m))).
  { induction m as [|m IH]; intros Hm.
    - cbn [for_ range map seq Z.to_nat Z.of_nat]. now rewrite lowBits_start.
    - replace (Z.of_nat (S m)) with (Z.of_nat m + 1) by lia.
      rewrite range_succ, for_app, IH, map_app by lia.
      cbn [bind for_ map]. cbv zeta.
      rewrite (lowBits_step bs (Z.of_nat m)) by lia.
      replace (30 - Z.of_nat m - 1) with (29 - Z.of_nat m) by lia.
      pose proof (lowBits_bound bs (30 - S m) ltac:(lia)) as Hlow.
      replace (30 - Z.of_nat (30 - S m)) with (Z.of_nat m + 1) in Hlow by lia.
      replace (Z.of_nat (30 - S m)) with (29 - Z.of_nat m) in Hlow by lia.
      destruct (bs (Z.of_nat m)).
      + replace (2 ^ (29 - Z.of_nat m) + lowBits bs (Z.of_nat m + 1)
                 >=? 2 ^ (29 - Z.of_nat m)) with true
          by (symmetry; apply Z.geb_le; lia).
        cbn [bind]. f_equal. f_equal. lia.
      + replace (0 + lowBits bs (Z.of_nat m + 1) >=? 2 ^ (29 - Z.of_nat m))
          with false.
        * cbn [bind]. f_equal.
        * symmetry. destruct (Z.geb_spec (0 + lowBits bs (Z.of_nat m + 1))
                                         (2 ^ (29 - Z.of_nat m))); [lia|reflexivity]. }
  specialize (L 30%nat ltac:(lia)). change (Z.of_nat 30) with 30 in L.
  rewrite L. reflexivity.
Qed.

(** The inner loop of [_unpackBits] writes the cells from [cell] on, as many
    as there are bits and cells left. *)
Lemma unpackCells_spec (bools : list bool) :
  forall (g : Grid.grid) (cell : Z),
    shaped g ->
    0 <= cell <= Grid.height g * Grid.width g ->
    let n := Grid.height g * Grid.width g in
    let cnt := Z.min (len bools) (n - cell) in
    exists g',
      unpackCellsAt locateInt bools (g, cell) = Ok (g', cell + cnt)
      /\ shaped g'
      /\ Grid.width g' = Grid.width g /\ Grid.height g' = Grid.height g
      /\ forall j, 0 <= j < n ->
           entry (Grid.data g') (Grid.height g) j
           = if (cell <=? j) && (j <? cell + cnt)
             then Some (nth (Z.to_nat (j - cell)) bools false)
             else entry (Grid.data g) (Grid.height g) j.
Proof.
  induction bools as [|b rest IH]; intros g cell Hs Hc; cbv zeta.
  - exists g. unfold len. cbn [length unpackCellsAt].
    replace (Z.min (Z.of_nat 0) (Grid.height g * Grid.width g - cell)) with 0
      by lia.
    rewrite Z.add_0_r. repeat (split; [auto|]).
    intros j Hj.
    destruct (Z.leb_spec cell j), (Z.ltb_spec j cell); try lia; reflexivity.
  - cbn [unpackCellsAt].
    destruct (Z.eqb_spec cell (Grid.width g * Grid.height g)) as [E|E].
    + exists g.
      replace (Z.min (len (b :: rest)) (Grid.height g * Grid.width g - cell))
        with 0 by (unfold len; lia).
      rewrite Z.add_0_r. repeat (split; [auto|]).
      intros j Hj.
      destruct (Z.leb_spec cell j), (Z.ltb_spec j cell); try lia; reflexivity.
    + assert (Hlt : 0 <= cell < Grid.height g * Grid.width g) by lia.
      destruct (set_located g cell b Hs Hlt)
        as (g1 & Hset & Hs1 & Hw1 & Hh1 & Hent1).
      destruct (locateInt g cell) as [[x y]|]; cbn [bind] in Hset |- *;
        [|discriminate].
      rewrite Hset. cbn [bind].
      destruct (IH g1 (cell + 1) Hs1) as (g' & Hrun & Hs' & Hw' & Hh' & Hent');
        [rewrite Hw1, Hh1; lia|].
      rewrite Hw1, Hh1 in Hrun, Hent'.
      exists g'.
      assert (Hcnt : Z.min (len (b :: rest)) (Grid.height g * Grid.width g - cell)
                     = 1 + Z.min (len rest)
                             (Grid.height g * Grid.width g - (cell + 1)))
        by (unfold len; cbn [length]; lia).
      rewrite Hcnt.
      split; [rewrite Hrun; f_equal; f_equal; lia|].
      split; [assumption|]. split; [congruence|]. split; [congruence|].
      intros j Hj. rewrite (Hent' j Hj), (Hent1 j Hj).
      set (cnt' := Z.min (len rest) (Grid.height g * Grid.width g - (cell + 1))).
      destruct (Z.eqb_spec j cell) as [->|Hne].
      * replace (cell + 1 <=? cell) with false by (symmetry; apply Z.leb_gt; lia).
        cbn [andb].
        replace (cell <=? cell) with true by (symmetry; apply Z.leb_le; lia).
        assert (0 <= cnt') by (subst cnt'; unfold len; lia).
        replace (cell <? cell + (1 + cnt')) with true
          by (symmetry; apply Z.ltb_lt; lia).
        cbn [andb]. rewrite Z.sub_diag. reflexivity.
      * destruct (Z.leb_spec (cell + 1) j), (Z.ltb_spec j (cell + 1 + cnt'));
          destruct (Z.leb_spec cell j), (Z.ltb_spec j (cell + (1 + cnt')));
          cbn [andb]; try lia; try reflexivity.
        replace (Z.to_nat (j - cell)) with (S (Z.to_nat (j - (cell + 1))))
          by lia.
        reflexivity.
Qed.

Lemma nth_map_range (B : Z -> bool) (k : Z) :
  0 <= k < 30 -> nth (Z.to_nat k) (map B (range 30)) false = B k.
Proof.
  intros Hk.
  rewrite (nth_indep _ false (B 0)) by (rewrite length_map, range_length; lia).
  rewrite map_nth, nth_range by lia. now rewrite Z2Nat.id by lia.
Qed.

(** Two grids of one shape with the same cells hold the same data. *)
Lemma shaped_ext (g1 g2 : Grid.grid) :
  shaped g1 -> shaped g2 ->
  Grid.width g1 = Grid.width g2 -> Grid.height g1 = Grid.height g2 ->
  (forall j, 0 <= j < Grid.height g1 * Grid.width g1 ->
             entry (Grid.data g1) (Grid.height g1) j
             = entry (Grid.data g2) (Grid.height g1) j) ->
  Grid.data g1 = Grid.data g2.
Proof.
  intros (Hw1 & Hh1 & Hl1 & Hc1) (Hw2 & Hh2 & Hl2 & Hc2) Ew Eh Hent.
  apply nth_error_ext. intros kx.
  destruct (Nat.lt_ge_cases kx (length (Grid.data g1))) as [Hx|Hx].
  - destruct (nth_error (Grid.data g1) kx) as [c1|] eqn:E1;
      [|apply nth_error_None in E1; lia].
    destruct (nth_error (Grid.data g2) kx) as [c2|] eqn:E2;
      [|apply nth_error_None in E2; lia].
    f_equal. apply nth_error_ext. intros ky.
    assert (L1 : length c1 = Z.to_nat (Grid.height g1))
      by (apply Hc1; eapply nth_error_In; eauto).
    assert (L2 : length c2 = Z.to_nat (Grid.height g1))
      by (rewrite Eh; apply Hc2; eapply nth_error_In; eauto).
    destruct (Nat.lt_ge_cases ky (length c1)) as [Hy|Hy].
    + set (h := Grid.height g1) in *.
      assert (Hh0 : 0 < h) by lia.
      specialize (Hent (Z.of_nat kx * h + Z.of_nat ky)).
      unfold entry in Hent.
      replace ((Z.of_nat kx * h + Z.of_nat ky) / h) with (Z.of_nat kx) in Hent
        by (apply (Z.div_unique _ _ _ (Z.of_nat ky)); lia).
      replace ((Z.of_nat kx * h + Z.of_nat ky) mod h) with (Z.of_nat ky) in Hent
        by (apply (Z.mod_unique _ _ (Z.of_nat kx)); lia).
      rewrite !Nat2Z.id, E1, E2 in Hent. apply Hent. nia.
    + rewrite (proj2 (nth_error_None c1 ky)) by lia.
      rewrite (proj2 (nth_error_None c2 ky)) by lia. reflexivity.
  - rewrite (proj2 (nth_error_None (Grid.data g1) kx)) by lia.
    rewrite (proj2 (nth_error_None (Grid.data g2) kx)) by lia. reflexivity.
Qed.

(** The outer loop of [_unpackBits], on the words that hold the cells [c]. *)
Lemma unpack_words (g0 : Grid.grid) (c : Z -> bool) (m : nat) :
  shaped g0 ->
  let n := Grid.height g0 * Grid.width g0 in
  let W := fun k => wordOf (fun j => (30 * k + j <? n) && c (30 * k + j)) in
  exists g',
    for_ (map W (range (Z.of_nat m)))
      (fun packed s =>
         bools <- Grid._unpackInt packed Grid.CELLS_PER_INT ;;
         unpackCellsAt locateInt bools s)
      (g0, 0) = Ok (g', Z.min n (30 * Z.of_nat m))
    /\ shaped g'
    /\ Grid.width g' = Grid.width g0 /\ Grid.height g' = Grid.height g0
    /\ forall j, 0 <= j < Z.min n (30 * Z.of_nat m) ->
                 entry (Grid.data g') (Grid.height g0) j = Some (c j).
Proof.
  intros Hs0 n W.
  assert (Hn : 0 <= n) by (destruct Hs0 as (? & ? & _); subst n; nia).
  induction m as [|m IH].
  - exists g0. cbn [Z.of_nat range Z.to_nat seq map for_].
    replace (Z.min n (30 * 0)) with 0 by lia.
    repeat (split; [auto|]). intros j Hj. lia.
  - destruct IH as (g1 & Hrun & Hs1 & Hw1 & Hh1 & Hent1).
    replace (Z.of_nat (S m)) with (Z.of_nat m + 1) by lia.
    rewrite range_succ, map_app, for_app, Hrun by lia.
    cbn [bind map for_].
    unfold W at 1. rewrite unpackInt_wordOf. cbn [bind].
    set (cell := Z.min n (30 * Z.of_nat m)) in *.
    destruct (unpackCells_spec
                (map (fun j => (30 * Z.of_nat m + j <? n)
                               && c (30 * Z.of_nat m + j)) (range 30))
                g1 cell Hs1)
      as (g' & Hcells & Hs' & Hw' & Hh' & Hent');
      [rewrite Hw1, Hh1; fold n; subst cell; lia|].
    cbv zeta in Hcells, Hent'. rewrite Hw1, Hh1 in Hcells, Hent'. fold n in Hcells, Hent'.
    assert (Hlen : len (map (fun j => (30 * Z.of_nat m + j <? n)
                                      && c (30 * Z.of_nat m + j)) (range 30)) = 30)
      by (unfold len; rewrite length_map, range_length; reflexivity).
    rewrite Hlen in Hcells, Hent'.
    assert (Hcell' : cell + Z.min 30 (n - cell) = Z.min n (30 * (Z.of_nat m + 1)))
      by (subst cell; lia).
    rewrite Hcell' in Hcells, Hent'.
    exists g'. rewrite Hcells. cbn [bind].
    split; [reflexivity|]. split; [assumption|].
    split; [congruence|]. split; [congruence|].
    intros j Hj. rewrite Hent' by lia.
    destruct (Z.leb_spec cell j), (Z.ltb_spec j (Z.min n (30 * (Z.of_nat m + 1))));
      cbn [andb]; try lia.
    + assert (Hc30 : cell = 30 * Z.of_nat m) by (subst cell; lia).
      rewrite nth_map_range by lia.
      replace (30 * Z.of_nat m + (j - cell)) with j by lia.
      replace (j <? n) with true by (symmetry; apply Z.ltb_lt; lia).
      reflexivity.
    + apply Hent1. lia.
Qed.

(** With integer division, unpacking what [packBits] returns gives the
    grid back, for every grid of [width] columns of [height] cells. *)
Theorem roundtrip_with_integer_division (g : Grid.grid) :
  shaped g ->
  exists bits g',
    packBitsAt locateInt g = Ok bits
    /\ reconstituteGridAt locateInt bits = Ok g'
    /\ Grid.eq g' g
    /\ Grid.width g' = Grid.width g /\ Grid.height g' = Grid.height g.
Proof.
  intros Hs.
  pose proof Hs as (Hw & Hh & Hl & Hc).
  set (n := Grid.height g * Grid.width g).
  assert (Hn : 0 <= n) by (subst n; nia).
  set (c := cellBit locateInt g).
  (* packing *)
  destruct (pack_total locateInt g (Z.to_nat n)
              ([Grid.width g; Grid.height g], 0)) as ([bs cur] & Hpack).
  { intros i Hi. rewrite Z2Nat.id in Hi by lia.
    destruct (get_located g i Hs Hi) as (b & _ & Hb). eauto. }
  pose proof (pack_loop locateInt g _ _ _ Hpack) as [-> ->].
  rewrite Z2Nat.id in * by lia.
  set (q := n / 30) in *. set (r := n mod 30) in *.
  assert (Hq : 0 <= q) by (apply Z.div_pos; lia).
  assert (Hr : 0 <= r < 30) by (apply Z.mod_pos_bound; lia).
  assert (Hdm : n = 30 * q + r) by (apply Z.div_mod; lia).
  set (W := fun k => wordOf (fun j => (30 * k + j <? n) && c (30 * k + j))).
  assert (Hwords :
    map (fun k => wordOf (fun j => cellBit locateInt g (30 * k + j))) (range q)
    ++ [wordOf (fun j => (j <? r) && cellBit locateInt g (30 * q + j))]
    = map W (range (q + 1))).
  { rewrite range_succ, map_app by lia. cbn [map]. f_equal.
    - apply map_ext_in. intros k Hk. apply in_range in Hk.
      apply wordOf_ext. intros j Hj. subst W c. cbv beta.
      replace (30 * k + j <? n) with true by (symmetry; apply Z.ltb_lt; lia).
      reflexivity.
    - f_equal. apply wordOf_ext. intros j Hj. subst W c. cbv beta. f_equal.
      destruct (Z.ltb_spec j r), (Z.ltb_spec (30 * q + j) n); try lia;
        reflexivity. }
  exists (Grid.width g :: Grid.height g :: map W (range (q + 1))).
  (* unpacking *)
  destruct (unpack_words (Grid.init (Grid.width g) (Grid.height g) false) c
              (Z.to_nat (q + 1)) (init_shaped _ _ _ Hw Hh))
    as (g' & Hrun & Hs' & Hw' & Hh' & Hent).
  cbv zeta in Hrun, Hent.
  cbn [Grid.init Grid.width Grid.height] in Hrun, Hent, Hw', Hh'.
  fold (Grid.init (Grid.width g) (Grid.height g) false) in Hrun.
  fold n in Hrun, Hent. fold W in Hrun.
  rewrite Z2Nat.id in Hrun, Hent by lia.
  exists g'. split; [|split; [|split; [|split; assumption]]].
  - unfold packBitsAt. fold n. rewrite Hpack. cbn [bind].
    rewrite <- app_assoc. cbn [app]. rewrite Hwords. reflexivity.
  - destruct (range_first (q + 1)) as (l & Hl0); [lia|].
    unfold reconstituteGridAt. rewrite Hl0 in *. cbn [map] in *.
    unfold unpackBitsAt. rewrite Hrun. reflexivity.
  - unfold Grid.eq. apply shaped_ext; try assumption.
    intros j Hj. rewrite Hw', Hh' in Hj. rewrite Hh'. fold n in Hj.
    rewrite Hent by lia.
    destruct (get_located g j Hs Hj) as (b & Hb & Hread).
    rewrite Hb. subst c. unfold cellBit. now rewrite Hread.
Qed.

(** The format with integer division: on every grid of [width] columns of
    [height] cells the loop of [packBits] returns the width and the height
    followed by [floor(n/30) + 1] words; word [k] holds the cells
    [30k .. 30k+29] that exist, the first one in the highest of 30 bits, cell
    [i] being the one in column [i // height] and row [i % height]; the
    unused low bits of the final word are 0. *)
Lemma format_with_integer_division (g : Grid.grid) :
  shaped g ->
  let n := Grid.height g * Grid.width g in
  exists words : list Z,
    packBitsAt locateInt g = Ok (Grid.width g :: Grid.height g :: words)
    /\ len words = n / 30 + 1
    /\ (forall k, 0 <= k <= n / 30 ->
          nth (Z.to_nat k) words 0
          = wordOf (fun j =>
                      (30 * k + j <? n)
                      && cellAt (Grid.data g) ((30 * k + j) / Grid.height g)
                                ((30 * k + j) mod Grid.height g)))
    /\ nth (Z.to_nat (n / 30)) words 0 mod 2 ^ (30 - n mod 30) = 0.
Proof.
  intros Hs n.
  assert (Hn : 0 <= n) by (destruct Hs as (? & ? & _); subst n; nia).
  destruct (pack_total locateInt g (Z.to_nat n)
              ([Grid.width g; Grid.height g], 0)) as ([bs cur] & Hpack).
  { intros i Hi. rewrite Z2Nat.id in Hi by lia.
    destruct (get_located g i Hs Hi) as (b & _ & Hb). eauto. }
  assert (Hret : packBitsAt locateInt g = Ok (bs ++ [cur])).
  { unfold packBitsAt. fold n. rewrite <- (Z2Nat.id n) by lia.
    rewrite Hpack. reflexivity. }
  destruct (packBitsAt_format _ _ _ Hret) as (words & Hb & Hlen & Hw & Hlow).
  fold n in Hlen, Hw, Hlow. rewrite Z.max_r in Hlen, Hw, Hlow by lia.
  exists words. rewrite Hret, Hb.
  split; [reflexivity|]. split; [assumption|]. split; [|assumption].
  intros k Hk. rewrite (Hw k Hk). apply wordOf_ext. intros j Hj.
  destruct (Z.ltb_spec (30 * k + j) n) as [Hlt|]; [|reflexivity].
  cbn [andb].
  assert (Hi : 0 <= 30 * k + j < Grid.height g * Grid.width g)
    by (fold n; lia).
  destruct (get_located g _ Hs Hi) as (b & Hent & Hread).
  unfold cellBit. rewrite Hread. unfold entry in Hent. unfold cellAt.
  destruct (nth_error (Grid.data g) (Z.to_nat ((30 * k + j) / Grid.height g)))
    as [col|] eqn:Ec; [|discriminate].
  rewrite (nth_error_nth _ _ _ Ec).
  now rewrite (nth_error_nth _ _ _ Hent).
Qed.

(** The grid of the first scenario, packed and unpacked with integer
    division: cells (0,0) and (2,1) are the cells 0 and 5, the highest and
    the sixth highest of the 30 bits of the only word.  As the class is
    written, the same tuple is not unpacked. *)
Example pack_3x2_with_integer_division :
  packBitsAt locateInt grid_3x2 = Ok [3; 2; 2 ^ 29 + 2 ^ 24]
  /\ reconstituteGridAt locateInt [3; 2; 2 ^ 29 + 2 ^ 24] = Ok grid_3x2.
Proof. split; reflexivity. Qed.

Example unpack_3x2_raises :
  Grid.reconstituteGrid [3; 2; 2 ^ 29 + 2 ^ 24] = Raise TypeError.
Proof. reflexivity. Qed.

(** * Further properties of the two modules *)

(** ** Directions *)

(** X1.  The turning tables of [Directions]: [RIGHT], built by swapping the
    items of [LEFT], undoes [LEFT] and is undone by it; two left turns are
    the [REVERSE] entry; and [REVERSE] agrees with
    [Actions.reverseDirection] on every direction. *)
Theorem turning_tables (d : Directions.t) :
  (exists l, Directions.table_get Directions.LEFT d = Some l
             /\ Directions.table_get Directions.RIGHT l = Some d)
  /\ (exists r, Directions.table_get Directions.RIGHT d = Some r
                /\ Directions.table_get Directions.LEFT r = Some d)
  /\ (exists l, Directions.table_get Directions.LEFT d = Some l
                /\ Directions.table_get Directions.LEFT l
                   = Directions.table_get Directions.REVERSE d)
  /\ Directions.table_get Directions.REVERSE d
     = Some (Actions.reverseDirection d).
Proof.
  destruct d; (split; [|split; [|split]]);
    try (eexists; split; reflexivity); reflexivity.
Qed.

Lemma Qgtb_pos (q : Q) : Qgtb q 0 = true <-> (0 < q)%Q.
Proof.
  unfold Qgtb. rewrite negb_true_iff.
  destruct (Qle_bool q 0) eqn:E.
  - apply Qle_bool_iff in E. split; [discriminate|].
    intros H. exfalso. apply (Qlt_not_le _ _ H E).
  - split; [|reflexivity]. intros _.
    apply Qnot_le_lt. intros H. apply Qle_bool_iff in H. congruence.
Qed.

(** X2.  [vectorToDirection] reads back the direction [directionToVector]
    was given when the speed is positive, the reverse direction when the
    speed is negative, and [Stop] when the speed is zero. *)
Theorem direction_of_vector (d : Directions.t) (speed : Q) :
  Actions.vectorToDirection (Actions.directionToVector d speed)
  = if Qgtb speed 0 then d
    else if Qltb speed 0 then Actions.reverseDirection d
    else Directions.STOP.
Proof.
  unfold Actions.vectorToDirection, Actions.directionToVector.
  destruct speed as [n dd].
  destruct d; cbn [Actions._directions Actions.reverseDirection];
    unfold Qgtb, Qltb, Qle_bool; cbn; rewrite ?Z.mul_1_r;
    destruct n; cbn; reflexivity.
Qed.

Lemma vector_direction_pos (d : Directions.t) (speed : Q) :
  (0 < speed)%Q ->
  Actions.vectorToDirection (Actions.directionToVector d speed) = d.
Proof.
  intros H. apply Qgtb_pos in H. revert H.
  unfold Actions.vectorToDirection, Actions.directionToVector.
  destruct speed as [n dd].
  destruct d; cbn [Actions._directions];
    unfold Qgtb, Qltb, Qle_bool; cbn; rewrite ?Z.mul_1_r;
    destruct n; cbn; intros H; try reflexivity; discriminate H.
Qed.

(** X3.  [Configuration.generateSuccessor] on the vector of an action at a
    positive speed builds a new configuration and leaves the old one in
    place: the new one is displaced by the action's unit vector times the
    speed, and faces the action, except that [Stop] keeps the old facing. *)
Theorem successor_along_direction (r : ref) (conf : Configuration.t)
  (a : Directions.t) (speed : Q) (h : Store.t) :
  nth_error (Store.configs h) r = Some conf ->
  (0 < speed)%Q ->
  exists c',
    ConfigRef.generateSuccessor r (Actions.directionToVector a speed) h
    = Ok (length (Store.configs h),
          Store.Make (Store.configs h ++ [c']) (Store.eatens h)
                     (Store.matrices h))
    /\ Configuration.direction c'
       = (if Directions.eqb a Directions.STOP
          then Configuration.direction conf else a)
    /\ Configuration.pos c'
       = (fst (Configuration.pos conf)
          + inject_Z (fst (Actions._directions a)) * speed,
          snd (Configuration.pos conf)
          + inject_Z (snd (Actions._directions a)) * speed)%Q.
Proof.
  intros Hr Hs.
  unfold ConfigRef.generateSuccessor, getConfig, bindM, deref, lift.
  rewrite Hr. destruct conf as [[x y] dir]. cbn [Configuration.pos].
  rewrite (vector_direction_pos a speed Hs).
  unfold Actions.directionToVector.
  destruct (Actions._directions a) as [dx dy]. cbn [fst snd].
  unfold newConfig. cbn [Store.configs Store.eatens Store.matrices].
  eexists. split; [reflexivity|].
  cbn [Configuration.direction Configuration.pos fst snd].
  split; reflexivity.
Qed.

Lemma successor_along_direction_witness :
  exists c',
    ConfigRef.generateSuccessor 1%nat
      (Actions.directionToVector Directions.WEST (1 # 2)) Scenario.store0
    = Ok (2%nat,
          Store.Make (Store.configs Scenario.store0 ++ [c'])
                     (Store.eatens Scenario.store0)
                     (Store.matrices Scenario.store0))
    /\ Configuration.direction c' = Directions.WEST.
Proof.
  destruct (successor_along_direction 1%nat
              (Configuration.Make (3, 1)%Q Directions.STOP)
              Directions.WEST (1 # 2) Scenario.store0 eq_refl eq_refl)
    as (c' & H & Hd & _).
  exists c'. split; [exact H|exact Hd].
Defined.

(** ** Grid cells *)

Ltac zb :=
  repeat match goal with
         | |- context [?a <=? ?b] => destruct (Z.leb_spec a b)
         | |- context [?a <? ?b] => destruct (Z.ltb_spec a b)
         | |- context [?a =? ?b] => destruct (Z.eqb_spec a b)
         end;
  cbn [andb orb negb]; try lia.

Lemma nth_error_const {A} (c : A) (n : Z) (k : nat) :
  (k < Z.to_nat n)%nat -> nth_error (map (fun _ => c) (range n)) k = Some c.
Proof.
  intros Hk.
  destruct (nth_error (map (fun _ => c) (range n)) k) as [a|] eqn:E.
  - apply nth_error_In, in_map_iff in E. destruct E as (? & <- & _).
    reflexivity.
  - apply nth_error_None in E. rewrite length_map, range_length in E. lia.
Qed.

Lemma index_const {A} (c : A) (n i : Z) :
  index (map (fun _ => c) (range n)) i
  = if (- n <=? i) && (i <? n) then Ok c else Raise IndexError.
Proof.
  unfold index. rewrite length_map, range_length.
  unfold slot. zb; rewrite ?nth_error_const by lia; reflexivity.
Qed.

(** X4.  Every cell of [Grid(w, h, v)] reads [v], also through Python's
    negative indices ([-w <= x < w], [-h <= y < h]); any other index raises
    [IndexError]. *)
Theorem new_grid_cells (w h : Z) (v : bool) (x y : Z) :
  Grid.get (Grid.init w h v) (PyInt x) (PyInt y)
  = if ((- w <=? x) && (x <? w)) && ((- h <=? y) && (y <? h))
    then Ok v else Raise IndexError.
Proof.
  unfold Grid.get, Grid.__getitem__, Grid.init, getitem. cbn [Grid.data].
  rewrite index_const.
  destruct ((- w <=? x) && (x <? w)); cbn [bind andb]; [|reflexivity].
  apply index_const.
Qed.

Lemma shaped_grid_3x2 : shaped grid_3x2.
Proof.
  repeat split; try (cbn; lia).
  intros col [<-|[<-|[<-|[]]]]; reflexivity.
Qed.

Lemma shaped_column (g : Grid.grid) (x : Z) :
  shaped g -> 0 <= x < Grid.width g ->
  nth_error (Grid.data g) (Z.to_nat x) = Some (nth (Z.to_nat x) (Grid.data g) [])
  /\ length (nth (Z.to_nat x) (Grid.data g) []) = Z.to_nat (Grid.height g).
Proof.
  intros (Hw & Hh & Hlen & Hcols) Hx.
  assert (Hlt : (Z.to_nat x < length (Grid.data g))%nat) by lia.
  split.
  - now apply nth_error_nth'.
  - apply Hcols. now apply nth_In.
Qed.

Lemma get_shaped (g : Grid.grid) (x y : Z) :
  shaped g -> 0 <= x < Grid.width g -> 0 <= y < Grid.height g ->
  Grid.get g (PyInt x) (PyInt y) = Ok (cellAt (Grid.data g) x y).
Proof.
  intros Hs Hx Hy.
  destruct (shaped_column g x Hs Hx) as [Hcol Hlen].
  destruct Hs as (Hw & Hh & Hl & _).
  destruct g as [w h m]. cbn [Grid.data Grid.width Grid.height] in *.
  eapply grid_get_slot.
  - apply slot_in_range. lia.
  - exact Hcol.
  - apply slot_in_range. lia.
  - unfold cellAt. apply nth_error_nth'. lia.
Qed.

Lemma nth_update {A} (l : list A) (k j : nat) (v d : A) :
  (k < length l)%nat ->
  nth j (update l k v) d = if (j =? k)%nat then v else nth j l d.
Proof.
  intros Hk. destruct (Nat.eqb_spec j k) as [->|Hne].
  - apply nth_error_nth. now apply nth_error_update_eq.
  - destruct (nth_error l j) as [a|] eqn:E.
    + rewrite (nth_error_nth l j d E).
      apply nth_error_nth. rewrite nth_error_update_neq by auto. exact E.
    + assert (E' : nth_error (update l k v) j = None)
        by (rewrite nth_error_update_neq by auto; exact E).
      apply nth_error_None in E, E'.
      now rewrite !nth_overflow.
Qed.

Lemma set_shaped (g : Grid.grid) (x y : Z) (v : bool) :
  shaped g -> 0 <= x < Grid.width g -> 0 <= y < Grid.height g ->
  exists g',
    Grid.set g (PyInt x) (PyInt y) v = Ok g'
    /\ shaped g'
    /\ Grid.width g' = Grid.width g /\ Grid.height g' = Grid.height g
    /\ forall x' y',
         cellAt (Grid.data g') x' y'
         = if (Z.to_nat x' =? Z.to_nat x)%nat && (Z.to_nat y' =? Z.to_nat y)%nat
           then v else cellAt (Grid.data g) x' y'.
Proof.
  intros Hs Hx Hy.
  destruct (shaped_column g x Hs Hx) as [Hcol Hlen].
  pose proof Hs as (Hw & Hh & Hl & Hcols).
  set (col := nth (Z.to_nat x) (Grid.data g) []) in *.
  exists (Grid.Make (Grid.width g) (Grid.height g)
            (update (Grid.data g) (Z.to_nat x) (update col (Z.to_nat y) v))).
  split; [|split; [|split; [reflexivity|split; [reflexivity|]]]].
  - unfold Grid.set, Grid.__getitem__, getitem, setitem.
    assert (Sx : slot (length (Grid.data g)) x = Some (Z.to_nat x))
      by (apply slot_in_range; lia).
    rewrite (index_slot _ _ _ _ Sx Hcol).
    cbn [bind]. unfold assign.
    rewrite (slot_in_range (length col)) by lia. cbn [bind].
    rewrite (slot_in_range (length (Grid.data g))) by lia. reflexivity.
  - repeat split; cbn [Grid.width Grid.height Grid.data]; try assumption.
    + now rewrite update_length.
    + intros c Hc. apply In_nth_error in Hc. destruct Hc as [k Hk].
      destruct (Nat.eq_dec (Z.to_nat x) k) as [<-|Hne].
      * rewrite nth_error_update_eq in Hk by lia.
        injection Hk as <-. now rewrite update_length.
      * rewrite nth_error_update_neq in Hk by assumption.
        apply Hcols. eapply nth_error_In; eauto.
  - intros x' y'. unfold cellAt. cbn [Grid.data].
    rewrite nth_update by lia.
    destruct (Nat.eqb_spec (Z.to_nat x') (Z.to_nat x)) as [E|E]; cbn [andb].
    + rewrite nth_update by (fold col; lia). rewrite E. fold col.
      reflexivity.
    + reflexivity.
Qed.

(** X5.  On a grid of [width] columns of [height] cells, [g[x][y] = v] at
    a position of the grid succeeds and keeps the shape; afterwards
    [g[x][y]] reads [v] and every other position of the grid reads what it
    read before. *)
Theorem grid_write_then_read (g : Grid.grid) (x y : Z) (v : bool) :
  shaped g -> 0 <= x < Grid.width g -> 0 <= y < Grid.height g ->
  exists g',
    Grid.set g (PyInt x) (PyInt y) v = Ok g'
    /\ shaped g'
    /\ Grid.width g' = Grid.width g /\ Grid.height g' = Grid.height g
    /\ forall x' y',
         0 <= x' < Grid.width g -> 0 <= y' < Grid.height g ->
         Grid.get g' (PyInt x') (PyInt y')
         = if (x' =? x) && (y' =? y) then Ok v
           else Grid.get g (PyInt x') (PyInt y').
Proof.
  intros Hs Hx Hy.
  destruct (set_shaped g x y v Hs Hx Hy) as (g' & Hset & Hs' & Hw & Hh & Hc).
  exists g'. repeat (split; [assumption|]).
  intros x' y' Hx' Hy'.
  rewrite (get_shaped g') by (rewrite ?Hw, ?Hh; assumption).
  rewrite (get_shaped g) by assumption.
  rewrite Hc.
  destruct (Z.eqb_spec x' x), (Z.eqb_spec y' y),
    (Nat.eqb_spec (Z.to_nat x') (Z.to_nat x)),
    (Nat.eqb_spec (Z.to_nat y') (Z.to_nat y)); cbn [andb];
    try reflexivity; lia.
Qed.

Lemma grid_write_then_read_witness :
  exists g',
    Grid.set grid_3x2 (PyInt 1) (PyInt 1) true = Ok g'
    /\ Grid.get g' (PyInt 1) (PyInt 1) = Ok true
    /\ Grid.get g' (PyInt 0) (PyInt 1) = Grid.get grid_3x2 (PyInt 0) (PyInt 1).
Proof.
  destruct (grid_write_then_read grid_3x2 1 1 true shaped_grid_3x2
              ltac:(cbn; lia) ltac:(cbn; lia))
    as (g' & Hset & _ & _ & _ & Hget).
  exists g'. split; [exact Hset|]. split.
  - apply (Hget 1 1); cbn; lia.
  - apply (Hget 0 1); cbn; lia.
Defined.

(** ** Grid: counting and listing cells *)

Lemma count_bool_both (l : list bool) :
  count_bool true l + count_bool false l = len l.
Proof.
  unfold len. induction l as [|b l IH]; [reflexivity|].
  rewrite !count_bool_cons. cbn [length]. destruct b; cbn [Bool.eqb]; lia.
Qed.

(** X6.  On a grid of [width] columns of [height] cells, [count(True)] and
    [count(False)] add up to [width * height]. *)
Theorem count_both_values (g : Grid.grid) :
  shaped g ->
  Grid.count (Grid.data g) true + Grid.count (Grid.data g) false
  = Grid.width g * Grid.height g.
Proof.
  intros (Hw & Hh & Hlen & Hcols).
  replace (Grid.width g) with (len (Grid.data g)) by (unfold len; lia).
  unfold Grid.count, len. revert Hcols. clear Hlen.
  induction (Grid.data g) as [|col m IH]; intros Hcols; [reflexivity|].
  cbn [map]. rewrite !sum_cons. cbn [length].
  assert (Hc : len col = Grid.height g)
    by (unfold len; rewrite (Hcols col (or_introl eq_refl)); lia).
  pose proof (count_bool_both col).
  specialize (IH (fun c Hin => Hcols c (or_intror Hin))). nia.
Qed.

Lemma count_both_values_witness :
  Grid.count (Grid.data grid_3x2) true + Grid.count (Grid.data grid_3x2) false
  = 3 * 2.
Proof. exact (count_both_values grid_3x2 shaped_grid_3x2). Defined.

(** The rows [y] of column [x] that hold [key]. *)
Lemma asList_column (g : Grid.grid) (key : bool) (x : Z) (n : nat)
  (l : list (Z * Z)) :
  shaped g -> 0 <= x < Grid.width g -> Z.of_nat n <= Grid.height g ->
  for_ (range (Z.of_nat n))
    (fun y list =>
       c <- Grid.get g (PyInt x) (PyInt y) ;;
       if Bool.eqb c key then Ok (list ++ [(x, y)]) else Ok list)
    l
  = Ok (l ++ map (pair x)
               (filter (fun y => Bool.eqb (cellAt (Grid.data g) x y) key)
                       (range (Z.of_nat n)))).
Proof.
  intros Hs Hx. induction n as [|n IH]; intros Hn.
  - cbn. now rewrite app_nil_r.
  - replace (Z.of_nat (S n)) with (Z.of_nat n + 1) by lia.
    rewrite range_succ, for_app by lia. rewrite IH by lia.
    cbn [bind for_]. rewrite get_shaped by (auto; lia). cbn [bind].
    rewrite filter_app, map_app. cbn [filter].
    destruct (Bool.eqb (cellAt (Grid.data g) x (Z.of_nat n)) key).
    + cbn [map]. now rewrite app_assoc.
    + cbn [map]. now rewrite app_nil_r.
Qed.

Lemma asList_columns (g : Grid.grid) (key : bool) (n : nat) :
  shaped g -> Z.of_nat n <= Grid.width g ->
  for_ (range (Z.of_nat n))
    (fun x list =>
       for_ (range (Grid.height g))
         (fun y list =>
            c <- Grid.get g (PyInt x) (PyInt y) ;;
            if Bool.eqb c key then Ok (list ++ [(x, y)]) else Ok list)
         list)
    []
  = Ok (flat_map (cellsOf g key) (range (Z.of_nat n))).
Proof.
  intros Hs. induction n as [|n IH]; intros Hn; [reflexivity|].
  replace (Z.of_nat (S n)) with (Z.of_nat n + 1) by lia.
  rewrite range_succ, for_app by lia. rewrite IH by lia.
  cbn [bind for_].
  pose proof Hs as (_ & Hh & _).
  pose proof (asList_column g key (Z.of_nat n) (Z.to_nat (Grid.height g))
                (flat_map (cellsOf g key) (range (Z.of_nat n))) Hs) as Hc.
  rewrite Z2Nat.id in Hc by assumption.
  rewrite Hc by lia. cbn [bind].
  rewrite flat_map_app. cbn [flat_map]. now rewrite app_nil_r.
Qed.

Lemma column_as_map (col : list bool) (h : Z) :
  length col = Z.to_nat h ->
  col = map (fun y => nth (Z.to_nat y) col false) (range h).
Proof.
  intros Hlen. apply nth_ext with (d := false) (d' := false).
  - now rewrite length_map, range_length.
  - intros k Hk. set (f := fun y => nth (Z.to_nat y) col false).
    rewrite (nth_indep (map f _) false (f 0))
      by (rewrite length_map, range_length; lia).
    rewrite map_nth, nth_range by lia. unfold f. now rewrite Nat2Z.id.
Qed.

Lemma cellsOf_length (g : Grid.grid) (key : bool) (x : Z) :
  shaped g -> 0 <= x < Grid.width g ->
  Z.of_nat (length (cellsOf g key x))
  = count_bool key (nth (Z.to_nat x) (Grid.data g) []).
Proof.
  intros Hs Hx. destruct (shaped_column g x Hs Hx) as [_ Hlen].
  unfold cellsOf, count_bool. rewrite length_map. f_equal.
  set (col := nth (Z.to_nat x) (Grid.data g) []) in *.
  rewrite (column_as_map col (Grid.height g) Hlen) at 1.
  rewrite filter_map_swap, length_map. f_equal.
  apply filter_ext. intros y. unfold cellAt. fold col.
  now destruct (nth (Z.to_nat y) col false), key.
Qed.

Lemma flat_map_length_sum (g : Grid.grid) (key : bool) (n : nat) :
  shaped g -> (n <= length (Grid.data g))%nat ->
  Z.of_nat (length (flat_map (cellsOf g key) (range (Z.of_nat n))))
  = sum (map (count_bool key) (firstn n (Grid.data g))).
Proof.
  intros Hs. pose proof Hs as (Hw & Hh & Hlen & _).
  induction n as [|n IH]; intros Hn; [reflexivity|].
  replace (Z.of_nat (S n)) with (Z.of_nat n + 1) by lia.
  rewrite range_succ, flat_map_app by lia. cbn [flat_map].
  rewrite app_nil_r, length_app, Nat2Z.inj_add, IH by lia.
  rewrite cellsOf_length by (auto; lia). rewrite Nat2Z.id.
  assert (Hf : firstn (S n) (Grid.data g)
               = firstn n (Grid.data g) ++ [nth n (Grid.data g) []]).
  { clear - Hn. revert n Hn.
    induction (Grid.data g) as [|c m IHm]; intros n Hn;
      [cbn in Hn; lia|].
    destruct n as [|n]; [reflexivity|].
    cbn [length] in Hn. rewrite firstn_cons, (IHm n) by lia. reflexivity. }
  rewrite Hf, map_app. cbn [map]. clear.
  induction (map (count_bool key) (firstn n (Grid.data g))) as [|a l IHl].
  - cbn. lia.
  - cbn [app]. rewrite !sum_cons. lia.
Qed.

Lemma NoDup_map_pair {A B} (a : A) (l : list B) :
  NoDup l -> NoDup (map (pair a) l).
Proof.
  induction 1 as [|b l Hb Hl IH]; cbn [map]; constructor; [|assumption].
  rewrite in_map_iff. intros (b' & E & Hin). injection E as ->. contradiction.
Qed.

(** X7.  On a grid of [width] columns of [height] cells, [asList(key)]
    returns each position of the grid that holds [key] exactly once, and
    nothing else, so its length is [count(key)]. *)
Theorem asList_cells (g : Grid.grid) (key : bool) :
  shaped g ->
  exists l,
    Grid.asList g key = Ok l
    /\ NoDup l
    /\ (forall x y,
          In (x, y) l <->
          0 <= x < Grid.width g /\ 0 <= y < Grid.height g
          /\ Grid.get g (PyInt x) (PyInt y) = Ok key)
    /\ len l = Grid.count (Grid.data g) key.
Proof.
  intros Hs. pose proof Hs as (Hw & Hh & Hlen & _).
  exists (flat_map (cellsOf g key) (range (Grid.width g))).
  split; [|split; [|split]].
  - unfold Grid.asList.
    pose proof (asList_columns g key (Z.to_nat (Grid.width g)) Hs) as H.
    rewrite Z2Nat.id in H by assumption. apply H. lia.
  - assert (Hnd : forall l, NoDup l ->
                    NoDup (flat_map (cellsOf g key) l)).
    { induction 1 as [|a l Ha Hl IH]; cbn [flat_map]; [constructor|].
      apply NoDup_app; [| assumption |].
      - unfold cellsOf. apply NoDup_map_pair, NoDup_filter, range_NoDup.
      - intros [x y] H1 H2. unfold cellsOf in H1.
        apply in_map_iff in H1. destruct H1 as (y' & E & _).
        injection E as <- <-.
        apply in_flat_map in H2. destruct H2 as (x' & Hx' & H2).
        unfold cellsOf in H2. apply in_map_iff in H2.
        destruct H2 as (y'' & E & _). injection E as -> _. contradiction. }
    apply Hnd, range_NoDup.
  - intros x y. rewrite in_flat_map. split.
    + intros (x' & Hx' & Hin). unfold cellsOf in Hin.
      apply in_map_iff in Hin. destruct Hin as (y' & E & Hy').
      injection E as -> ->. apply filter_In in Hy'. destruct Hy' as [Hy' Hc].
      apply in_range in Hx', Hy'. repeat split; try lia.
      rewrite get_shaped by assumption. f_equal.
      now apply eqb_prop.
    + intros (Hx & Hy & Hget). exists x. split; [now apply in_range|].
      unfold cellsOf. apply in_map, filter_In. split; [now apply in_range|].
      rewrite get_shaped in Hget by assumption. injection Hget as ->.
      apply eqb_reflx.
  - unfold len, Grid.count.
    pose proof (flat_map_length_sum g key (length (Grid.data g)) Hs
                  (Nat.le_refl _)) as H.
    rewrite firstn_all in H.
    replace (Z.of_nat (length (Grid.data g))) with (Grid.width g) in H by lia.
    exact H.
Qed.

Lemma asList_cells_witness :
  exists l,
    Grid.asList grid_3x2 true = Ok l
    /\ NoDup l
    /\ len l = Grid.count (Grid.data grid_3x2) true.
Proof.
  destruct (asList_cells grid_3x2 true shaped_grid_3x2)
    as (l & H & Hnd & _ & Hlen).
  exists l. repeat split; assumption.
Defined.

(** ** Grid: copies *)

Lemma set_then_get (g g' : Grid.grid) (x y : pynum) (v : bool) :
  Grid.set g x y v = Ok g' -> Grid.get g' x y = Ok v.
Proof.
  destruct x as [x|q]; [|discriminate]. destruct y as [y|q].
  - destruct g as [w h m]. intros H. apply grid_set_ok in H.
    destruct H as (kx & ky & col & Hx & Hcol & Hy & ->).
    assert (Hkx : (kx < length m)%nat) by (eapply slot_lt; eauto).
    assert (Hky : (ky < length col)%nat) by (eapply slot_lt; eauto).
    eapply grid_get_slot.
    + rewrite update_length. exact Hx.
    + now apply nth_error_update_eq.
    + rewrite update_length. exact Hy.
    + now apply nth_error_update_eq.
  - unfold Grid.set, Grid.__getitem__, setitem.
    destruct (getitem (Grid.data g) (PyInt x)); discriminate.
Qed.

Lemma gridref_get_at (g : GridRef.t) (x y : pynum) (h : Store.t) :
  GridRef.get g x y h
  = match nth_error (Store.matrices h) (Grid.data g) with
    | Some m =>
        match Grid.get (Grid.Make (Grid.width g) (Grid.height g) m) x y with
        | Ok b => Ok (b, h)
        | Raise e => Raise e
        end
    | None => Raise Dangling
    end.
Proof.
  unfold GridRef.get, GridRef.view, getMatrix, bindM, deref, lift, ret.
  destruct (nth_error (Store.matrices h) (Grid.data g)); reflexivity.
Qed.

Lemma gridref_set_ok (g : GridRef.t) (x y : pynum) (v : bool)
  (h h' : Store.t) (u : unit) :
  GridRef.set g x y v h = Ok (u, h') ->
  exists m g',
    nth_error (Store.matrices h) (Grid.data g) = Some m
    /\ Grid.set (Grid.Make (Grid.width g) (Grid.height g) m) x y v = Ok g'
    /\ h' = Store.Make (Store.configs h) (Store.eatens h)
                       (update (Store.matrices h) (Grid.data g) (Grid.data g')).
Proof.
  unfold GridRef.set, GridRef.view. intros H.
  mstep H as gv h1 E1. mstep E1 as m h2 E2. done_step E2. done_step E1.
  subst. mstep H as g' h3 E3. done_step E3. subst.
  unfold putMatrix in H.
  destruct (Grid.data g <? length (Store.matrices h))%nat; [|discriminate].
  injection H as _ <-. eauto.
Qed.

(** X8.  A write to a [copy()] of a grid leaves every read of the original
    as it was; a write to a [shallowCopy()] is a write to the original: the
    original reads the written value at that position. *)
Theorem copy_and_shallowCopy (g : GridRef.t) (x y : pynum) (v : bool)
  (h : Store.t) :
  (forall c h1 u h2,
      GridRef.copy g h = Ok (c, h1) ->
      GridRef.set c x y v h1 = Ok (u, h2) ->
      forall x' y',
        GridRef.get g x' y' h2
        = match GridRef.get g x' y' h with
          | Ok (b, _) => Ok (b, h2)
          | Raise e => Raise e
          end)
  /\ (forall u h2,
        GridRef.set (GridRef.shallowCopy g) x y v h = Ok (u, h2) ->
        GridRef.get g x y h2 = Ok (v, h2)).
Proof.
  split.
  - intros c h1 u h2 Hc Hs x' y'.
    unfold GridRef.copy in Hc.
    mstep Hc as m h0 E0. done_step E0. subst h0.
    mstep Hc as r h3 E3. unfold newMatrix in E3. injection E3 as <- <-.
    done_step Hc. subst c h1.
    apply gridref_set_ok in Hs.
    destruct Hs as (m1 & g' & _ & _ & ->).
    cbn [Grid.data Store.matrices Store.configs Store.eatens] in *.
    assert (Hlt : (Grid.data g < length (Store.matrices h))%nat)
      by (apply nth_error_Some; congruence).
    rewrite !gridref_get_at. cbn [Store.matrices].
    rewrite nth_error_update_neq by lia.
    rewrite nth_error_snoc_old by assumption.
    rewrite E0.
    destruct (Grid.get _ x' y'); reflexivity.
  - intros u h2 Hs. rewrite shallowCopy_id in Hs.
    apply gridref_set_ok in Hs.
    destruct Hs as (m & g' & Hm & Hset & ->).
    rewrite gridref_get_at. cbn [Store.matrices].
    assert (Hlt : (Grid.data g < length (Store.matrices h))%nat)
      by (apply nth_error_Some; congruence).
    rewrite nth_error_update_eq by assumption.
    pose proof (set_then_get _ _ _ _ _ Hset) as Hget.
    assert (E : g' = Grid.Make (Grid.width g) (Grid.height g) (Grid.data g')).
    { unfold Grid.set in Hset.
      destruct (Grid.__getitem__ _ x); cbn [bind] in Hset; [|discriminate].
      destruct (setitem _ y v); cbn [bind] in Hset; [|discriminate].
      destruct (setitem _ x _); cbn [bind] in Hset; [|discriminate].
      injection Hset as <-. reflexivity. }
    rewrite <- E, Hget. reflexivity.
Qed.

(** ** Grid: the bits of a packed word *)

Lemma mod_pow2_succ (a k : Z) :
  0 <= k ->
  a mod 2 ^ (k + 1) = a mod 2 ^ k + (if Z.testbit a k then 2 ^ k else 0).
Proof.
  intros Hk. rewrite Z.pow_add_r, Z.pow_1_r by lia.
  rewrite Z.rem_mul_r by (try apply Z.pow_nonzero; lia).
  rewrite <- Z.testbit_spec' by assumption.
  destruct (Z.testbit a k); cbn [Z.b2z]; lia.
Qed.

Lemma unpackInt_step (packed m : Z) :
  0 <= packed -> 0 <= m < 30 ->
  (remainder packed m >=? 2 ^ (30 - m - 1))
  = Z.testbit (Z.min packed (2 ^ 30 - 1)) (29 - m)
  /\ remainder packed (m + 1)
     = if Z.testbit (Z.min packed (2 ^ 30 - 1)) (29 - m)
       then remainder packed m - 2 ^ (30 - m - 1) else remainder packed m.
Proof.
  intros Hp Hm. unfold remainder.
  replace (30 - m - 1) with (29 - m) by lia.
  replace (30 - (m + 1)) with (29 - m) by lia.
  replace (30 - m) with (29 - m + 1) by lia.
  assert (Hpos : 0 < 2 ^ (29 - m)) by (apply Z.pow_pos_nonneg; lia).
  destruct (Z.ltb_spec packed (2 ^ 30)) as [Hlt|Hge].
  - rewrite Z.min_l by lia.
    rewrite mod_pow2_succ by lia.
    pose proof (Z.mod_pos_bound packed (2 ^ (29 - m)) Hpos) as Hb.
    destruct (Z.testbit packed (29 - m)); split; lia.
  - rewrite Z.min_r by lia.
    assert (Hb : Z.testbit (2 ^ 30 - 1) (29 - m) = true).
    { replace (2 ^ 30 - 1) with (Z.ones 30) by reflexivity.
      apply Z.ones_spec_low. lia. }
    rewrite Hb. rewrite Z.pow_add_r, Z.pow_1_r by lia. split; lia.
Qed.

Lemma unpackInt_loop (packed : Z) (m : nat) :
  0 <= packed -> (m <= 30)%nat ->
  for_ (range (Z.of_nat m))
    (fun i '(bools, packed) =>
       let n := 2 ^ (Grid.CELLS_PER_INT - i - 1) in
       if packed >=? n then Ok (bools ++ [true], packed - n)
       else Ok (bools ++ [false], packed))
    ([], packed)
  = Ok (map (fun i => Z.testbit (Z.min packed (2 ^ 30 - 1)) (29 - i))
            (range (Z.of_nat m)),
        remainder packed (Z.of_nat m)).
Proof.
  intros Hp. induction m as [|m IH]; intros Hm.
  - cbn [Z.of_nat range Z.to_nat seq map for_]. unfold remainder.
    change (30 - 0) with 30.
    destruct (Z.ltb_spec packed (2 ^ 30)).
    + now rewrite Z.mod_small by lia.
    + f_equal. f_equal. lia.
  - replace (Z.of_nat (S m)) with (Z.of_nat m + 1) by lia.
    rewrite range_succ, for_app by lia. rewrite IH by lia.
    cbn [bind for_]. cbv zeta. unfold Grid.CELLS_PER_INT.
    destruct (unpackInt_step packed (Z.of_nat m) Hp ltac:(lia)) as [Hb Hr].
    rewrite Hb, Hr, map_app. cbn [map].
    destruct (Z.testbit (Z.min packed (2 ^ 30 - 1)) (29 - Z.of_nat m));
      reflexivity.
Qed.

(** X9.  [_unpackInt(packed, size)], for [size] at most 30, raises
    [ValueError] on a negative [packed]; otherwise it returns the [size]
    highest of the 30 low bits of [packed], highest first, where a [packed]
    of [2^30] or more counts as [2^30 - 1] (all bits set). *)
Theorem unpackInt_bits (packed size : Z) :
  size <= 30 ->
  Grid._unpackInt packed size
  = if packed <? 0 then Raise ValueError
    else Ok (map (fun i => Z.testbit (Z.min packed (2 ^ 30 - 1)) (29 - i))
                 (range size)).
Proof.
  intros Hs. unfold Grid._unpackInt.
  destruct (Z.ltb_spec packed 0) as [Hn|Hp]; [reflexivity|].
  assert (Hr : range size = range (Z.of_nat (Z.to_nat size))).
  { unfold range. now rewrite Nat2Z.id. }
  rewrite Hr, unpackInt_loop by lia. reflexivity.
Qed.

Lemma unpackInt_bits_witness :
  Grid._unpackInt (2 ^ 29 + 1) 30
  = Ok (map (fun i => Z.testbit (Z.min (2 ^ 29 + 1) (2 ^ 30 - 1)) (29 - i))
            (range 30)).
Proof. apply (unpackInt_bits (2 ^ 29 + 1) 30). lia. Defined.

(** ** Grid: unpacking a tuple *)

Lemma unpackInt_first (word : Z) :
  0 <= word ->
  exists b bools, Grid._unpackInt word Grid.CELLS_PER_INT = Ok (b :: bools).
Proof.
  intros Hw. rewrite unpackInt_bits by (unfold Grid.CELLS_PER_INT; lia).
  destruct (Z.ltb_spec word 0); [lia|].
  destruct (range_first Grid.CELLS_PER_INT eq_refl) as [l ->].
  cbn [map]. eauto.
Qed.

Lemma unpackBits_without_cells (words : list Z) (g : Grid.grid) (cell : Z) :
  Grid.width g * Grid.height g = cell ->
  for_ words
    (fun packed s =>
       bools <- Grid._unpackInt packed Grid.CELLS_PER_INT ;;
       Grid.unpackCells bools s)
    (g, cell)
  = if forallb (fun word => 0 <=? word) words then Ok (g, cell)
    else Raise ValueError.
Proof.
  intros Hc. induction words as [|word words IH]; [reflexivity|].
  cbn [for_ forallb].
  destruct (Z.leb_spec 0 word) as [Hp|Hn]; cbn [andb].
  - destruct (unpackInt_first word Hp) as (b & bools & ->). cbn [bind].
    cbn [Grid.unpackCells]. rewrite <- Hc, Z.eqb_refl. cbn [bind].
    rewrite Hc. exact IH.
  - unfold Grid._unpackInt.
    destruct (Z.ltb_spec word 0); [reflexivity|lia].
Qed.

(** X10.  [reconstituteGrid] on a tuple [(w, h, words...)]: without words
    it is the all-[False] [Grid(w, h)]; with words and [w * h = 0] it is that
    grid again, or [ValueError] if a word is negative; with words and
    [w * h <> 0] it never returns: [ValueError] if the first word is
    negative, [TypeError] otherwise (the float column index of
    [_cellIndexToPosition]). *)
Theorem reconstituteGrid_outcomes (w h : Z) (words : list Z) :
  Grid.reconstituteGrid (w :: h :: words)
  = match words with
    | [] => Ok (Grid.init w h false)
    | word :: _ =>
        if w * h =? 0
        then if forallb (fun word => 0 <=? word) words
             then Ok (Grid.init w h false) else Raise ValueError
        else if word <? 0 then Raise ValueError else Raise TypeError
    end.
Proof.
  destruct words as [|word rest]; [reflexivity|].
  cbn [Grid.reconstituteGrid Grid.initFromBits]. unfold Grid._unpackBits.
  destruct (Z.eqb_spec (w * h) 0) as [Hz|Hnz].
  - rewrite unpackBits_without_cells by exact Hz.
    destruct (forallb _ _); reflexivity.
  - cbn [for_].
    destruct (Z.ltb_spec word 0) as [Hn|Hp].
    + unfold Grid._unpackInt.
      destruct (Z.ltb_spec word 0); [reflexivity|lia].
    + destruct (unpackInt_first word Hp) as (b & bools & ->). cbn [bind].
      cbn [Grid.unpackCells].
      change (Grid.width (Grid.init w h false)) with w.
      change (Grid.height (Grid.init w h false)) with h.
      destruct (Z.eqb_spec 0 (w * h)); [lia|].
      unfold Grid._cellIndexToPosition, truediv, mod_.
      change (Grid.height (Grid.init w h false)) with h.
      destruct (Z.eqb_spec h 0); [nia|]. reflexivity.
Qed.

(** ** Actions: neighbours *)

Lemma neighbor_step (walls : Grid.grid) (x y : Z)
  (dx dy : Z) (l : list (Z * Z)) :
  shaped walls ->
  0 <= x < Grid.width walls -> 0 <= y < Grid.height walls ->
  -1 <= dx <= 1 -> -1 <= dy <= 1 ->
  (if (x + dx <? 0) || (x + dx =? Grid.width walls) then Ok l
   else
     if (y + dy <? 0) || (y + dy =? Grid.height walls) then Ok l
     else
       w <- Grid.get walls (PyInt (x + dx)) (PyInt (y + dy)) ;;
       if negb w then Ok (l ++ [(x + dx, y + dy)]) else Ok l)
  = Ok (l ++ if freeAt walls x y (dx, dy) then [(x + dx, y + dy)] else []).
Proof.
  intros Hs Hx Hy Hdx Hdy. unfold freeAt. cbn [fst snd].
  destruct (Z.ltb_spec (x + dx) 0), (Z.eqb_spec (x + dx) (Grid.width walls));
    cbn [orb]; try lia.
  - zb; now rewrite app_nil_r.
  - zb; now rewrite app_nil_r.
  - destruct (Z.ltb_spec (y + dy) 0),
      (Z.eqb_spec (y + dy) (Grid.height walls)); cbn [orb]; try lia.
    + zb; now rewrite app_nil_r.
    + zb; now rewrite app_nil_r.
    + rewrite get_shaped by (auto; lia). cbn [bind].
      destruct (Z.leb_spec 0 (x + dx)), (Z.ltb_spec (x + dx) (Grid.width walls)),
        (Z.leb_spec 0 (y + dy)), (Z.ltb_spec (y + dy) (Grid.height walls));
        try lia.
      cbn [andb].
      destruct (cellAt (Grid.data walls) (x + dx) (y + dy)); cbn [negb];
        [now rewrite app_nil_r|reflexivity].
Qed.

Lemma neighbors_as_filter (position : Q * Q) (walls : Grid.grid) :
  shaped walls ->
  let x_int := int (fst position + (1 # 2)) in
  let y_int := int (snd position + (1 # 2)) in
  0 <= x_int < Grid.width walls -> 0 <= y_int < Grid.height walls ->
  Actions.getLegalNeighbors position walls
  = Ok (map (fun d => (x_int + fst d, y_int + snd d))
            (filter (freeAt walls x_int y_int) offsets)).
Proof.
  intros Hs x_int y_int Hx Hy.
  unfold Actions.getLegalNeighbors. destruct position as [px py].
  cbn [fst snd] in x_int, y_int. fold x_int y_int.
  unfold Actions._directionsAsList. cbn [map Actions._directions for_].
  repeat (rewrite (neighbor_step walls x_int y_int) by (auto; lia);
          cbn [bind]).
  unfold offsets. cbn [filter].
  destruct (freeAt walls x_int y_int (0, 1)),
    (freeAt walls x_int y_int (0, -1)),
    (freeAt walls x_int y_int (1, 0)),
    (freeAt walls x_int y_int (-1, 0)),
    (freeAt walls x_int y_int (0, 0)); reflexivity.
Qed.

(** X11.  For a position that rounds to a cell of the walls grid,
    [getLegalNeighbors] returns without raising; its result holds, each once,
    the cells at Manhattan distance at most 1 from that cell (the cell itself
    included) that lie in the grid and are no wall. *)
Theorem legal_neighbors (position : Q * Q) (walls : Grid.grid) :
  shaped walls ->
  let x_int := int (fst position + (1 # 2)) in
  let y_int := int (snd position + (1 # 2)) in
  0 <= x_int < Grid.width walls -> 0 <= y_int < Grid.height walls ->
  exists l,
    Actions.getLegalNeighbors position walls = Ok l
    /\ NoDup l
    /\ forall cx cy,
         In (cx, cy) l <->
         Z.abs (cx - x_int) + Z.abs (cy - y_int) <= 1
         /\ 0 <= cx < Grid.width walls /\ 0 <= cy < Grid.height walls
         /\ Grid.get walls (PyInt cx) (PyInt cy) = Ok false.
Proof.
  intros Hs x_int y_int Hx Hy.
  eexists. split; [apply (neighbors_as_filter position walls Hs Hx Hy)|].
  fold x_int y_int. split.
  - assert (Hnd : NoDup offsets).
    { unfold offsets. repeat constructor; cbn; intuition congruence. }
    apply (NoDup_filter (freeAt walls x_int y_int)) in Hnd.
    revert Hnd. generalize (filter (freeAt walls x_int y_int) offsets).
    induction 1 as [|d l Hd Hl IH]; cbn [map]; constructor; [|assumption].
    rewrite in_map_iff. intros ([dx' dy'] & E & Hin).
    destruct d as [dx dy]. cbn [fst snd] in E.
    injection E as E1 E2.
    assert (dx' = dx) by lia. assert (dy' = dy) by lia. subst dx' dy'.
    contradiction.
  - intros cx cy. rewrite in_map_iff. split.
    + intros ([dx dy] & E & Hin). cbn [fst snd] in E. injection E as <- <-.
      apply filter_In in Hin. destruct Hin as [Hin Hfree].
      unfold freeAt in Hfree. cbn [fst snd] in Hfree.
      repeat (apply andb_true_iff in Hfree; destruct Hfree as [Hfree ?]).
      assert (Hb : 0 <= x_int + dx < Grid.width walls
                   /\ 0 <= y_int + dy < Grid.height walls) by lia.
      destruct Hb as [Hbx Hby].
      split; [|split; [assumption|split; [assumption|]]].
      * unfold offsets in Hin. cbn [In] in Hin.
        repeat (destruct Hin as [Hin|Hin]; [injection Hin; lia|]).
        contradiction.
      * rewrite get_shaped by assumption. f_equal.
        now apply negb_true_iff.
    + intros (Habs & Hcx & Hcy & Hget).
      exists (cx - x_int, cy - y_int). cbn [fst snd].
      split; [f_equal; lia|]. apply filter_In. split.
      * unfold offsets. cbn [In].
        assert (Hc : (cx - x_int = 0 /\ cy - y_int = 1)
                     \/ (cx - x_int = 0 /\ cy - y_int = -1)
                     \/ (cx - x_int = 1 /\ cy - y_int = 0)
                     \/ (cx - x_int = -1 /\ cy - y_int = 0)
                     \/ (cx - x_int = 0 /\ cy - y_int = 0)) by lia.
        destruct Hc as [[-> ->]|[[-> ->]|[[-> ->]|[[-> ->]|[-> ->]]]]]; auto 6.
      * unfold freeAt. cbn [fst snd].
        replace (x_int + (cx - x_int)) with cx by lia.
        replace (y_int + (cy - y_int)) with cy by lia.
        rewrite get_shaped in Hget by assumption. injection Hget as ->.
        repeat (apply andb_true_iff; split); try reflexivity; lia.
Qed.

Lemma shaped_walls : shaped Scenario.walls.
Proof.
  repeat split; try (cbn; lia).
  intros col [<-|[<-|[<-|[<-|[<-|[]]]]]]; reflexivity.
Qed.

Lemma legal_neighbors_witness :
  exists l,
    Actions.getLegalNeighbors (1, 1)%Q Scenario.walls = Ok l /\ NoDup l.
Proof.
  assert (Hx : 0 <= int (fst (1, 1)%Q + (1 # 2)) < Grid.width Scenario.walls)
    by (vm_compute; split; [discriminate|reflexivity]).
  assert (Hy : 0 <= int (snd (1, 1)%Q + (1 # 2)) < Grid.height Scenario.walls)
    by (vm_compute; split; [discriminate|reflexivity]).
  destruct (legal_neighbors (1, 1)%Q Scenario.walls shaped_walls Hx Hy)
    as (l & H & Hnd & _).
  exists l. split; assumption.
Defined.

(** ** Actions: the possible actions *)

Lemma in_keep (b : bool) (d d' : Directions.t) :
  In d' (keep b d) <-> b = false /\ d' = d.
Proof.
  unfold keep. destruct b; cbn [In].
  - split; [contradiction|]. intros [H _]. discriminate.
  - split; [intros [<-|[]]; auto|]. intros [_ ->]. now left.
Qed.

Lemma unaligned_actions (conf : Configuration.t) (walls : Grid.grid) :
  aligned conf = false ->
  Actions.getPossibleActions conf walls = Ok [Configuration.direction conf].
Proof.
  unfold aligned, Actions.getPossibleActions.
  destruct conf as [[x y] dir]. cbn [Configuration.pos].
  intros H. apply negb_false_iff in H. rewrite H. reflexivity.
Qed.

Lemma aligned_actions (conf : Configuration.t) (walls : Grid.grid)
  (acts : list Directions.t) :
  aligned conf = true ->
  Actions.getPossibleActions conf walls = Ok acts ->
  NoDup acts /\ forall d, In d acts <-> wallAt walls conf d = Ok false.
Proof.
  intros Ha H. rewrite (getPossibleActions_aligned _ _ Ha) in H.
  destruct (wallAt walls conf Directions.NORTH) as [bN|] eqn:EN;
    cbn [bind] in H; [|discriminate].
  destruct (wallAt walls conf Directions.SOUTH) as [bS|] eqn:ES;
    cbn [bind] in H; [|discriminate].
  destruct (wallAt walls conf Directions.EAST) as [bE|] eqn:EE;
    cbn [bind] in H; [|discriminate].
  destruct (wallAt walls conf Directions.WEST) as [bW|] eqn:EW;
    cbn [bind] in H; [|discriminate].
  destruct (wallAt walls conf Directions.STOP) as [bP|] eqn:EP;
    cbn [bind] in H; [|discriminate].
  injection H as <-. split.
  - destruct bN, bS, bE, bW, bP; cbn [keep app];
      repeat constructor; cbn [In]; intuition discriminate.
  - intros d. rewrite !in_app_iff, !in_keep.
    destruct d; rewrite ?EN, ?ES, ?EE, ?EW, ?EP;
      (split; [intros H; f_equal; intuition (discriminate || auto)
              |intros H; injection H as ->; auto 10]).
Qed.

(** X12.  [getPossibleActions]: between two grid points the only possible
    action is the current direction, and the walls are not read; on a grid
    point the possible actions are, each once, the directions ([Stop]
    included) whose neighbouring cell reads as no wall. *)
Theorem possible_actions (conf : Configuration.t) (walls : Grid.grid) :
  (aligned conf = false ->
   Actions.getPossibleActions conf walls = Ok [Configuration.direction conf])
  /\ (aligned conf = true ->
      forall acts,
        Actions.getPossibleActions conf walls = Ok acts ->
        NoDup acts
        /\ forall d, In d acts <-> wallAt walls conf d = Ok false).
Proof.
  split.
  - apply unaligned_actions.
  - intros Ha acts H. now apply aligned_actions.
Qed.

(** The pursuer at the east end of the corridor may go west only. *)
Lemma possible_actions_witness :
  exists acts,
    Actions.getPossibleActions
      (Configuration.Make (3, 1)%Q Directions.EAST) Scenario.walls = Ok acts
    /\ NoDup acts
    /\ (In Directions.EAST acts <->
        wallAt Scenario.walls (Configuration.Make (3, 1)%Q Directions.EAST)
               Directions.EAST = Ok false).
Proof.
  eexists. split; [vm_compute; reflexivity|].
  destruct (proj2 (possible_actions
                     (Configuration.Make (3, 1)%Q Directions.EAST)
                     Scenario.walls) eq_refl _ eq_refl) as [Hnd Hin].
  split; [exact Hnd|apply Hin].
Defined.

(** ** GameState: the pursuers *)

Lemma index_spec {A} (l : list A) (i : Z) :
  index l i
  = if (- len l <=? i) && (i <? len l)
    then match nth_error l (Z.to_nat (i mod len l)) with
         | Some a => Ok a
         | None => Raise IndexError
         end
    else Raise IndexError.
Proof.
  unfold index, slot, len.
  set (n := Z.of_nat (length l)).
  destruct (Z.leb_spec 0 i), (Z.ltb_spec i n); cbn [andb].
  - destruct (Z.leb_spec (- n) i); [|lia]. cbn [andb].
    now rewrite Z.mod_small by lia.
  - destruct (Z.leb_spec (- n) i), (Z.ltb_spec i 0); cbn [andb]; try lia.
    reflexivity.
  - destruct (Z.leb_spec (- n) i), (Z.ltb_spec i 0); cbn [andb]; try lia.
    + replace (i mod n) with (n + i); [reflexivity|].
      apply (Z.mod_unique _ _ (-1)); lia.
    + reflexivity.
  - lia.
Qed.

(** X13.  [getGhostState(i)] with [n] agents: index 0 and every index from
    [n] on raise the invalid-index exception; an index below [-n] raises
    [IndexError]; every other index, the negative ones included, returns
    agent [i mod n], so [getGhostState(-n)] returns Pacman's own state. *)
Theorem getGhostState_index (s : GameState.t) (i : Z) :
  let n := GameState.getNumAgents s in
  (i = 0 \/ n <= i ->
   GameState.getGhostState s i = Raise (Exception Msg.invalidGhost))
  /\ (i < - n -> GameState.getGhostState s i = Raise IndexError)
  /\ (- n <= i < n -> i <> 0 ->
      exists a,
        GameState.getGhostState s i = Ok a
        /\ nth_error (agentStates (GameState.data s)) (Z.to_nat (i mod n))
           = Some a).
Proof.
  intros n. unfold GameState.getGhostState. fold n.
  split; [|split].
  - intros [->|Hi].
    + reflexivity.
    + destruct (Z.eqb_spec i 0), (Z.geb_spec i n); cbn [orb];
        try reflexivity; lia.
  - intros Hi.
    assert (Hn : 0 <= n) by (unfold n, GameState.getNumAgents, len; lia).
    destruct (Z.eqb_spec i 0), (Z.geb_spec i n); cbn [orb]; try lia.
    rewrite index_spec. fold (GameState.getNumAgents s). fold n.
    destruct (Z.leb_spec (- n) i); [lia|]. reflexivity.
  - intros Hi Hnz.
    destruct (Z.eqb_spec i 0), (Z.geb_spec i n); cbn [orb]; try lia.
    rewrite index_spec. fold (GameState.getNumAgents s). fold n.
    destruct (Z.leb_spec (- n) i), (Z.ltb_spec i n); try lia. cbn [andb].
    destruct (nth_error (agentStates (GameState.data s))
                        (Z.to_nat (i mod n))) as [a|] eqn:E; [eauto|].
    apply nth_error_None in E.
    assert (0 <= i mod n < n) by (apply Z.mod_pos_bound; lia).
    unfold n, GameState.getNumAgents, len in *. lia.
Qed.

(** With two agents, index -2 gives Pacman's own state. *)
Lemma getGhostState_index_witness :
  exists a,
    GameState.getGhostState (Scenario.state 0) (-2) = Ok a
    /\ nth_error (agentStates (GameState.data (Scenario.state 0)))
                 (Z.to_nat (-2 mod 2)) = Some a
    /\ a = Scenario.pacman.
Proof.
  destruct (proj2 (proj2 (getGhostState_index (Scenario.state 0) (-2))))
    as (a & H & Hn); [vm_compute; split; [discriminate|reflexivity]|discriminate|].
  exists a. repeat split; try assumption.
  vm_compute in Hn. injection Hn as <-. reflexivity.
Defined.

Lemma getPosition_at (a : AgentState.t) (h : Store.t) (c : Configuration.t) :
  nth_error (Store.configs h) (AgentState.configuration a) = Some c ->
  GameState.getPosition a h = Ok (Configuration.pos c, h).
Proof.
  intros H. unfold GameState.getPosition, getConfig, bindM, deref, lift, ret.
  now rewrite H.
Qed.

Lemma positions_loop (h : Store.t) (l : list AgentState.t) :
  (forall a, In a l ->
     exists c, nth_error (Store.configs h) (AgentState.configuration a) = Some c) ->
  forall acc,
  exists ps,
    forM l (fun s l => p <~ GameState.getPosition s ;; ret (l ++ [p])) acc h
    = Ok (acc ++ ps, h)
    /\ length ps = length l
    /\ forall k a c,
         nth_error l k = Some a ->
         nth_error (Store.configs h) (AgentState.configuration a) = Some c ->
         nth_error ps k = Some (Configuration.pos c).
Proof.
  induction l as [|a l IH]; intros Hc acc.
  - exists []. cbn [forM]. unfold ret. rewrite app_nil_r.
    split; [reflexivity|]. split; [reflexivity|].
    intros [|k] ? ? H; discriminate H.
  - destruct (Hc a (or_introl eq_refl)) as [c Ha].
    destruct (IH (fun b Hb => Hc b (or_intror Hb)) (acc ++ [Configuration.pos c]))
      as (ps & Hrun & Hlen & Hnth).
    exists (Configuration.pos c :: ps).
    split; [|split].
    + cbn [forM]. unfold bindM at 1. unfold bindM at 1.
      rewrite (getPosition_at _ _ _ Ha). unfold ret at 1.
      rewrite Hrun, <- app_assoc. reflexivity.
    + cbn [length]. now rewrite Hlen.
    + intros [|k] b cb Hb Hcb.
      * cbn [nth_error] in *. injection Hb as <-. congruence.
      * cbn [nth_error] in *. eauto.
Qed.

(** X14.  [getGhostPositions()] has one entry for each agent but the first,
    and entry [i - 1] is [getGhostPosition(i)] for every pursuer [i];
    [getGhostPosition(0)] raises the Pacman-index exception and an index
    outside the list raises [IndexError]. *)
Theorem ghost_positions (s : GameState.t) (h : Store.t) :
  (forall a, In a (agentStates (GameState.data s)) ->
     exists c, nth_error (Store.configs h) (AgentState.configuration a) = Some c) ->
  let n := GameState.getNumAgents s in
  GameState.getGhostPosition s 0 h = Raise (Exception Msg.pacmanIndex)
  /\ (forall i, i <> 0 -> n <= i \/ i < - n ->
        GameState.getGhostPosition s i h = Raise IndexError)
  /\ exists ps,
       GameState.getGhostPositions s h = Ok (ps, h)
       /\ len ps = Z.max 0 (n - 1)
       /\ forall i, 0 < i < n ->
            exists p,
              GameState.getGhostPosition s i h = Ok (p, h)
              /\ nth_error ps (Z.to_nat (i - 1)) = Some p.
Proof.
  intros Hc n. split; [reflexivity|]. split.
  - intros i Hnz Hi.
    unfold GameState.getGhostPosition.
    destruct (Z.eqb_spec i 0); [contradiction|].
    unfold bindM. rewrite index_spec.
    fold (GameState.getNumAgents s). fold n.
    destruct (Z.leb_spec (- n) i), (Z.ltb_spec i n); try lia; reflexivity.
  - unfold GameState.getGhostPositions, GameState.getGhostStates.
    set (l := agentStates (GameState.data s)) in *.
    assert (Hc1 : forall a, In a (skipn 1 l) ->
              exists c, nth_error (Store.configs h)
                                  (AgentState.configuration a) = Some c).
    { intros a Ha. apply Hc. apply In_nth_error in Ha. destruct Ha as [k Hk].
      rewrite nth_error_skipn in Hk. eapply nth_error_In; eauto. }
    destruct (positions_loop h (skipn 1 l) Hc1 [])
      as (ps & Hrun & Hlen & Hnth).
    exists ps. split; [exact Hrun|]. split.
    + unfold len, n, GameState.getNumAgents, len. fold l.
      rewrite Hlen, length_skipn. lia.
    + intros i Hi.
      unfold GameState.getGhostPosition.
      destruct (Z.eqb_spec i 0); [lia|]. fold l.
      unfold n, GameState.getNumAgents, len in Hi. fold l in Hi.
      destruct (nth_error l (Z.to_nat i)) as [a|] eqn:Ea;
        [|apply nth_error_None in Ea; lia].
      destruct (Hc a (nth_error_In _ _ Ea)) as [c Hca].
      exists (Configuration.pos c). split.
      * unfold bindM, lift.
        rewrite (index_slot l i (Z.to_nat i) a)
          by (try apply slot_in_range; auto; lia).
        now apply getPosition_at.
      * apply (Hnth _ a); [|assumption].
        rewrite nth_error_skipn.
        replace (1 + Z.to_nat (i - 1))%nat with (Z.to_nat i) by lia.
        exact Ea.
Qed.

(** ** Legal and illegal actions *)

(** The legal actions read the agent states, the walls and the
    configurations, and nothing else; they leave the store as it is. *)
Lemma pacman_legal_pure (st : GameState.t) (h : Store.t) :
  PacmanRules.getLegalActions st h
  = match (a <- GameState.getPacmanState st ;;
           conf <- deref (Store.configs h) (AgentState.configuration a) ;;
           Actions.getPossibleActions conf (GameState.getWalls st)) with
    | Ok l => Ok (l, h)
    | Raise e => Raise e
    end.
Proof.
  unfold PacmanRules.getLegalActions, bindM, getConfig, lift.
  destruct (GameState.getPacmanState st) as [a|e]; cbn [bind]; [|reflexivity].
  destruct (deref (Store.configs h) (AgentState.configuration a)) as [c|e];
    cbn [bind]; [|reflexivity].
  reflexivity.
Qed.

Lemma ghost_legal_pure (st : GameState.t) (i : Z) (h : Store.t) :
  GhostRules.getLegalActions st i h
  = match (g <- GameState.getGhostState st i ;;
           conf <- deref (Store.configs h) (AgentState.configuration g) ;;
           possibleActions <-
             Actions.getPossibleActions conf (GameState.getWalls st) ;;
           let reverse :=
             Actions.reverseDirection (Configuration.direction conf) in
           let possibleActions :=
             if Directions.mem Directions.STOP possibleActions
             then Directions.remove Directions.STOP possibleActions
             else possibleActions in
           Ok (if Directions.mem reverse possibleActions
                  && (len possibleActions >? 1)
               then Directions.remove reverse possibleActions
               else possibleActions)) with
    | Ok l => Ok (l, h)
    | Raise e => Raise e
    end.
Proof.
  unfold GhostRules.getLegalActions, bindM, getConfig, lift, ret.
  destruct (GameState.getGhostState st i) as [g|e]; cbn [bind]; [|reflexivity].
  destruct (deref (Store.configs h) (AgentState.configuration g)) as [c|e];
    cbn [bind]; [|reflexivity].
  destruct (Actions.getPossibleActions c (GameState.getWalls st)) as [l|e];
    cbn [bind]; reflexivity.
Qed.

Lemma legal_on_copy (s : GameState.t) (i : Z) (h h0 : Store.t)
  (f : GameStateData.t -> GameStateData.t) :
  Store.configs h0 = Store.configs h ->
  agentStates (f (GameStateData.__init__ (GameState.data s)))
  = agentStates (GameState.data s) ->
  layout (f (GameStateData.__init__ (GameState.data s)))
  = layout (GameState.data s) ->
  let st := GameState.upd f (GameState.__init__ s) in
  PacmanRules.getLegalActions st h0
  = match PacmanRules.getLegalActions s h with
    | Ok (l, _) => Ok (l, h0)
    | Raise e => Raise e
    end
  /\ GhostRules.getLegalActions st i h0
     = match GhostRules.getLegalActions s i h with
       | Ok (l, _) => Ok (l, h0)
       | Raise e => Raise e
       end.
Proof.
  intros Hc Ha Hl st.
  rewrite !pacman_legal_pure, !ghost_legal_pure.
  unfold GameState.getPacmanState, GameState.getGhostState,
    GameState.getNumAgents, GameState.getWalls.
  subst st. cbn [GameState.data GameState.upd GameState.__init__].
  rewrite Ha, Hl, Hc. split.
  - destruct (_ <- _ ;; _) as [l|e]; reflexivity.
  - destruct (_ <- _ ;; _) as [l|e]; reflexivity.
Qed.

(** The store and the state in which the rules of a turn first run. *)
Lemma legal_at_start (s : GameState.t) (i : Z) (h : Store.t) :
  PacmanRules.getLegalActions
    (GameState.upd (set__eaten (length (Store.eatens h)))
                   (GameState.__init__ s))
    (Store.Make (Store.configs h)
       (Store.eatens h
        ++ [map (fun _ => false)
                (range (GameState.getNumAgents (GameState.__init__ s)))])
       (Store.matrices h))
  = match PacmanRules.getLegalActions s h with
    | Ok (l, _) =>
        Ok (l, Store.Make (Store.configs h)
                 (Store.eatens h
                  ++ [map (fun _ => false)
                        (range (GameState.getNumAgents (GameState.__init__ s)))])
                 (Store.matrices h))
    | Raise e => Raise e
    end
  /\ GhostRules.getLegalActions (GameState.__init__ s) i h
     = match GhostRules.getLegalActions s i h with
       | Ok (l, _) => Ok (l, h)
       | Raise e => Raise e
       end.
Proof.
  split.
  - match goal with
    | |- PacmanRules.getLegalActions _ ?h0 = _ =>
        apply (proj1 (legal_on_copy s 0 h h0
                        (set__eaten (length (Store.eatens h)))
                        eq_refl (copyAgentStates_id _) eq_refl))
    end.
  - apply (proj2 (legal_on_copy s i h h (fun d => d)
                    eq_refl (copyAgentStates_id _) eq_refl)).
Qed.

(** X15.  On a state that is not terminal, [generateSuccessor] with an
    action that is not among [getLegalActions] of that agent raises the
    illegal-action exception of Pacman or of the pursuers; so it returns a
    successor only for a legal action. *)
Theorem illegal_action_raises (s : GameState.t) (agentIndex : Z)
  (action : Directions.t) (h : Store.t) (legal : list Directions.t) :
  GameState.isWin s = false -> GameState.isLose s = false ->
  getLegalActions s agentIndex h = Ok (legal, h) ->
  (Directions.mem action legal = false ->
   generateSuccessor s agentIndex action h
   = Raise (Exception (if agentIndex =? 0 then Msg.illegal
                       else Msg.illegalGhost)))
  /\ (forall s' h',
        generateSuccessor s agentIndex action h = Ok (s', h') ->
        Directions.mem action legal = true).
Proof.
  intros Hw Hl Hlegal.
  assert (Hraise : Directions.mem action legal = false ->
            generateSuccessor s agentIndex action h
            = Raise (Exception (if agentIndex =? 0 then Msg.illegal
                                else Msg.illegalGhost))).
  { intros Hmem. unfold generateSuccessor, getLegalActions in *.
    rewrite Hw, Hl in *. cbn [orb] in *.
    destruct (legal_at_start s agentIndex h) as [Ep Eg].
    destruct (Z.eqb_spec agentIndex 0) as [->|Hi].
    - unfold bindM at 1. unfold bindM at 1. unfold bindM at 1.
      unfold newEaten at 1.
      unfold PacmanRules.applyAction. unfold bindM at 1.
      rewrite Ep, Hlegal, Hmem. reflexivity.
    - unfold bindM at 1. unfold bindM at 1.
      unfold GhostRules.applyAction. unfold bindM at 1.
      rewrite Eg, Hlegal, Hmem. reflexivity. }
  split; [exact Hraise|].
  intros s' h' H.
  destruct (Directions.mem action legal) eqn:Em; [reflexivity|].
  rewrite (Hraise eq_refl) in H. discriminate.
Qed.

(** In the corridor Pacman, at its west end, may not go west. *)
Lemma illegal_action_raises_witness :
  generateSuccessor (Scenario.state 0) 0 Directions.WEST Scenario.store0
  = Raise (Exception Msg.illegal).
Proof.
  assert (E : exists legal,
             getLegalActions (Scenario.state 0) 0 Scenario.store0
             = Ok (legal, Scenario.store0)
             /\ Directions.mem Directions.WEST legal = false)
    by (eexists; split; vm_compute; reflexivity).
  destruct E as (legal & E & Hm).
  exact (proj1 (illegal_action_raises (Scenario.state 0) 0 Directions.WEST
                  Scenario.store0 legal eq_refl eq_refl E) Hm).
Defined.

Lemma successor_legal (s s' : GameState.t) (i : Z) (a : Directions.t)
  (h h' : Store.t) :
  generateSuccessor s i a h = Ok (s', h') ->
  GameState.isWin s = false /\ GameState.isLose s = false
  /\ exists legal,
       (if i =? 0 then PacmanRules.getLegalActions s h
        else GhostRules.getLegalActions s i h) = Ok (legal, h)
       /\ Directions.mem a legal = true.
Proof.
  unfold generateSuccessor. intros H.
  destruct (GameState.isWin s) eqn:Ew; [discriminate|].
  destruct (GameState.isLose s) eqn:El; [discriminate|].
  cbn [orb] in H. split; [reflexivity|]. split; [reflexivity|].
  destruct (legal_at_start s i h) as [Ep Eg].
  destruct (Z.eqb_spec i 0) as [->|Hi].
  - mstep H as st1 h1 Ea. mstep Ea as e h0 Ee.
    unfold newEaten in Ee. injection Ee as <- <-.
    apply pacman_applyAction_ok in Ea.
    destruct Ea as (legal & _ & _ & _ & Hlegal & Hmem & _).
    rewrite Ep in Hlegal.
    destruct (PacmanRules.getLegalActions s h) as [[l h1']|e] eqn:E;
      [|discriminate].
    apply pacman_legal_store in E as Eh. subst h1'.
    injection Hlegal as ->. eauto.
  - mstep H as st1 h1 Ea.
    apply ghost_applyAction_ok in Ea.
    destruct Ea as (legal & _ & _ & _ & _ & Hlegal & Hmem & _).
    rewrite Eg in Hlegal.
    destruct (GhostRules.getLegalActions s i h) as [[l h1']|e] eqn:E;
      [|discriminate].
    apply ghost_legal_store in E as Eh. subst h1'.
    injection Hlegal as ->. eauto.
Qed.

Lemma mem_In (x : Directions.t) (l : list Directions.t) :
  Directions.mem x l = true <-> In x l.
Proof.
  unfold Directions.mem. rewrite existsb_exists. split.
  - intros (y & Hy & E). destruct x, y; try discriminate; exact Hy.
  - intros H. exists x. split; [assumption|]. now destruct x.
Qed.

Lemma In_remove (d x : Directions.t) (l : list Directions.t) :
  In d (Directions.remove x l) -> In d l.
Proof.
  induction l as [|a l IH]; cbn [Directions.remove]; [auto|].
  destruct (Directions.eqb x a); cbn [In]; intuition.
Qed.

Lemma remove_NoDup (x : Directions.t) (l : list Directions.t) :
  NoDup l -> ~ In x (Directions.remove x l).
Proof.
  induction 1 as [|a l Ha Hl IH]; cbn [Directions.remove]; [auto|].
  destruct (Directions.eqb x a) eqn:E.
  - assert (x = a) by (destruct x, a; try discriminate; reflexivity).
    now subst.
  - cbn [In]. intros [->|H]; [|contradiction].
    destruct x; discriminate.
Qed.

(** The actions a pursuer may take are among the possible ones, and never
    [Stop]. *)
Lemma ghost_legal_among (st : GameState.t) (i : Z) (h : Store.t)
  (g : AgentState.t) (conf : Configuration.t) (legal : list Directions.t) :
  GhostRules.getLegalActions st i h = Ok (legal, h) ->
  GameState.getGhostState st i = Ok g ->
  nth_error (Store.configs h) (AgentState.configuration g) = Some conf ->
  exists possible,
    Actions.getPossibleActions conf (GameState.getWalls st) = Ok possible
    /\ (forall d, In d legal -> In d possible)
    /\ (NoDup possible -> ~ In Directions.STOP legal).
Proof.
  intros H Hg Hc. rewrite ghost_legal_pure in H. rewrite Hg in H.
  cbn [bind] in H. unfold deref in H. rewrite Hc in H. cbn [bind] in H.
  destruct (Actions.getPossibleActions conf (GameState.getWalls st))
    as [possible|e]; cbn [bind] in H; [|discriminate].
  cbv zeta in H. injection H as <-.
  exists possible. split; [reflexivity|]. split.
  - intros d Hd.
    destruct (Directions.mem _ _ && _) in Hd;
      [apply In_remove in Hd|];
      destruct (Directions.mem Directions.STOP possible) in Hd;
      try apply In_remove in Hd; assumption.
  - intros Hnd Hin.
    assert (Hs : ~ In Directions.STOP
                   (if Directions.mem Directions.STOP possible
                    then Directions.remove Directions.STOP possible
                    else possible)).
    { destruct (Directions.mem Directions.STOP possible) eqn:Em.
      - now apply remove_NoDup.
      - intros Hc'. apply mem_In in Hc'. congruence. }
    apply Hs. destruct (Directions.mem _ _ && _) in Hin;
      [apply In_remove in Hin|]; assumption.
Qed.

(** X16.  No agent is moved into a wall: when [generateSuccessor] returns,
    the mover stood either on a grid point, and then the cell one step in the
    action's direction reads as no wall, or between two grid points, and then
    the action is the direction it was facing; and a pursuer's action is
    never [Stop]. *)
Theorem no_move_into_wall (s s' : GameState.t) (agentIndex : Z)
  (action : Directions.t) (h h' : Store.t) (g : AgentState.t)
  (conf : Configuration.t) :
  generateSuccessor s agentIndex action h = Ok (s', h') ->
  index (agentStates (GameState.data s)) agentIndex = Ok g ->
  nth_error (Store.configs h) (AgentState.configuration g) = Some conf ->
  (if aligned conf
   then wallAt (GameState.getWalls s) conf action = Ok false
   else action = Configuration.direction conf)
  /\ (agentIndex <> 0 -> action <> Directions.STOP).
Proof.
  intros H Hg Hc.
  apply successor_legal in H. destruct H as (_ & _ & legal & Hl & Hm).
  apply mem_In in Hm.
  destruct (Z.eqb_spec agentIndex 0) as [->|Hi].
  - split; [|contradiction].
    rewrite pacman_legal_pure in Hl. unfold GameState.getPacmanState in Hl.
    rewrite Hg in Hl. cbn [bind] in Hl. unfold deref in Hl.
    cbn [AgentState.copy AgentState.configuration] in Hl.
    rewrite Hc in Hl. cbn [bind] in Hl.
    destruct (Actions.getPossibleActions conf (GameState.getWalls s))
      as [acts|e] eqn:E; [|discriminate].
    injection Hl as ->.
    destruct (aligned conf) eqn:Ea.
    + now apply (aligned_actions _ _ _ Ea E).
    + rewrite (unaligned_actions _ _ Ea) in E. injection E as <-.
      destruct Hm as [->|[]]. reflexivity.
  - assert (Hgs : GameState.getGhostState s agentIndex = Ok g).
    { unfold GameState.getGhostState.
      destruct (Z.eqb_spec agentIndex 0); [contradiction|].
      destruct (Z.geb_spec agentIndex (GameState.getNumAgents s));
        cbn [orb]; [|assumption].
      apply index_ok in Hg. destruct Hg as (k & Hk & _).
      unfold slot in Hk. unfold GameState.getNumAgents, len in *.
      destruct (Z.leb_spec 0 agentIndex),
        (Z.ltb_spec agentIndex
           (Z.of_nat (length (agentStates (GameState.data s)))));
        cbn [andb] in Hk; try lia.
      destruct (Z.ltb_spec agentIndex 0); [lia|].
      rewrite andb_false_r in Hk. discriminate. }
    destruct (ghost_legal_among _ _ _ _ _ _ Hl Hgs Hc)
      as (possible & Hp & Hsub & Hstop).
    destruct (aligned conf) eqn:Ea.
    + destruct (aligned_actions _ _ _ Ea Hp) as [Hnd Hin].
      split.
      * apply Hin, Hsub, Hm.
      * intros _ ->. now apply (Hstop Hnd).
    + rewrite (unaligned_actions _ _ Ea) in Hp. injection Hp as <-.
      split.
      * destruct (Hsub _ Hm) as [->|[]]. reflexivity.
      * intros _ ->. apply Hstop; [|assumption].
        repeat constructor. intros [].
Qed.

(** The pursuer, at (3,1), steps west: the cell west of it is no wall. *)
Lemma no_move_into_wall_witness :
  wallAt (GameState.getWalls (Scenario.state 0))
         (Configuration.Make (3, 1)%Q Directions.STOP) Directions.WEST
  = Ok false.
Proof.
  assert (E : exists s' h',
             generateSuccessor (Scenario.state 0) 1 Directions.WEST
               Scenario.store0 = Ok (s', h'))
    by (eexists _, _; vm_compute; reflexivity).
  destruct E as (s' & h' & E).
  exact (proj1 (no_move_into_wall (Scenario.state 0) s' 1 Directions.WEST
                  Scenario.store0 h' (Scenario.ghost 0)
                  (Configuration.Make (3, 1)%Q Directions.STOP)
                  E eq_refl eq_refl)).
Defined.

(** ** What one collision check does to the state *)

Lemma checkOne_cases (pac : Q * Q) (idx : Z) (st st' : GameState.t)
  (h h' : Store.t) :
  GhostRules.checkOne pac idx st h = Ok (st', h') ->
  exists g k c,
    slot (length (agentStates (GameState.data st))) idx = Some k
    /\ nth_error (agentStates (GameState.data st)) k = Some g
    /\ nth_error (Store.configs h) (AgentState.configuration g) = Some c
    /\ st' = if GhostRules.canKill pac (Configuration.pos c)
             then
               if AgentState.scaredTimer g >? 0
               then GameState.upd
                      (fun d =>
                         set_agentStates
                           (update (agentStates d) k
                              (AgentState.with_scaredTimer
                                 (GhostRules.placeGhost g) 0))
                           (set_scoreChange (scoreChange d + 200) d))
                      st
               else if negb (_win (GameState.data st))
                    then GameState.upd
                           (fun d => set__lose true
                                       (set_scoreChange (scoreChange d - 500) d))
                           st
                    else st
             else st.
Proof.
  intros H. apply checkOne_ok in H.
  destruct H as (g & k & c & Hk & Hg & Hc & H).
  exists g, k, c. repeat (split; [assumption|]).
  destruct (GhostRules.canKill pac (Configuration.pos c)).
  - apply collide_ok in H.
    destruct (AgentState.scaredTimer g >? 0).
    + destruct H as (k' & l & j & Hk' & _ & _ & -> & _).
      assert (k' = k) by congruence. subst k'. reflexivity.
    + destruct H as [_ ->]. reflexivity.
  - destruct H as [-> _]. reflexivity.
Qed.

(** One check leaves every agent but the checked one as it was, and
    touches neither the capsules nor the bookkeeping of the move. *)
Lemma checkOne_others (pac : Q * Q) (idx : Z) (st st' : GameState.t)
  (h h' : Store.t) :
  GhostRules.checkOne pac idx st h = Ok (st', h') ->
  _capsuleEaten (GameState.data st') = _capsuleEaten (GameState.data st)
  /\ _agentMoved (GameState.data st') = _agentMoved (GameState.data st)
  /\ forall k j,
       slot (length (agentStates (GameState.data st))) idx = Some k ->
       j <> k ->
       nth_error (agentStates (GameState.data st')) j
       = nth_error (agentStates (GameState.data st)) j.
Proof.
  intros H. apply checkOne_cases in H.
  destruct H as (g & k & c & Hk & _ & _ & ->).
  destruct (GhostRules.canKill pac (Configuration.pos c));
    [destruct (AgentState.scaredTimer g >? 0);
     [|destruct (negb (_win (GameState.data st)))]|];
    (split; [reflexivity|]; split; [reflexivity|]);
    intros k' j Hk' Hj; try reflexivity.
  assert (k' = k) by congruence. subst k'.
  cbn [GameState.data GameState.upd agentStates set_agentStates
       set_scoreChange].
  apply nth_error_update_neq. congruence.
Qed.

(** X17.  No successor is both won and lost, and a successor of a
    pursuer's turn is never won. *)
Theorem never_won_and_lost (s s' : GameState.t) (agentIndex : Z)
  (action : Directions.t) (h h' : Store.t) :
  generateSuccessor s agentIndex action h = Ok (s', h') ->
  GameState.isWin s' && GameState.isLose s' = false
  /\ (agentIndex <> 0 -> GameState.isWin s' = false).
Proof.
  intros H. destruct (Z.eq_dec agentIndex 0) as [->|Hi].
  - split; [|contradiction].
    apply pacman_turn_summary in H. cbv zeta in H.
    destruct H as (pac & conf & conf' & l' & K & _ & _ & _ & _ & _ & HK
                   & Hlose & Hwin & _).
    unfold GameState.isWin, GameState.isLose. rewrite Hlose.
    destruct (_win (GameState.data s')); [|reflexivity].
    rewrite (Hwin eq_refl). reflexivity.
  - apply ghost_turn_ok in H; [|assumption].
    destruct H as (_ & _ & g & k & conf & conf' & h2 & st3
                   & _ & _ & _ & _ & _ & Hc & ->).
    apply checkDeath_ghost_ok in Hc; [|assumption].
    destruct Hc as (pac & pconf & _ & _ & Hone).
    apply checkOne_effect in Hone. cbv zeta in Hone.
    destruct Hone as (_ & _ & _ & _ & _ & _ & Hw & _).
    assert (Hwin : GameState.isWin (finish agentIndex st3) = false)
      by (unfold GameState.isWin, finish; cbn; rewrite Hw; reflexivity).
    rewrite Hwin. split; reflexivity.
Qed.

(** Pacman eats the last food cell with the pursuer two cells away. *)
Lemma never_won_and_lost_witness :
  exists s' h',
    generateSuccessor (Scenario.state 0) 0 Directions.EAST Scenario.store0
    = Ok (s', h')
    /\ GameState.isWin s' = true /\ GameState.isLose s' = false.
Proof.
  assert (E : exists s' h',
             generateSuccessor (Scenario.state 0) 0 Directions.EAST
               Scenario.store0 = Ok (s', h')
             /\ GameState.isWin s' = true)
    by (eexists _, _; split; vm_compute; reflexivity).
  destruct E as (s' & h' & E & Hw).
  exists s', h'. split; [exact E|]. split; [exact Hw|].
  pose proof (proj1 (never_won_and_lost _ _ _ _ _ _ E)) as H.
  rewrite Hw in H. exact H.
Defined.

(** X18.  A pursuer's turn changes nothing but that pursuer: the food grid
    and its matrix, the capsules, the layout and every other agent state of
    the successor are those of the predecessor, no food or capsule is marked
    eaten, and [_agentMoved] is the pursuer's index. *)
Theorem pursuer_turn_frame (s s' : GameState.t) (agentIndex : Z)
  (action : Directions.t) (h h' : Store.t) :
  generateSuccessor s agentIndex action h = Ok (s', h') ->
  agentIndex <> 0 ->
  let d := GameState.data s in
  let d' := GameState.data s' in
  food d' = food d /\ Store.matrices h' = Store.matrices h
  /\ capsules d' = capsules d /\ layout d' = layout d
  /\ _foodEaten d' = None /\ _capsuleEaten d' = None
  /\ _agentMoved d' = Some agentIndex
  /\ length (agentStates d') = length (agentStates d)
  /\ exists k,
       slot (length (agentStates d)) agentIndex = Some k
       /\ forall j, j <> k ->
            nth_error (agentStates d') j = nth_error (agentStates d) j.
Proof.
  intros H Hi d d'. subst d d'.
  apply ghost_turn_ok in H; [|assumption].
  destruct H as (_ & _ & g & k & conf & conf' & h2 & st3
                 & Hk & _ & _ & _ & -> & Hc & ->).
  apply checkDeath_ghost_ok in Hc; [|assumption].
  destruct Hc as (pac & pconf & _ & _ & Hone).
  pose proof (checkOne_others _ _ _ _ _ _ Hone) as (Hce & Ham & Hoth).
  apply checkOne_effect in Hone. cbv zeta in Hone.
  destruct Hone as (Hf & Hcp & Hla & _ & _ & Hfe & _ & Hlen & _ & Hmx & _).
  cbn [GameState.data GameState.upd finish food capsules layout _foodEaten
       _capsuleEaten _agentMoved agentStates set_score set__agentMoved
       set_agentStates GameState.__init__ GameStateData.__init__
       Store.matrices] in *.
  rewrite shallowCopy_id in Hf. rewrite update_length in Hlen, Hoth.
  repeat (split; [assumption || reflexivity|]).
  exists k. split; [assumption|].
  intros j Hj. rewrite (Hoth k j Hk Hj).
  now apply nth_error_update_neq, not_eq_sym.
Qed.

(** ** Capsules *)

Lemma consume_fields (position : Z * Z) (st st' : GameState.t)
  (h h' : Store.t) :
  PacmanRules.consume position st h = Ok (st', h') ->
  exists s1 h1,
    capsules (GameState.data s1) = capsules (GameState.data st)
    /\ agentStates (GameState.data s1) = agentStates (GameState.data st)
    /\ _capsuleEaten (GameState.data s1) = _capsuleEaten (GameState.data st)
    /\ _lose (GameState.data s1) = _lose (GameState.data st)
    /\ if PacmanRules.memPos position (capsules (GameState.data st))
       then PacmanRules.scareAll
              (GameState.upd (set__capsuleEaten (Some position))
                 (GameState.upd
                    (fun d => set_capsules
                                (PacmanRules.removePos position (capsules d)) d)
                    s1))
            = Ok st' /\ h' = h1
       else st' = s1 /\ h' = h1.
Proof.
  destruct position as [x y]. unfold PacmanRules.consume.
  intros H. mstep H as f h0 Ef. mstep H as s1 h1 E1.
  exists s1, h1.
  assert (Hs1 : capsules (GameState.data s1) = capsules (GameState.data st)
                /\ agentStates (GameState.data s1)
                   = agentStates (GameState.data st)
                /\ _capsuleEaten (GameState.data s1)
                   = _capsuleEaten (GameState.data st)
                /\ _lose (GameState.data s1) = _lose (GameState.data st)).
  { destruct f.
    - mstep E1 as g h2 Ec. mstep E1 as u h3 Es. mstep E1 as numFood h4 En.
      destruct ((numFood =? 0) && _); done_step E1; subst s1;
        repeat split; reflexivity.
    - done_step E1. subst s1. repeat split; reflexivity. }
  destruct Hs1 as (Hc & Ha & Hce & Hl).
  repeat (split; [assumption|]).
  unfold GameState.getCapsules in H. rewrite Hc in H.
  destruct (PacmanRules.memPos (x, y) (capsules (GameState.data st))).
  - done_step H. split; [exact H|congruence].
  - done_step H. split; congruence.
Qed.

(** The loop of [consume] over the pursuers: each index of [idxs] has its
    timer set to [SCARED_TIME], the other agents are as before. *)
Lemma scare_loop_agents (idxs : list Z) :
  forall st st' : GameState.t,
    for_ idxs
      (fun i state =>
         a <- index (agentStates (GameState.data state)) i ;;
         GameState.putAgent i (AgentState.with_scaredTimer a SCARED_TIME) state)
      st = Ok st' ->
    NoDup idxs -> (forall i, In i idxs -> 0 <= i) ->
    exists l,
      st' = GameState.upd (set_agentStates l) st
      /\ length l = length (agentStates (GameState.data st))
      /\ forall k,
           (In (Z.of_nat k) idxs ->
            nth_error l k
            = option_map (fun a => AgentState.with_scaredTimer a SCARED_TIME)
                         (nth_error (agentStates (GameState.data st)) k))
           /\ (~ In (Z.of_nat k) idxs ->
               nth_error l k = nth_error (agentStates (GameState.data st)) k).
Proof.
  induction idxs as [|i idxs IH]; intros st st' H Hnd Hpos.
  - injection H as <-. exists (agentStates (GameState.data st)).
    destruct st as [[]]. split; [reflexivity|]. split; [reflexivity|].
    intros k. split; [intros []|reflexivity].
  - cbn [for_] in H. step H. step E.
    apply putAgent_ok in E. destruct E as (k & Hk & ->).
    inversion Hnd as [|? ? Hni Hnd']; subst.
    assert (Hi : 0 <= i) by (apply Hpos; now left).
    assert (Hki : k = Z.to_nat i) by (eapply slot_nonneg; eauto).
    assert (Hkl : (k < length (agentStates (GameState.data st)))%nat)
      by (eapply slot_lt; eauto).
    apply index_ok in E0. destruct E0 as (k' & Hk' & Ha0).
    assert (k' = k) by congruence. subst k'.
    apply IH in H; [|assumption|intros; apply Hpos; now right].
    destruct H as (l & -> & Hl & Hnth).
    cbn [GameState.data GameState.upd agentStates set_agentStates] in Hl, Hnth.
    exists l. split; [reflexivity|]. split.
    + rewrite Hl. apply update_length.
    + intros j. destruct (Nat.eq_dec j k) as [->|Hjk].
      * split; [intros _|intros Hn; exfalso; apply Hn; left; lia].
        rewrite (proj2 (Hnth k)).
        -- rewrite nth_error_update_eq by assumption. now rewrite Ha0.
        -- intros Hin. apply Hni. replace i with (Z.of_nat k) by lia.
           exact Hin.
      * split.
        -- intros [Hin|Hin]; [lia|].
           rewrite (proj1 (Hnth j) Hin).
           now rewrite nth_error_update_neq by auto.
        -- intros Hn. rewrite (proj2 (Hnth j)) by (intros Hin; apply Hn; now right).
           now rewrite nth_error_update_neq by auto.
Qed.

(** The checks of pursuers that are all scared: each one within reach of
    Pacman is eaten, nobody kills him. *)
Lemma check_loop_scared (pac : Q * Q) (idxs : list Z) :
  forall (st st' : GameState.t) (h h' : Store.t),
    forM idxs (GhostRules.checkOne pac) st h = Ok (st', h') ->
    NoDup idxs ->
    (forall i, In i idxs ->
       0 <= i
       /\ forall g, nth_error (agentStates (GameState.data st)) (Z.to_nat i)
                    = Some g -> 0 < AgentState.scaredTimer g) ->
    let d := GameState.data st in
    let d' := GameState.data st' in
    _lose d' = _lose d /\ capsules d' = capsules d
    /\ _capsuleEaten d' = _capsuleEaten d
    /\ Store.configs h' = Store.configs h
    /\ forall k g,
         nth_error (agentStates d) k = Some g ->
         (In (Z.of_nat k) idxs ->
          exists c,
            nth_error (Store.configs h) (AgentState.configuration g) = Some c
            /\ nth_error (agentStates d') k
               = Some (if GhostRules.canKill pac (Configuration.pos c)
                       then AgentState.with_scaredTimer
                              (GhostRules.placeGhost g) 0
                       else g))
         /\ (~ In (Z.of_nat k) idxs -> nth_error (agentStates d') k = Some g).
Proof.
  induction idxs as [|i idxs IH]; intros st st' h h' H Hnd Hsc; cbv zeta.
  - cbn [forM] in H. done_step H. subst st' h'.
    repeat (split; [reflexivity|]).
    intros k g Hg. split; [intros []|auto].
  - inversion Hnd as [|? ? Hni Hnd']; subst.
    cbn [forM] in H. mstep H as st1 h1 E1.
    pose proof (checkOne_effect _ _ _ _ _ _ E1) as Heff. cbv zeta in Heff.
    destruct Heff as (_ & Hcp & _ & _ & _ & _ & _ & _ & Hcf & _).
    pose proof (checkOne_others _ _ _ _ _ _ E1) as (Hce & _ & Hoth).
    apply checkOne_cases in E1.
    destruct E1 as (g0 & k0 & c0 & Hk0 & Hg0 & Hc0 & Hst1).
    destruct (Hsc i (or_introl eq_refl)) as [Hi Htimer].
    assert (Hk0i : k0 = Z.to_nat i) by (eapply slot_nonneg; eauto).
    assert (Hk0l : (k0 < length (agentStates (GameState.data st)))%nat)
      by (eapply slot_lt; eauto).
    rewrite <- Hk0i in Htimer. specialize (Htimer g0 Hg0).
    replace (AgentState.scaredTimer g0 >? 0) with true in Hst1
      by (symmetry; apply Z.gtb_lt; exact Htimer).
    assert (Hlose1 : _lose (GameState.data st1) = _lose (GameState.data st))
      by (rewrite Hst1; destruct (GhostRules.canKill _ _); reflexivity).
    assert (Hg1 : nth_error (agentStates (GameState.data st1)) k0
                  = Some (if GhostRules.canKill pac (Configuration.pos c0)
                          then AgentState.with_scaredTimer
                                 (GhostRules.placeGhost g0) 0
                          else g0)).
    { rewrite Hst1. destruct (GhostRules.canKill _ _); [|assumption].
      cbn [GameState.data GameState.upd agentStates set_agentStates
           set_scoreChange].
      now apply nth_error_update_eq. }
    specialize (IH st1 st' h1 h' H Hnd').
    assert (Hsc1 : forall i', In i' idxs ->
              0 <= i'
              /\ forall g,
                   nth_error (agentStates (GameState.data st1)) (Z.to_nat i')
                   = Some g -> 0 < AgentState.scaredTimer g).
    { intros i' Hi'. destruct (Hsc i' (or_intror Hi')) as [Hi'0 Ht].
      split; [assumption|]. intros g Hg. apply Ht.
      rewrite <- (Hoth k0 (Z.to_nat i') Hk0); [assumption|].
      intros E. apply Hni. replace i with i' by lia. exact Hi'. }
    specialize (IH Hsc1). cbv zeta in IH.
    destruct IH as (Hlo & Hcp' & Hce' & Hcf' & Hag).
    split; [congruence|]. split; [congruence|]. split; [congruence|].
    split; [congruence|].
    intros k g Hg. destruct (Nat.eq_dec k k0) as [->|Hk].
    + assert (g = g0) by congruence. subst g. split.
      * intros _. exists c0. split; [assumption|].
        apply (Hag k0 _ Hg1). intros Hin. apply Hni.
        replace i with (Z.of_nat k0) by lia. exact Hin.
      * intros Hn. exfalso. apply Hn. left. lia.
    + assert (Hg' : nth_error (agentStates (GameState.data st1)) k = Some g)
        by (rewrite (Hoth k0 k Hk0 Hk); exact Hg).
      destruct (Hag k g Hg') as [Hin Hout]. split.
      * intros [E|Hi']; [lia|].
        destruct (Hin Hi') as (c & Hc & Hr). exists c.
        split; [congruence|exact Hr].
      * intros Hn. apply Hout. intros Hi'. apply Hn. now right.
Qed.

Lemma in_range2 (a b i : Z) : In i (range2 a b) <-> a <= i < b.
Proof.
  split; [apply range2_props|].
  intros H. unfold range2. apply in_map_iff.
  exists (Z.to_nat (i - a)). split; [lia|]. apply in_seq. lia.
Qed.

(** X19.  When Pacman's move ends on a capsule, the capsule is removed and
    recorded, Pacman does not lose on that move, and every pursuer ends the
    move either scared with timer [SCARED_TIME], or, if it stands within
    collision distance of Pacman, eaten: back on its start configuration with
    timer 0. *)
Theorem capsule_scares_pursuers (s s' : GameState.t) (action : Directions.t)
  (h h' : Store.t) (pac : AgentState.t) (conf : Configuration.t) :
  generateSuccessor s 0 action h = Ok (s', h') ->
  index (agentStates (GameState.data s)) 0 = Ok pac ->
  nth_error (Store.configs h) (AgentState.configuration pac) = Some conf ->
  let v := Actions.directionToVector action PacmanRules.PACMAN_SPEED in
  let next := (fst (Configuration.pos conf) + fst v,
               snd (Configuration.pos conf) + snd v)%Q in
  let nearest := Util.nearestPoint next in
  (Util.manhattanDistance (Util.point nearest) next <= 1 # 2)%Q ->
  PacmanRules.memPos nearest (capsules (GameState.data s)) = true ->
  capsules (GameState.data s')
  = PacmanRules.removePos nearest (capsules (GameState.data s))
  /\ _capsuleEaten (GameState.data s') = Some nearest
  /\ GameState.isLose s' = false
  /\ forall i g,
       0 < i -> index (agentStates (GameState.data s)) i = Ok g ->
       exists c,
         nth_error (Store.configs h') (AgentState.configuration g) = Some c
         /\ index (agentStates (GameState.data s')) i
            = Ok (if GhostRules.canKill next (Configuration.pos c)
                  then AgentState.with_scaredTimer (GhostRules.placeGhost g) 0
                  else AgentState.with_scaredTimer g SCARED_TIME).
Proof.
  intros H Hpac Hconf v next nearest Hnear Hcaps.
  apply pacman_turn_ok in H.
  destruct H as (_ & _ & st1 & h1 & st3 & Ha & Hc & ->). cbv zeta in Ha.
  apply pacman_applyAction_ok in Ha.
  destruct Ha as (legal & pac0 & conf0 & conf' & _ & _ & Hpac0 & Hconf0
                  & Hpos & Ha).
  cbn [GameState.data GameState.upd agentStates set__eaten
       GameState.__init__ GameStateData.__init__ Store.configs] in Hpac0, Hconf0.
  rewrite copyAgentStates_id in Hpac0.
  assert (pac0 = pac) by congruence. subst pac0.
  assert (conf0 = conf) by congruence. subst conf0.
  fold v in Hpos. fold next in Hpos. cbv zeta in Ha.
  rewrite Hpos in Ha. fold nearest in Ha.
  apply Qle_bool_iff in Hnear. rewrite Hnear in Ha.
  pose proof (consume_ok _ _ _ _ _ Ha) as Hok. cbv zeta in Hok.
  destruct Hok as (m & f & _ & _ & Hcf1 & _).
  apply consume_fields in Ha.
  destruct Ha as (s1f & h1f & Hcp & Hag & Hce & Hlo & Ha).
  cbn [GameState.data GameState.upd agentStates capsules _capsuleEaten _lose
       set_agentStates set__eaten GameState.__init__ GameStateData.__init__
       Store.configs] in Hcp, Hag, Hce, Hlo, Ha, Hcf1.
  rewrite copyAgentStates_id in Hag. rewrite Hcaps in Ha.
  destruct Ha as [Ha _].
  unfold PacmanRules.scareAll in Ha.
  apply scare_loop_agents in Ha;
    [|apply range2_props|intros i Hi; apply in_range2 in Hi; lia].
  destruct Ha as (l & -> & Hlen & Hl).
  cbn [GameState.data GameState.upd agentStates set_agentStates
       set__capsuleEaten set_capsules] in Hlen, Hl.
  rewrite Hag in Hlen, Hl. rewrite update_length in Hlen.
  (* the collision checks *)
  unfold GhostRules.checkDeath in Hc. mstep Hc as pacPos h2 Epos.
  unfold GameState.getPacmanPosition in Epos. mstep Epos as a0 h3 E0.
  done_step E0. subst h3. apply getPosition_ok in Epos.
  destruct Epos as (c0 & Hc0 & -> & ->).
  cbn [GameState.data GameState.upd agentStates set_agentStates
       set_scoreChange] in E0, Hc.
  change (0 =? 0) with true in Hc. cbv iota in Hc.
  assert (Hlt0 : (0 < length (agentStates (GameState.data s)))%nat).
  { apply index_ok in Hpac. destruct Hpac as (k & Hk & _).
    apply slot_lt in Hk. lia. }
  assert (Ha0 : a0 = AgentState.with_configuration pac
                       (length (Store.configs h))).
  { apply index_ok in E0. destruct E0 as (k & Hk & E0).
    apply slot_nonneg in Hk; [|lia]. subst k. cbn [Z.to_nat] in E0.
    rewrite (proj2 (Hl 0%nat)) in E0
      by (intros Hin; apply in_range2 in Hin; lia).
    rewrite nth_error_update_eq in E0 by assumption. congruence. }
  subst a0. cbn [AgentState.configuration AgentState.with_configuration] in Hc0.
  rewrite Hcf1, nth_error_snoc in Hc0. injection Hc0 as <-.
  rewrite Hpos in Hc.
  apply check_loop_scared in Hc; [|apply range2_props|].
  - cbv zeta in Hc. destruct Hc as (Hlo3 & Hcp3 & Hce3 & Hcf3 & Hag3).
    cbn [GameState.data GameState.upd finish agentStates capsules
         _capsuleEaten _lose set_agentStates set_scoreChange set_score
         set__agentMoved set__capsuleEaten set_capsules] in *.
    unfold GameState.isLose.
    cbn [GameState.data GameState.upd finish _lose set_score set__agentMoved].
    split; [congruence|]. split; [congruence|]. split; [congruence|].
    intros i g Hi Hg. apply index_ok in Hg. destruct Hg as (k & Hk & Hg).
    assert (Hkl : (k < length (agentStates (GameState.data s)))%nat)
      by (eapply slot_lt; eauto).
    apply slot_nonneg in Hk; [|lia]. subst k.
    assert (Hin : In (Z.of_nat (Z.to_nat i)) (range2 1 (len l)))
      by (apply in_range2; unfold len; lia).
    pose proof (proj1 (Hl (Z.to_nat i))) as Hli.
    rewrite in_range2 in Hli. unfold len in Hli.
    rewrite update_length in Hli. specialize (Hli ltac:(lia)).
    rewrite nth_error_update_neq, Hg in Hli by lia. cbn [option_map] in Hli.
    destruct (proj1 (Hag3 _ _ Hli) Hin) as (c & Hcc & Hr).
    cbn [AgentState.configuration AgentState.with_scaredTimer] in Hcc.
    exists c. split; [congruence|].
    apply (index_slot _ _ (Z.to_nat i)).
    + apply slot_in_range.
      assert (Z.to_nat i < length (agentStates (GameState.data st3)))%nat
        by (apply nth_error_Some; congruence).
      lia.
    + rewrite Hr. destruct g. reflexivity.
  - intros i Hi. apply in_range2 in Hi. split; [lia|].
    cbn [GameState.data GameState.upd agentStates set_agentStates
         set_scoreChange] in *.
    intros g Hg.
    pose proof (proj1 (Hl (Z.to_nat i))) as Hli.
    rewrite in_range2 in Hli. unfold len in Hli, Hi.
    rewrite update_length in Hli. rewrite Hlen in Hi.
    specialize (Hli ltac:(lia)).
    rewrite Hg in Hli.
    destruct (nth_error _ (Z.to_nat i)) as [g0|] in Hli; [|discriminate].
    injection Hli as ->. cbn. unfold SCARED_TIME. lia.
Qed.

(** ** The food Pacman eats *)

Lemma get_in_range (g : Grid.grid) (x y : Z) (b : bool) :
  shaped g -> 0 <= x -> 0 <= y ->
  Grid.get g (PyInt x) (PyInt y) = Ok b ->
  0 <= x < Grid.width g /\ 0 <= y < Grid.height g.
Proof.
  intros (Hw & Hh & Hlen & Hcols) Hx Hy H.
  destruct g as [w h m]. cbn [Grid.width Grid.height Grid.data] in *.
  apply grid_get_ok in H.
  destruct H as (kx & ky & col & Hkx & Hcol & Hky & _).
  pose proof (slot_lt _ _ _ Hkx). pose proof (slot_lt _ _ _ Hky).
  apply slot_nonneg in Hkx, Hky; try assumption.
  rewrite (Hcols col) in * by (eapply nth_error_In; eauto). lia.
Qed.

(** X20.  Pacman's move clears at most the cell he arrives on: in the
    successor's food grid the cell nearest to his new position reads [False]
    if he is within distance 0.5 of it, and every other cell of the grid
    reads what it read in the predecessor. *)
Theorem pacman_eats_destination_only (s s' : GameState.t)
  (action : Directions.t) (h h' : Store.t) (pac : AgentState.t)
  (conf : Configuration.t) (m : Grid.matrix) :
  generateSuccessor s 0 action h = Ok (s', h') ->
  index (agentStates (GameState.data s)) 0 = Ok pac ->
  nth_error (Store.configs h) (AgentState.configuration pac) = Some conf ->
  nth_error (Store.matrices h) (Grid.data (food (GameState.data s))) = Some m ->
  let w := Grid.width (food (GameState.data s)) in
  let ht := Grid.height (food (GameState.data s)) in
  shaped (Grid.Make w ht m) ->
  let v := Actions.directionToVector action PacmanRules.PACMAN_SPEED in
  let next := (fst (Configuration.pos conf) + fst v,
               snd (Configuration.pos conf) + snd v)%Q in
  let nearest := Util.nearestPoint next in
  0 <= fst nearest -> 0 <= snd nearest ->
  exists m',
    nth_error (Store.matrices h') (Grid.data (food (GameState.data s')))
    = Some m'
    /\ Grid.width (food (GameState.data s')) = w
    /\ Grid.height (food (GameState.data s')) = ht
    /\ forall x y,
         0 <= x < w -> 0 <= y < ht ->
         Grid.get (Grid.Make w ht m') (PyInt x) (PyInt y)
         = if Qle_bool (Util.manhattanDistance (Util.point nearest) next)
                       (1 # 2)
              && (x =? fst nearest) && (y =? snd nearest)
           then Ok false
           else Grid.get (Grid.Make w ht m) (PyInt x) (PyInt y).
Proof.
  intros H Hpac Hconf Hm w ht Hs v next nearest Hnx Hny.
  apply pacman_turn_summary in H. cbv zeta in H.
  destruct H as (pac0 & conf0 & conf' & l' & K & Hpac0 & Hconf0 & Hpos & _
                 & _ & _ & _ & _ & H).
  assert (pac0 = pac) by congruence. subst pac0.
  assert (conf0 = conf) by congruence. subst conf0.
  fold v in Hpos. fold next in Hpos. rewrite Hpos in H. fold nearest in H.
  fold w ht in H.
  assert (Hsame : Store.matrices h' = Store.matrices h
                  /\ food (GameState.data s') = food (GameState.data s) ->
                  nth_error (Store.matrices h')
                            (Grid.data (food (GameState.data s'))) = Some m
                  /\ Grid.width (food (GameState.data s')) = w
                  /\ Grid.height (food (GameState.data s')) = ht).
  { intros [-> ->]. auto. }
  destruct (Qle_bool (Util.manhattanDistance (Util.point nearest) next) (1 # 2)).
  - destruct H as (m0 & f & Hm0 & Hget & H).
    assert (m0 = m) by congruence. subst m0.
    destruct (get_in_range _ _ _ _ Hs Hnx Hny Hget) as [Hxr Hyr].
    cbn [Grid.width Grid.height] in Hxr, Hyr.
    destruct f.
    + destruct H as (g' & Hset & Hmx & Hfood & _).
      destruct (set_shaped _ _ _ false Hs Hxr Hyr)
        as (g2 & Hset2 & Hs2 & Hw2 & Hh2 & Hcell).
      assert (g2 = g') by congruence. subst g2.
      cbn [Grid.width Grid.height Grid.data] in Hw2, Hh2, Hcell.
      exists (Grid.data g'). rewrite Hfood, Hmx. cbn [Grid.data Grid.width Grid.height].
      split; [apply nth_error_snoc|]. split; [reflexivity|].
      split; [reflexivity|].
      intros x y Hx Hy. cbn [andb].
      assert (Eg : Grid.Make w ht (Grid.data g') = g')
        by (destruct g'; cbn in *; congruence).
      rewrite Eg, (get_shaped g') by (rewrite ?Hw2, ?Hh2; assumption).
      rewrite (get_shaped (Grid.Make w ht m)) by assumption.
      rewrite Hcell. cbn [Grid.data].
      destruct (Z.eqb_spec x (fst nearest)), (Z.eqb_spec y (snd nearest)),
        (Nat.eqb_spec (Z.to_nat x) (Z.to_nat (fst nearest))),
        (Nat.eqb_spec (Z.to_nat y) (Z.to_nat (snd nearest))); cbn [andb];
        try reflexivity; lia.
    + destruct H as (Hmx & Hfood & _).
      destruct (Hsame (conj Hmx Hfood)) as (Hm' & Hw' & Hh').
      exists m. repeat (split; [assumption|]).
      intros x y Hx Hy. cbn [andb].
      destruct (Z.eqb_spec x (fst nearest)), (Z.eqb_spec y (snd nearest));
        cbn [andb]; try reflexivity.
      subst x y. exact Hget.
  - destruct H as (Hmx & Hfood & _).
    destruct (Hsame (conj Hmx Hfood)) as (Hm' & Hw' & Hh').
    exists m. repeat (split; [assumption|]).
    intros x y Hx Hy. reflexivity.
Qed.

(** ** Equality of states *)

Lemma list_eqb_refl {A} (eqb : A -> A -> bool) (l : list A) :
  (forall a, In a l -> eqb a a = true) -> Eq.list_eqb eqb l l = true.
Proof.
  induction l as [|a l IH]; intros H; [reflexivity|].
  cbn [Eq.list_eqb]. rewrite (H a (or_introl eq_refl)), IH; [reflexivity|].
  intros b Hb. apply H. now right.
Qed.

Lemma configuration_eq_refl (c : Configuration.t) : Eq.configuration c c = true.
Proof.
  unfold Eq.configuration, Eq.position.
  rewrite !(proj2 (Qeq_bool_iff _ _) (Qeq_refl _)).
  now destruct (Configuration.direction c).
Qed.

Lemma agentStates_eq_refl (l : list AgentState.t) (h : Store.t) :
  (forall a, In a l ->
     exists c, nth_error (Store.configs h) (AgentState.configuration a) = Some c) ->
  Eq.agentStates l l h = Ok (true, h).
Proof.
  intros H. unfold Eq.agentStates. rewrite Nat.eqb_refl.
  induction l as [|a l IH]; [reflexivity|].
  cbn [Eq.agentStatesFrom]. destruct (H a (or_introl eq_refl)) as [c Hc].
  unfold bindM at 1. unfold Eq.agentState, bindM, getConfig, deref, lift, ret.
  repeat (rewrite Hc; cbv beta iota).
  rewrite configuration_eq_refl, Z.eqb_refl. cbn [andb].
  apply IH. intros b Hb. apply H. now right.
Qed.

(** X21.  [GameState(s)] compares equal to [s] under [__eq__], and is
    never terminal: the comparison does not see the win and lose flags, which
    the copy clears. *)
Theorem copy_equals_original (s : GameState.t) (h : Store.t) (m : Grid.matrix) :
  (forall a, In a (agentStates (GameState.data s)) ->
     exists c, nth_error (Store.configs h) (AgentState.configuration a) = Some c) ->
  nth_error (Store.matrices h) (Grid.data (food (GameState.data s))) = Some m ->
  Eq.gameState (GameState.__init__ s) s h = Ok (true, h)
  /\ GameState.isWin (GameState.__init__ s) = false
  /\ GameState.isLose (GameState.__init__ s) = false.
Proof.
  intros Ha Hm. split; [|split; reflexivity].
  unfold Eq.gameState, Eq.gameStateData.
  cbn [GameState.data GameState.__init__ GameStateData.__init__ agentStates
       food capsules score].
  rewrite copyAgentStates_id, shallowCopy_id.
  unfold bindM at 1. rewrite (agentStates_eq_refl _ _ Ha). cbn [negb].
  unfold bindM at 1. unfold Eq.grid, bindM, getMatrix, deref, lift, ret.
  assert (E1 : Eq.list_eqb (Eq.list_eqb Bool.eqb) m m = true).
  { apply list_eqb_refl. intros col _. apply list_eqb_refl.
    intros b _. now destruct b. }
  assert (E2 : Eq.list_eqb PacmanRules.posEqb (capsules (GameState.data s))
                 (capsules (GameState.data s)) = true).
  { apply list_eqb_refl. intros p _. unfold PacmanRules.posEqb.
    now rewrite !Z.eqb_refl. }
  repeat (rewrite Hm; cbv beta iota).
  rewrite E1, E2, Z.eqb_refl. reflexivity.
Qed.

(** The won state of the corridor and its copy compare equal; the copy is
    not won. *)
Lemma copy_equals_original_witness :
  Eq.gameState (GameState.__init__ Scenario.won) Scenario.won Scenario.store0
  = Ok (true, Scenario.store0)
  /\ GameState.isWin Scenario.won = true
  /\ GameState.isWin (GameState.__init__ Scenario.won) = false.
Proof.
  assert (Ha : forall a,
             In a (agentStates (GameState.data Scenario.won)) ->
             exists c, nth_error (Store.configs Scenario.store0)
                                 (AgentState.configuration a) = Some c).
  { intros a [<-|[<-|[]]]; eexists; reflexivity. }
  destruct (copy_equals_original Scenario.won Scenario.store0
              Scenario.foodAt2 Ha eq_refl) as (H & Hw & _).
  split; [exact H|]. split; [reflexivity|exact Hw].
Defined.

(** ** The initial state *)



Lemma agentsFrom_length (base : nat) (E : list (bool * (Q * Q))) :
  length (agentsFrom base E) = length E.
Proof.
  revert base. induction E as [|[isPacman pos] E IH]; intros base;
    cbn [agentsFrom length]; [reflexivity|]. now rewrite IH.
Qed.


(** ** parseAgentArgs *)

Lemma contains_occurrences (c : Ascii.ascii) (s : String.string) :
  Str.contains c s = negb (occurrences c s =? 0)%nat.
Proof.
  induction s as [|a s IH]; [reflexivity|].
  cbn [Str.contains occurrences]. destruct (Ascii.eqb a c); [reflexivity|].
  exact IH.
Qed.

Lemma split_length (sep : Ascii.ascii) (s : String.string) :
  length (Str.split sep s) = S (occurrences sep s).
Proof.
  induction s as [|a s IH]; [reflexivity|].
  cbn [Str.split occurrences]. destruct (Ascii.eqb a sep).
  - cbn [length]. now rewrite IH.
  - destruct (Str.split sep s) as [|p ps]; [discriminate IH|exact IH].
Qed.

Lemma contains_append (c : Ascii.ascii) (a b : String.string) :
  Str.contains c (String.append a b) = Str.contains c a || Str.contains c b.
Proof.
  induction a as [|x a IH]; [reflexivity|].
  cbn [String.append Str.contains]. rewrite IH. now rewrite orb_assoc.
Qed.

Lemma split_plain (sep : Ascii.ascii) (p : String.string) :
  Str.contains sep p = false -> Str.split sep p = [p].
Proof.
  induction p as [|a p IH]; [reflexivity|].
  cbn [Str.contains Str.split]. intros H. apply orb_false_iff in H.
  destruct H as [Ha Hp]. rewrite Ha, (IH Hp). reflexivity.
Qed.

Lemma split_append (sep : Ascii.ascii) (p r : String.string) :
  Str.contains sep p = false ->
  Str.split sep (String.append p (String.String sep r))
  = p :: Str.split sep r.
Proof.
  induction p as [|a p IH]; intros H.
  - cbn [String.append Str.split]. now rewrite Ascii.eqb_refl.
  - cbn [Str.contains] in H. apply orb_false_iff in H. destruct H as [Ha Hp].
    cbn [String.append Str.split]. rewrite Ha, (IH Hp). reflexivity.
Qed.

Lemma split_join (sep : Ascii.ascii) (l : list String.string) :
  l <> [] -> (forall p, In p l -> Str.contains sep p = false) ->
  Str.split sep (Str.join sep l) = l.
Proof.
  induction l as [|p l IH]; intros Hne H; [contradiction|].
  destruct l as [|q l].
  - cbn [Str.join]. apply split_plain, H. now left.
  - change (Str.join sep (p :: q :: l))
      with (String.append p (String.String sep (Str.join sep (q :: l)))).
    rewrite split_append by (apply H; now left).
    rewrite IH; [reflexivity|discriminate|].
    intros r Hr. apply H. now right.
Qed.

Lemma parsePiece_rendered (item : String.string * option String.string)
  (opts : options) :
  plain (fst item) ->
  (forall val, snd item = Some val -> plain val) ->
  parsePiece (render item) opts
  = Ok (options_set opts (fst (stored item)) (snd (stored item))).
Proof.
  destruct item as [key [val|]]; cbn [fst snd render stored];
    intros [_ Hk] Hv; unfold parsePiece.
  - destruct (Hv val eq_refl) as [_ Hval].
    rewrite contains_append. cbn [Str.contains].
    rewrite Ascii.eqb_refl, orb_true_r. cbn [orb].
    rewrite (split_append _ _ _ Hk), (split_plain _ _ Hval). reflexivity.
  - rewrite Hk. reflexivity.
Qed.

Lemma rendered_plain (item : String.string * option String.string) :
  plain (fst item) ->
  (forall val, snd item = Some val -> plain val) ->
  Str.contains Str.comma (render item) = false.
Proof.
  destruct item as [key [val|]]; cbn [fst snd render]; intros [Hk _] Hv.
  - destruct (Hv val eq_refl) as [Hval _].
    rewrite contains_append. cbn [Str.contains].
    rewrite Hk, Hval. reflexivity.
  - exact Hk.
Qed.

(** X23.  [parseAgentArgs] reads back what was written: for a non-empty
    list of options [key] or [key=value] whose keys and values contain
    neither [,] nor [=], parsing their comma-separated text gives the
    dictionary that maps each key to its value, or to the int 1 when it has
    none, a later option of the same key replacing the earlier value. *)
Theorem parse_rendered_options
  (items : list (String.string * option String.string)) :
  items <> [] ->
  (forall item, In item items ->
     plain (fst item) /\ forall val, snd item = Some val -> plain val) ->
  parseAgentArgs (Some (Str.join Str.comma (map render items)))
  = Ok (fold_left (fun opts item =>
                     options_set opts (fst (stored item)) (snd (stored item)))
                  items []).
Proof.
  intros Hne Hplain. unfold parseAgentArgs.
  rewrite split_join.
  - generalize (@nil (String.string * optval)).
    clear Hne. induction items as [|item items IH]; intros opts;
      [reflexivity|].
    cbn [map for_ fold_left].
    destruct (Hplain item (or_introl eq_refl)) as [Hk Hv].
    rewrite (parsePiece_rendered item opts Hk Hv). cbn [bind].
    apply IH. intros it Hit. apply Hplain. now right.
  - destruct items; [contradiction|discriminate].
  - intros p Hp. apply in_map_iff in Hp. destruct Hp as (item & <- & Hin).
    destruct (Hplain item Hin) as [Hk Hv]. now apply rendered_plain.
Qed.

Lemma options_set_keys (opts : options) (key : String.string) (val : optval) :
  NoDup (map fst opts) ->
  NoDup (map fst (options_set opts key val))
  /\ (length (options_set opts key val) <= S (length opts))%nat
  /\ forall k, In k (map fst (options_set opts key val)) ->
               k = key \/ In k (map fst opts).
Proof.
  induction opts as [|[k v] opts IH]; intros Hnd.
  - cbn. split; [repeat constructor; intros []|]. split; [lia|].
    intros k [<-|[]]. now left.
  - cbn [options_set]. destruct (String.eqb key k) eqn:E.
    + cbn [map fst length] in *. split; [assumption|]. split; [lia|].
      intros k' Hk'. now right.
    + inversion Hnd as [|? ? Hk Hnd']; subst.
      destruct (IH Hnd') as (Hnd2 & Hlen & Hin).
      cbn [map fst length]. split; [|split; [lia|]].
      * constructor; [|assumption]. intros Hc.
        destruct (Hin _ Hc) as [->|Hc']; [|contradiction].
        now rewrite String.eqb_refl in E.
      * intros k' [<-|Hk']; [right; now left|].
        destruct (Hin _ Hk') as [->|Hc']; [now left|right; now right].
Qed.

Lemma parsePiece_outcome (p : String.string) (opts : options) :
  (2 <= occurrences Str.equals p)%nat /\ parsePiece p opts = Raise ValueError
  \/ (occurrences Str.equals p < 2)%nat
     /\ exists key val, parsePiece p opts = Ok (options_set opts key val).
Proof.
  unfold parsePiece. rewrite contains_occurrences.
  pose proof (split_length Str.equals p) as Hlen.
  destruct (occurrences Str.equals p) as [|[|n]]; cbn [Nat.eqb negb].
  - right. split; [lia|]. cbn [bind]. eauto.
  - right. split; [lia|].
    destruct (Str.split Str.equals p) as [|k [|v [|x l]]]; try discriminate.
    cbn [bind]. eauto.
  - left. split; [lia|].
    destruct (Str.split Str.equals p) as [|k [|v [|x l]]]; try discriminate.
    reflexivity.
Qed.

Lemma parse_loop (pieces : list String.string) :
  forall opts,
    NoDup (map fst opts) ->
    (Exists (fun p => (2 <= occurrences Str.equals p)%nat) pieces
     /\ for_ pieces parsePiece opts = Raise ValueError)
    \/ (~ Exists (fun p => (2 <= occurrences Str.equals p)%nat) pieces
        /\ exists opts',
             for_ pieces parsePiece opts = Ok opts'
             /\ NoDup (map fst opts')
             /\ (length opts' <= length opts + length pieces)%nat).
Proof.
  induction pieces as [|p pieces IH]; intros opts Hnd.
  - right. split; [intros H; inversion H|].
    exists opts. cbn [for_ length]. repeat split; [assumption|lia].
  - cbn [for_]. destruct (parsePiece_outcome p opts)
      as [[Hp ->]|(Hp & key & val & ->)]; cbn [bind].
    + left. split; [now constructor|reflexivity].
    + destruct (options_set_keys opts key val Hnd) as (Hnd' & Hlen & _).
      destruct (IH _ Hnd') as [[Hex Hr]|(Hnex & opts' & Hr & Hnd2 & Hlen2)].
      * left. split; [now apply Exists_cons_tl|exact Hr].
      * right. split.
        -- intros H. inversion H; subst; [lia|contradiction].
        -- exists opts'. cbn [length]. repeat split; try assumption. lia.
Qed.

(** X24.  [parseAgentArgs] on a string raises [ValueError] exactly when
    one of its comma-separated pieces contains [=] twice or more, and raises
    nothing else; when it returns, the dictionary has no key twice and at
    most one entry for each piece. *)
Theorem parse_value_error (s : String.string) :
  (parseAgentArgs (Some s) = Raise ValueError <->
   Exists (fun p => (2 <= occurrences Str.equals p)%nat)
          (Str.split Str.comma s))
  /\ (forall e, parseAgentArgs (Some s) = Raise e -> e = ValueError)
  /\ (forall opts,
        parseAgentArgs (Some s) = Ok opts ->
        NoDup (map fst opts)
        /\ (length opts <= S (occurrences Str.comma s))%nat).
Proof.
  unfold parseAgentArgs.
  destruct (parse_loop (Str.split Str.comma s) [] (NoDup_nil _))
    as [[Hex Hr]|(Hnex & opts' & Hr & Hnd & Hlen)]; rewrite Hr.
  - split; [tauto|]. split; [intros e H; congruence|discriminate].
  - split; [split; [discriminate|contradiction]|].
    split; [discriminate|].
    intros opts H. injection H as <-. split; [assumption|].
    rewrite split_length in Hlen. cbn [length] in Hlen. lia.
Qed.

(** ** Where a move takes Pacman *)

Lemma generateSuccessor_config_dir (r c : ref) (a : Directions.t) (speed : Q)
  (h h' : Store.t) :
  ConfigRef.generateSuccessor r (Actions.directionToVector a speed) h
  = Ok (c, h') ->
  (0 < speed)%Q ->
  exists conf conf',
    nth_error (Store.configs h) r = Some conf
    /\ Configuration.direction conf'
       = (if Directions.eqb a Directions.STOP
          then Configuration.direction conf else a)
    /\ Store.configs h' = Store.configs h ++ [conf'].
Proof.
  intros H Hs. unfold ConfigRef.generateSuccessor in H.
  mstep H as conf h0 E. done_step E. subst h0.
  rewrite (vector_direction_pos a speed Hs) in H.
  destruct (Configuration.pos conf) as [x y].
  destruct (Actions.directionToVector a speed) as [dx dy].
  unfold newConfig in H. injection H as _ <-.
  eexists conf, (Configuration.Make _ _).
  split; [assumption|]. split; reflexivity.
Qed.

Lemma pacman_applyAction_config (st st' : GameState.t) (action : Directions.t)
  (h h' : Store.t) :
  PacmanRules.applyAction st action h = Ok (st', h') ->
  exists pac conf conf',
    index (agentStates (GameState.data st)) 0 = Ok pac
    /\ nth_error (Store.configs h) (AgentState.configuration pac) = Some conf
    /\ Configuration.direction conf'
       = (if Directions.eqb action Directions.STOP
          then Configuration.direction conf else action)
    /\ Store.configs h' = Store.configs h ++ [conf'].
Proof.
  unfold PacmanRules.applyAction. intros H.
  mstep H as legal h0 El.
  assert (h0 = h) by (eapply pacman_legal_store; eauto). subst h0.
  destruct (Directions.mem action legal) eqn:Emem; cbn [negb] in H;
    [|done_step H].
  mstep H as pac h0 Ep. done_step Ep. subst h0.
  mstep H as c h1 Ec.
  apply generateSuccessor_config_dir in Ec; [|reflexivity].
  destruct Ec as (conf & conf' & Hconf & Hdir & Hh1).
  mstep H as st1 h2 Eput. done_step Eput. subst h2.
  mstep H as next h3 En. apply getPosition_ok in En.
  destruct En as (c0 & _ & -> & ->).
  exists pac, conf, conf'. repeat (split; [assumption|]).
  destruct (Qle_bool _ _).
  - apply consume_ok in H. cbv zeta in H.
    destruct H as (m & f & _ & _ & Hcf & _). congruence.
  - done_step H. congruence.
Qed.

(** The checks leave every agent outside [idxs] as it was, and the
    configurations, the layout and the number of agents as they were. *)
Lemma check_loop_others (pac : Q * Q) (idxs : list Z) :
  forall (st st' : GameState.t) (h h' : Store.t),
    forM idxs (GhostRules.checkOne pac) st h = Ok (st', h') ->
    (forall i, In i idxs -> 0 <= i) ->
    Store.configs h' = Store.configs h
    /\ layout (GameState.data st') = layout (GameState.data st)
    /\ length (agentStates (GameState.data st'))
       = length (agentStates (GameState.data st))
    /\ forall j, ~ In (Z.of_nat j) idxs ->
         nth_error (agentStates (GameState.data st')) j
         = nth_error (agentStates (GameState.data st)) j.
Proof.
  induction idxs as [|i idxs IH]; intros st st' h h' H Hpos.
  - cbn [forM] in H. done_step H. subst. auto.
  - cbn [forM] in H. mstep H as st1 h1 E1.
    pose proof (checkOne_others _ _ _ _ _ _ E1) as (_ & _ & Hoth).
    pose proof (checkOne_cases _ _ _ _ _ _ E1) as (g & k & c & Hk & _).
    apply checkOne_effect in E1. cbv zeta in E1.
    destruct E1 as (_ & _ & Hla & _ & _ & _ & _ & Hlen & Hcf & _).
    apply IH in H; [|intros; apply Hpos; now right].
    destruct H as (Hcf' & Hla' & Hlen' & Hoth').
    repeat (split; [congruence|]).
    intros j Hj. rewrite Hoth' by (intros Hin; apply Hj; now right).
    apply (Hoth k j Hk).
    assert (Hi : 0 <= i) by (apply Hpos; now left).
    apply slot_nonneg in Hk; [|assumption].
    intros ->. apply Hj. left. lia.
Qed.

(** X25.  After Pacman's move his agent state refers to a new
    configuration, displaced from the old one by the action's unit vector and
    facing the action ([Stop] keeps position and facing);
    [getPacmanPosition] on the successor returns that position, whatever was
    eaten or met on the way; the number of agents and the layout are those of
    the predecessor. *)
Theorem pacman_moves (s s' : GameState.t) (action : Directions.t)
  (h h' : Store.t) (pac : AgentState.t) (conf : Configuration.t) :
  generateSuccessor s 0 action h = Ok (s', h') ->
  index (agentStates (GameState.data s)) 0 = Ok pac ->
  nth_error (Store.configs h) (AgentState.configuration pac) = Some conf ->
  let v := Actions.directionToVector action PacmanRules.PACMAN_SPEED in
  exists conf',
    index (agentStates (GameState.data s')) 0
    = Ok (AgentState.with_configuration pac (length (Store.configs h)))
    /\ nth_error (Store.configs h') (length (Store.configs h)) = Some conf'
    /\ Configuration.pos conf'
       = (fst (Configuration.pos conf) + fst v,
          snd (Configuration.pos conf) + snd v)%Q
    /\ Configuration.direction conf'
       = (if Directions.eqb action Directions.STOP
          then Configuration.direction conf else action)
    /\ GameState.getPacmanPosition s' h' = Ok (Configuration.pos conf', h')
    /\ length (agentStates (GameState.data s'))
       = length (agentStates (GameState.data s))
    /\ layout (GameState.data s') = layout (GameState.data s).
Proof.
  intros H Hpac Hconf v.
  apply pacman_turn_ok in H.
  destruct H as (_ & _ & st1 & h1 & st3 & Ha & Hc & ->). cbv zeta in Ha.
  pose proof (pacman_applyAction_config _ _ _ _ _ Ha)
    as (pac1 & conf1 & conf1' & Hpac1 & Hconf1 & Hdir & Hcf).
  apply pacman_applyAction_ok in Ha.
  destruct Ha as (legal & pac0 & conf0 & conf' & _ & _ & Hpac0 & Hconf0
                  & Hpos & Ha).
  cbn [GameState.data GameState.upd agentStates set__eaten
       GameState.__init__ GameStateData.__init__ Store.configs]
    in Hpac0, Hconf0, Hpac1, Hconf1, Hcf.
  rewrite copyAgentStates_id in Hpac0, Hpac1.
  assert (pac0 = pac) by congruence. subst pac0.
  assert (pac1 = pac) by congruence. subst pac1.
  assert (conf0 = conf) by congruence. subst conf0.
  assert (conf1 = conf) by congruence. subst conf1.
  cbv zeta in Ha.
  (* the state after [applyAction] *)
  assert (Hst1 : Store.configs h1 = Store.configs h ++ [conf']
                 /\ layout (GameState.data st1) = layout (GameState.data s)
                 /\ length (agentStates (GameState.data st1))
                    = length (agentStates (GameState.data s))
                 /\ nth_error (agentStates (GameState.data st1)) 0
                    = Some (AgentState.with_configuration pac
                              (length (Store.configs h)))).
  { assert (Hlt0 : (0 < length (agentStates (GameState.data s)))%nat).
    { apply index_ok in Hpac. destruct Hpac as (k & Hk & _).
      apply slot_lt in Hk. lia. }
    destruct (Qle_bool _ _).
    - pose proof (consume_ok _ _ _ _ _ Ha) as Hok. cbv zeta in Hok.
      destruct Hok as (m & f & _ & _ & Hcf1 & _ & Hla & _ & _ & _ & Hlen & _).
      apply consume_fields in Ha.
      destruct Ha as (s1f & h1f & _ & Hag & _ & _ & Ha).
      cbn [GameState.data GameState.upd agentStates layout set_agentStates
           set__eaten GameState.__init__ GameStateData.__init__ Store.configs]
        in Hcf1, Hla, Hlen, Hag.
      rewrite copyAgentStates_id in Hag, Hlen. rewrite update_length in Hlen.
      repeat (split; [assumption|]).
      destruct (PacmanRules.memPos _ _).
      + destruct Ha as [Ha _]. unfold PacmanRules.scareAll in Ha.
        apply scare_loop_agents in Ha;
          [|apply range2_props|intros i Hi; apply in_range2 in Hi; lia].
        destruct Ha as (l & -> & _ & Hl).
        cbn [GameState.data GameState.upd agentStates set_agentStates
             set__capsuleEaten set_capsules] in Hl |- *.
        rewrite (proj2 (Hl 0%nat))
          by (intros Hin; apply in_range2 in Hin; lia).
        rewrite Hag. now apply nth_error_update_eq.
      + destruct Ha as [-> _]. rewrite Hag. now apply nth_error_update_eq.
    - destruct Ha as [-> ->].
      cbn [GameState.data GameState.upd agentStates layout set_agentStates
           set__eaten GameState.__init__ GameStateData.__init__ Store.configs].
      rewrite copyAgentStates_id, update_length.
      repeat (split; [reflexivity|]). now apply nth_error_update_eq. }
  destruct Hst1 as (Hcf1 & Hla1 & Hlen1 & Hag1).
  assert (conf1' = conf').
  { rewrite Hcf1 in Hcf. apply app_inj_tail in Hcf. now destruct Hcf. }
  subst conf1'.
  (* the collision checks *)
  unfold GhostRules.checkDeath in Hc. mstep Hc as pacPos h2 Epos.
  unfold GameState.getPacmanPosition in Epos. mstep Epos as a0 h3 E0.
  done_step E0. subst h3. apply getPosition_ok in Epos.
  destruct Epos as (c0 & _ & _ & ->).
  change (0 =? 0) with true in Hc. cbv iota in Hc.
  apply check_loop_others in Hc;
    [|intros i Hi; apply in_range2 in Hi; lia].
  destruct Hc as (Hcf3 & Hla3 & Hlen3 & Hoth).
  specialize (Hoth 0%nat ltac:(intros Hin; apply in_range2 in Hin; lia)).
  cbn [GameState.data GameState.upd finish agentStates layout set_scoreChange
       set_score set__agentMoved] in *.
  assert (Hidx : index (agentStates (GameState.data st3)) 0
                 = Ok (AgentState.with_configuration pac
                         (length (Store.configs h)))).
  { apply (index_slot _ _ 0%nat).
    - apply slot_in_range.
      assert (0 < length (agentStates (GameState.data st3)))%nat
        by (apply nth_error_Some; congruence).
      lia.
    - congruence. }
  assert (Hnew : nth_error (Store.configs h') (length (Store.configs h))
                 = Some conf')
    by (rewrite Hcf3, Hcf1; apply nth_error_snoc).
  exists conf'. split; [exact Hidx|]. split; [exact Hnew|].
  split; [exact Hpos|]. split; [exact Hdir|].
  split; [|split; congruence].
  unfold GameState.getPacmanPosition, bindM, lift.
  change (agentStates (GameState.data (finish 0 st3)))
    with (agentStates (GameState.data st3)).
  rewrite Hidx. now apply getPosition_at.
Qed.

(** Pacman steps east from (1,1) onto (2,1). *)
Lemma pacman_moves_witness :
  exists s' h' conf',
    generateSuccessor (Scenario.state 0) 0 Directions.EAST Scenario.store0
    = Ok (s', h')
    /\ GameState.getPacmanPosition s' h' = Ok (Configuration.pos conf', h')
    /\ Configuration.direction conf' = Directions.EAST.
Proof.
  assert (E : exists s' h',
             generateSuccessor (Scenario.state 0) 0 Directions.EAST
               Scenario.store0 = Ok (s', h'))
    by (eexists _, _; vm_compute; reflexivity).
  destruct E as (s' & h' & E).
  destruct (pacman_moves (Scenario.state 0) s' Directions.EAST
              Scenario.store0 h' Scenario.pacman
              (Configuration.Make (1, 1)%Q Directions.STOP)
              E eq_refl eq_refl) as (conf' & _ & _ & _ & Hd & Hp & _).
  exists s', h', conf'. split; [exact E|]. split; [exact Hp|exact Hd].
Defined.

(** ** A pursuer between two cells *)

(** X26.  A pursuer between two grid points can only keep going: its legal
    actions are exactly its current direction (none at all if that direction
    is [Stop]). *)
Theorem pursuer_between_cells (s : GameState.t) (ghostIndex : Z)
  (h : Store.t) (g : AgentState.t) (conf : Configuration.t) :
  GameState.getGhostState s ghostIndex = Ok g ->
  nth_error (Store.configs h) (AgentState.configuration g) = Some conf ->
  aligned conf = false ->
  GhostRules.getLegalActions s ghostIndex h
  = Ok (if Directions.eqb (Configuration.direction conf) Directions.STOP
        then [] else [Configuration.direction conf], h).
Proof.
  intros Hg Hc Ha. rewrite ghost_legal_pure, Hg. cbn [bind].
  unfold deref. rewrite Hc. cbn [bind].
  rewrite (unaligned_actions _ _ Ha). cbn [bind]. cbv zeta.
  destruct (Configuration.direction conf); reflexivity.
Qed.

(** The scared pursuer half-way between (2,1) and (3,1), going west. *)
Lemma pursuer_between_cells_witness :
  GhostRules.getLegalActions (Scenario.state 5) 1
    (Scenario.store (1, 1)%Q (5 # 2, 1)%Q Directions.WEST)
  = Ok ([Directions.WEST],
        Scenario.store (1, 1)%Q (5 # 2, 1)%Q Directions.WEST).
Proof.
  exact (pursuer_between_cells (Scenario.state 5) 1
           (Scenario.store (1, 1)%Q (5 # 2, 1)%Q Directions.WEST)
           (Scenario.ghost 5)
           (Configuration.Make (5 # 2, 1)%Q Directions.WEST)
           eq_refl eq_refl eq_refl).
Defined.

Lemma copy_and_shallowCopy_witness :
  exists h2,
    GridRef.set (GridRef.shallowCopy (Grid.Make 5 3 0%nat)) (PyInt 2) (PyInt 1)
                false Scenario.store0 = Ok (tt, h2)
    /\ GridRef.get (Grid.Make 5 3 0%nat) (PyInt 2) (PyInt 1) h2
       = Ok (false, h2).
Proof.
  assert (E : exists h2,
             GridRef.set (GridRef.shallowCopy (Grid.Make 5 3 0%nat))
                         (PyInt 2) (PyInt 1) false Scenario.store0
             = Ok (tt, h2))
    by (eexists; vm_compute; reflexivity).
  destruct E as (h2 & E). exists h2. split; [exact E|].
  exact (proj2 (copy_and_shallowCopy (Grid.Make 5 3 0%nat) (PyInt 2) (PyInt 1)
                  false Scenario.store0) tt h2 E).
Defined.

Lemma corridor_configs (a : AgentState.t) :
  In a (agentStates (GameState.data (Scenario.state 0))) ->
  exists c,
    nth_error (Store.configs Scenario.store0) (AgentState.configuration a)
    = Some c.
Proof. intros [<-|[<-|[]]]; eexists; reflexivity. Qed.

Lemma ghost_positions_witness :
  exists ps,
    GameState.getGhostPositions (Scenario.state 0) Scenario.store0
    = Ok (ps, Scenario.store0)
    /\ len ps = 1.
Proof.
  destruct (ghost_positions (Scenario.state 0) Scenario.store0
              corridor_configs) as (_ & _ & ps & H & Hlen & _).
  exists ps. split; [exact H|exact Hlen].
Defined.

(** The pursuer steps west, away from any collision. *)
Lemma pursuer_turn_frame_witness :
  exists s' h',
    generateSuccessor (Scenario.state 0) 1 Directions.WEST Scenario.store0
    = Ok (s', h')
    /\ capsules (GameState.data s') = capsules (GameState.data (Scenario.state 0))
    /\ nth_error (agentStates (GameState.data s')) 0
       = nth_error (agentStates (GameState.data (Scenario.state 0))) 0.
Proof.
  assert (E : exists s' h',
             generateSuccessor (Scenario.state 0) 1 Directions.WEST
               Scenario.store0 = Ok (s', h'))
    by (eexists _, _; vm_compute; reflexivity).
  destruct E as (s' & h' & E). exists s', h'. split; [exact E|].
  assert (Hi : 1 <> 0) by discriminate.
  destruct (pursuer_turn_frame _ _ _ _ _ _ E Hi)
    as (_ & _ & Hc & _ & _ & _ & _ & _ & k & Hk & Hoth).
  split; [exact Hc|]. apply Hoth.
  vm_compute in Hk. injection Hk as <-. discriminate.
Defined.

(** Pacman steps east onto the capsule; the pursuer, one cell further,
    is out of reach and scared. *)
Lemma capsule_scares_pursuers_witness :
  exists s' h',
    generateSuccessor Scenario.withCapsule 0 Directions.EAST Scenario.store0
    = Ok (s', h')
    /\ capsules (GameState.data s') = []
    /\ GameState.isLose s' = false.
Proof.
  assert (E : exists s' h',
             generateSuccessor Scenario.withCapsule 0 Directions.EAST
               Scenario.store0 = Ok (s', h'))
    by (eexists _, _; vm_compute; reflexivity).
  destruct E as (s' & h' & E). exists s', h'. split; [exact E|].
  assert (Hd : (Util.manhattanDistance
                  (Util.point
                     (Util.nearestPoint
                        (fst (1, 1) + fst (Actions.directionToVector
                                             Directions.EAST
                                             PacmanRules.PACMAN_SPEED),
                         snd (1, 1) + snd (Actions.directionToVector
                                             Directions.EAST
                                             PacmanRules.PACMAN_SPEED))))
                  (fst (1, 1) + fst (Actions.directionToVector
                                       Directions.EAST
                                       PacmanRules.PACMAN_SPEED),
                   snd (1, 1) + snd (Actions.directionToVector
                                       Directions.EAST
                                       PacmanRules.PACMAN_SPEED))
                <= 1 # 2)%Q) by (apply Qle_bool_iff; reflexivity).
  destruct (capsule_scares_pursuers Scenario.withCapsule s' Directions.EAST
              Scenario.store0 h' Scenario.pacman
              (Configuration.Make (1, 1)%Q Directions.STOP)
              E eq_refl eq_refl Hd eq_refl) as (Hc & _ & Hl & _).
  split; [exact Hc|exact Hl].
Defined.

Lemma shaped_food : shaped (Grid.Make 5 3 Scenario.foodAt2).
Proof.
  repeat split; try (cbn; lia).
  intros col [<-|[<-|[<-|[<-|[<-|[]]]]]]; reflexivity.
Qed.

(** Pacman steps east onto the food cell (2,1). *)
Lemma pacman_eats_destination_only_witness :
  exists s' h' m',
    generateSuccessor (Scenario.state 0) 0 Directions.EAST Scenario.store0
    = Ok (s', h')
    /\ nth_error (Store.matrices h') (Grid.data (food (GameState.data s')))
       = Some m'
    /\ Grid.get (Grid.Make 5 3 m') (PyInt 2) (PyInt 1) = Ok false.
Proof.
  assert (E : exists s' h',
             generateSuccessor (Scenario.state 0) 0 Directions.EAST
               Scenario.store0 = Ok (s', h'))
    by (eexists _, _; vm_compute; reflexivity).
  destruct E as (s' & h' & E). exists s', h'.
  destruct (pacman_eats_destination_only (Scenario.state 0) s'
              Directions.EAST Scenario.store0 h' Scenario.pacman
              (Configuration.Make (1, 1)%Q Directions.STOP) Scenario.foodAt2
              E eq_refl eq_refl eq_refl shaped_food)
    as (m' & Hm' & _ & _ & Hcells);
    [vm_compute; discriminate|vm_compute; discriminate|].
  exists m'. split; [exact E|]. split; [exact Hm'|].
  apply (Hcells 2 1); vm_compute; split; discriminate || reflexivity.
Defined.


Lemma parse_rendered_options_witness :
  exists opts,
    parseAgentArgs (Some (Str.join Str.comma (map render Sample.items)))
    = Ok opts
    /\ length opts = 2%nat.
Proof.
  assert (Hne : Sample.items <> []) by discriminate.
  assert (Hp : forall item, In item Sample.items ->
             plain (fst item) /\ forall val, snd item = Some val -> plain val).
  { intros item [<-|[<-|[]]]; (split; [split; reflexivity|]);
      intros val Hv; cbn in Hv; try discriminate.
    injection Hv as <-. split; reflexivity. }
  eexists. split; [exact (parse_rendered_options Sample.items Hne Hp)|].
  reflexivity.
Defined.

(** Pacman steps east; the store objects of the predecessor are kept. *)
Lemma predecessor_objects_witness :
  exists s' h',
    generateSuccessor (Scenario.state 0) 0 Directions.EAST Scenario.store0
    = Ok (s', h')
    /\ nth_error (Store.matrices h') 0 = Some Scenario.foodAt2
    /\ nth_error (Store.eatens h') 0 = Some [false; false].
Proof.
  assert (E : exists s' h',
             generateSuccessor (Scenario.state 0) 0 Directions.EAST
               Scenario.store0 = Ok (s', h'))
    by (eexists _, _; vm_compute; reflexivity).
  destruct E as (s' & h' & E). exists s', h'. split; [exact E|].
  destruct (predecessor_objects _ _ _ _ _ _ E) as (_ & Hm & He).
  split.
  - apply Hm. reflexivity.
  - apply He; [reflexivity|now left].
Defined.

(** * Collisions, on the whole transition *)

(** The checks of the pursuers [idxs], one after the other: each adds its
    payoff to the score change; a scared pursuer within reach is sent back
    to its start, any other within reach sets the lose flag unless the game
    is won. *)
Lemma check_loop_payoff (pac : Q * Q) (idxs : list Z) :
  forall (st st' : GameState.t) (h h' : Store.t),
    forM idxs (GhostRules.checkOne pac) st h = Ok (st', h') ->
    NoDup idxs -> (forall i, In i idxs -> 0 <= i) ->
    let d := GameState.data st in
    let d' := GameState.data st' in
    _win d' = _win d /\ score d' = score d /\ _foodEaten d' = _foodEaten d
    /\ Store.configs h' = Store.configs h
    /\ (_lose d = true -> _lose d' = true)
    /\ scoreChange d'
       = scoreChange d
         + sum (map (fun i =>
                       match nth_error (agentStates d) (Z.to_nat i) with
                       | Some g => payoffOf pac false (_win d) h g
                       | None => 0
                       end) idxs)
    /\ forall k g,
         nth_error (agentStates d) k = Some g -> In (Z.of_nat k) idxs ->
         exists c,
           nth_error (Store.configs h) (AgentState.configuration g) = Some c
           /\ nth_error (agentStates d') k
              = Some (if GhostRules.canKill pac (Configuration.pos c)
                         && (AgentState.scaredTimer g >? 0)
                      then AgentState.with_scaredTimer
                             (GhostRules.placeGhost g) 0
                      else g)
           /\ (GhostRules.canKill pac (Configuration.pos c) = true ->
               AgentState.scaredTimer g <= 0 -> _win d = false ->
               _lose d' = true).
Proof.
  induction idxs as [|i idxs IH]; intros st st' h h' H Hnd Hpos; cbv zeta.
  - cbn [forM] in H. done_step H. subst st' h'.
    repeat (split; [reflexivity|]). split; [auto|].
    split; [cbn; lia|]. intros k g _ [].
  - inversion Hnd as [|? ? Hni Hnd']; subst.
    cbn [forM] in H. mstep H as st1 h1 E1.
    pose proof (checkOne_effect _ _ _ _ _ _ E1) as Heff. cbv zeta in Heff.
    destruct Heff as (_ & _ & _ & _ & Hsc & Hfe & Hw & _ & Hcf & _
                      & e & kk & _ & Hlo & _).
    pose proof (checkOne_others _ _ _ _ _ _ E1) as (_ & _ & Hoth).
    apply checkOne_cases in E1.
    destruct E1 as (g0 & k0 & c0 & Hk0 & Hg0 & Hc0 & Hst1).
    assert (Hi : 0 <= i) by (apply Hpos; now left).
    assert (Hk0i : k0 = Z.to_nat i) by (eapply slot_nonneg; eauto).
    assert (Hk0l : (k0 < length (agentStates (GameState.data st)))%nat)
      by (eapply slot_lt; eauto).
    specialize (Hoth k0).
    assert (Hsame : forall i', In i' idxs ->
              nth_error (agentStates (GameState.data st1)) (Z.to_nat i')
              = nth_error (agentStates (GameState.data st)) (Z.to_nat i')).
    { intros i' Hi'. apply Hoth; [assumption|].
      assert (0 <= i') by (apply Hpos; now right).
      intros E. apply Hni. replace i with i' by lia. exact Hi'. }
    specialize (IH st1 st' h1 h' H Hnd'
                  (fun i' Hi' => Hpos i' (or_intror Hi'))).
    cbv zeta in IH.
    destruct IH as (Hw' & Hsc' & Hfe' & Hcf' & Hlo' & Hch' & Hag').
    split; [congruence|]. split; [congruence|]. split; [congruence|].
    split; [congruence|].
    split; [intros Hl; apply Hlo'; rewrite Hlo, Hl; reflexivity|].
    split.
    + rewrite Hch'.
      rewrite (map_ext_in _
                 (fun i0 =>
                    match nth_error (agentStates (GameState.data st))
                                    (Z.to_nat i0) with
                    | Some g =>
                        payoffOf pac false (_win (GameState.data st)) h g
                    | None => 0
                    end) idxs)
        by (intros i' Hi'; rewrite (Hsame i' Hi'), Hw; unfold payoffOf;
            rewrite Hcf; reflexivity).
      cbn [map]. rewrite sum_cons, <- Hk0i, Hg0.
      match goal with |- context [sum ?l] => generalize (sum l) end.
      intros rest. unfold payoffOf, payoff. rewrite Hc0, Hst1.
      destruct (GhostRules.canKill pac (Configuration.pos c0));
        [destruct (AgentState.scaredTimer g0 >? 0);
         [|destruct (_win (GameState.data st))]|];
        cbn [negb GameState.data GameState.upd scoreChange set_scoreChange
             set__lose set_agentStates]; lia.
    + intros k g Hg Hin. destruct (Nat.eq_dec k k0) as [->|Hk].
      * assert (g = g0) by congruence. subst g.
        exists c0. split; [assumption|].
        assert (Hnot : ~ In (Z.of_nat k0) idxs).
        { intros Hin'. apply Hni. replace i with (Z.of_nat k0) by lia.
          exact Hin'. }
        assert (Hkeep : nth_error (agentStates (GameState.data st')) k0
                        = nth_error (agentStates (GameState.data st1)) k0).
        { apply check_loop_others in H;
            [|intros i' Hi'; apply Hpos; now right].
          destruct H as (_ & _ & _ & Hout). now apply Hout. }
        split.
        -- rewrite Hkeep, Hst1.
           destruct (GhostRules.canKill pac (Configuration.pos c0));
             [destruct (AgentState.scaredTimer g0 >? 0);
              [|destruct (negb (_win (GameState.data st)))]|];
             cbn [andb GameState.data GameState.upd agentStates
                  set_agentStates set_scoreChange set__lose];
             try assumption.
           now apply nth_error_update_eq.
        -- intros Hkill Ht Hwin. apply Hlo'. rewrite Hst1, Hkill, Hwin.
           destruct (Z.gtb_spec (AgentState.scaredTimer g0) 0); [lia|].
           reflexivity.
      * destruct Hin as [E|Hin]; [lia|].
        assert (Hg1 : nth_error (agentStates (GameState.data st1)) k = Some g).
        { rewrite <- Hg. apply Hoth; auto. }
        destruct (Hag' k g Hg1 Hin) as (c & Hc & Hr & Hl).
        exists c. rewrite <- Hcf. split; [assumption|].
        split; [assumption|]. intros Hkill Ht Hwin. apply Hl; congruence.
Qed.

(** Pacman's turn up to the collision checks: [st2] is the state the checks
    start from, [conf'] Pacman's new configuration; [scare] tells that the
    move ate a capsule. *)
Lemma pacman_turn_checks (s s' : GameState.t) (action : Directions.t)
  (h h' : Store.t) (pac : AgentState.t) (conf : Configuration.t) :
  generateSuccessor s 0 action h = Ok (s', h') ->
  index (agentStates (GameState.data s)) 0 = Ok pac ->
  nth_error (Store.configs h) (AgentState.configuration pac) = Some conf ->
  let v := Actions.directionToVector action PacmanRules.PACMAN_SPEED in
  let next := (fst (Configuration.pos conf) + fst v,
               snd (Configuration.pos conf) + snd v)%Q in
  let nearest := Util.nearestPoint next in
  let scare :=
    Qle_bool (Util.manhattanDistance (Util.point nearest) next) (1 # 2)
    && PacmanRules.memPos nearest (capsules (GameState.data s)) in
  exists st2 h1 st3 conf',
    forM (range2 1 (len (agentStates (GameState.data st2))))
         (GhostRules.checkOne next) st2 h1 = Ok (st3, h')
    /\ s' = finish 0 st3
    /\ Store.configs h1 = Store.configs h ++ [conf']
    /\ length (agentStates (GameState.data st2))
       = length (agentStates (GameState.data s))
    /\ (forall k, (0 < k)%nat ->
          nth_error (agentStates (GameState.data st2)) k
          = option_map
              (fun a => if scare
                        then AgentState.with_scaredTimer a SCARED_TIME else a)
              (nth_error (agentStates (GameState.data s)) k))
    /\ score (GameState.data st2) = score (GameState.data s)
    /\ _lose (GameState.data st2) = false
    /\ scoreChange (GameState.data st2)
       = (match _foodEaten (GameState.data st2) with
          | Some _ => 10
          | None => 0
          end)
         + (if _win (GameState.data st2) then 500 else 0) - 1.
Proof.
  intros H Hpac Hconf v next nearest scare.
  apply pacman_turn_ok in H.
  destruct H as (_ & _ & st1 & h1 & st3 & Ha & Hc & ->). cbv zeta in Ha.
  apply pacman_applyAction_ok in Ha.
  destruct Ha as (legal & pac0 & conf0 & conf' & _ & _ & Hpac0 & Hconf0
                  & Hpos & Ha).
  cbn [GameState.data GameState.upd agentStates set__eaten
       GameState.__init__ GameStateData.__init__ Store.configs]
    in Hpac0, Hconf0.
  rewrite copyAgentStates_id in Hpac0.
  assert (pac0 = pac) by congruence. subst pac0.
  assert (conf0 = conf) by congruence. subst conf0.
  fold v in Hpos. fold next in Hpos. cbv zeta in Ha.
  rewrite Hpos in Ha. fold nearest in Ha.
  assert (Hlt0 : (0 < length (agentStates (GameState.data s)))%nat).
  { apply index_ok in Hpac. destruct Hpac as (k & Hk & _).
    apply slot_lt in Hk. lia. }
  (* the state after [applyAction] *)
  assert (Hst1 :
    Store.configs h1 = Store.configs h ++ [conf']
    /\ length (agentStates (GameState.data st1))
       = length (agentStates (GameState.data s))
    /\ nth_error (agentStates (GameState.data st1)) 0
       = Some (AgentState.with_configuration pac (length (Store.configs h)))
    /\ (forall k, (0 < k)%nat ->
          nth_error (agentStates (GameState.data st1)) k
          = option_map
              (fun a => if scare
                        then AgentState.with_scaredTimer a SCARED_TIME else a)
              (nth_error (agentStates (GameState.data s)) k))
    /\ score (GameState.data st1) = score (GameState.data s)
    /\ _lose (GameState.data st1) = false
    /\ scoreChange (GameState.data st1)
       = (match _foodEaten (GameState.data st1) with
          | Some _ => 10
          | None => 0
          end)
         + (if _win (GameState.data st1) then 500 else 0)).
  { subst scare.
    destruct (Qle_bool (Util.manhattanDistance (Util.point nearest) next)
                       (1 # 2)); cbn [andb].
    - pose proof (consume_ok _ _ _ _ _ Ha) as Hok. cbv zeta in Hok.
      destruct Hok as (m & f & _ & _ & Hcf1 & _ & _ & _ & Hsc & Hlo & Hlen
                       & Hf).
      apply consume_fields in Ha.
      destruct Ha as (s1f & h1f & _ & Hag & _ & _ & Ha).
      cbn [GameState.data GameState.upd agentStates capsules score _lose _win
           scoreChange _foodEaten set_agentStates set__eaten
           GameState.__init__ GameStateData.__init__ Store.configs]
        in Hcf1, Hsc, Hlo, Hlen, Hf, Hag, Ha.
      rewrite copyAgentStates_id in Hag, Hlen. rewrite update_length in Hlen.
      split; [assumption|]. split; [assumption|].
      assert (Hagents :
        nth_error (agentStates (GameState.data st1)) 0
        = Some (AgentState.with_configuration pac (length (Store.configs h)))
        /\ forall k, (0 < k)%nat ->
             nth_error (agentStates (GameState.data st1)) k
             = option_map
                 (fun a =>
                    if PacmanRules.memPos nearest (capsules (GameState.data s))
                    then AgentState.with_scaredTimer a SCARED_TIME else a)
                 (nth_error (agentStates (GameState.data s)) k)).
      { destruct (PacmanRules.memPos nearest (capsules (GameState.data s))).
        - destruct Ha as [Ha _]. unfold PacmanRules.scareAll in Ha.
          apply scare_loop_agents in Ha;
            [|apply range2_props|intros i Hi; apply in_range2 in Hi; lia].
          destruct Ha as (l & -> & Hl & Hnth).
          cbn [GameState.data GameState.upd agentStates set_agentStates
               set__capsuleEaten set_capsules] in Hl, Hnth |- *.
          rewrite Hag in Hl, Hnth. rewrite update_length in Hl.
          split.
          + rewrite (proj2 (Hnth 0%nat))
              by (intros Hin; apply in_range2 in Hin; lia).
            now apply nth_error_update_eq.
          + intros k Hk.
            destruct (Nat.ltb_spec k (length (agentStates (GameState.data s))))
              as [Hkl|Hkl].
            * rewrite (proj1 (Hnth k))
                by (apply in_range2; unfold len; rewrite update_length; lia).
              rewrite nth_error_update_neq by lia. reflexivity.
            * rewrite (proj2 (nth_error_None _ _)) by lia.
              rewrite (proj2 (nth_error_None _ _)) by lia. reflexivity.
        - destruct Ha as [-> _]. rewrite Hag. split.
          + now apply nth_error_update_eq.
          + intros k Hk. rewrite nth_error_update_neq by lia.
            now destruct (nth_error _ k). }
      destruct Hagents as [Hag0 Hagk].
      split; [assumption|]. split; [assumption|].
      split; [assumption|]. split; [assumption|].
      destruct f.
      + destruct Hf as (g' & _ & _ & _ & -> & Hw).
        destruct ((Grid.count (Grid.data g') true =? 0) && negb false);
          destruct Hw as [-> ->]; lia.
      + destruct Hf as (_ & _ & -> & -> & ->). reflexivity.
    - destruct Ha as [-> ->].
      cbn [GameState.data GameState.upd agentStates capsules score _lose _win
           scoreChange _foodEaten set_agentStates set__eaten
           GameState.__init__ GameStateData.__init__ Store.configs].
      rewrite copyAgentStates_id, update_length.
      repeat (split; [reflexivity|]).
      split; [now apply nth_error_update_eq|].
      split; [|repeat split; reflexivity].
      intros k Hk. rewrite nth_error_update_neq by lia.
      now destruct (nth_error _ k). }
  destruct Hst1 as (Hcf1 & Hlen1 & Hag0 & Hagk & Hsc1 & Hlo1 & Hch1).
  (* the collision checks *)
  unfold GhostRules.checkDeath in Hc. mstep Hc as pacPos h2 Epos.
  unfold GameState.getPacmanPosition in Epos. mstep Epos as a0 h3 E0.
  done_step E0. subst h3. apply getPosition_ok in Epos.
  destruct Epos as (c0 & Hc0 & -> & ->).
  cbn [GameState.data GameState.upd agentStates set_scoreChange] in E0, Hc.
  change (0 =? 0) with true in Hc. cbv iota in Hc.
  assert (Ha0 : a0 = AgentState.with_configuration pac
                       (length (Store.configs h))).
  { apply index_ok in E0. destruct E0 as (k & Hk & E0).
    apply slot_nonneg in Hk; [|lia]. subst k. cbn [Z.to_nat] in E0.
    congruence. }
  subst a0. cbn [AgentState.configuration AgentState.with_configuration] in Hc0.
  rewrite Hcf1, nth_error_snoc in Hc0. injection Hc0 as <-.
  rewrite Hpos in Hc.
  eexists _, h1, st3, conf'. split; [exact Hc|].
  cbn [GameState.data GameState.upd agentStates score _lose _win
       scoreChange _foodEaten set_scoreChange].
  repeat (split; [assumption || reflexivity|]). lia.
Qed.

Lemma map_seq_nth {A B} (G : option A -> B) (t : list A) :
  map (fun k => G (nth_error t k)) (seq 0 (length t))
  = map (fun a => G (Some a)) t.
Proof.
  induction t as [|a t IH]; [reflexivity|].
  cbn [length seq map nth_error]. f_equal.
  rewrite <- seq_shift, map_map. exact IH.
Qed.

(** A loop over [range(1, len(l))] that reads [l[i]] is a loop over
    [l[1:]]. *)
Lemma map_pursuers {A} (F : option A -> Z) (l : list A) :
  map (fun i => F (nth_error l (Z.to_nat i))) (range2 1 (len l))
  = map (fun a => F (Some a)) (skipn 1 l).
Proof.
  destruct l as [|a t]; [reflexivity|].
  unfold range2, len. cbn [skipn length].
  replace (Z.to_nat (Z.of_nat (S (length t)) - 1)) with (length t) by lia.
  rewrite map_map, <- map_seq_nth.
  apply map_ext. intros k.
  replace (Z.to_nat (1 + Z.of_nat k)) with (S k) by lia. reflexivity.
Qed.

(** C3, as stated, fails on Pacman's own move.  In the corridor Pacman
    stays at (1,1) next to a scared pursuer at (1.5,1), from score 0: the
    pursuer is eaten, and the successor's score is 199, not 200, since the
    move also costs the time penalty. *)
Lemma collision_payoff_counterexample :
  ~ (forall s' h',
       generateSuccessor (Scenario.state 5) 0 Directions.STOP
         (Scenario.store (1, 1)%Q (3 # 2, 1)%Q Directions.WEST) = Ok (s', h') ->
       score (GameState.data s')
       = score (GameState.data (Scenario.state 5)) + 200).
Proof.
  intros H.
  assert (E : exists s' h',
             generateSuccessor (Scenario.state 5) 0 Directions.STOP
               (Scenario.store (1, 1)%Q (3 # 2, 1)%Q Directions.WEST)
             = Ok (s', h')
             /\ score (GameState.data s') = 199).
  { eexists _, _. split; vm_compute; reflexivity. }
  destruct E as (s' & h' & E & Hs).
  specialize (H s' h' E). rewrite Hs in H. discriminate H.
Qed.

(** C3 (amended).  A pursuer that is checked for a collision and stands
    within Manhattan distance 0.7 of Pacman: if its scared timer at the
    check is positive, it adds 200 to the score, its configuration becomes
    its start configuration and its timer 0; if that timer is 0 and the win
    flag is not set, it takes 500 off the score and the lose flag is set.
    On Pacman's move every pursuer is checked, at the timer the move leaves
    it ([SCARED_TIME] if a capsule was eaten), and the successor's score is
    the predecessor's less the time penalty, plus the rewards for food (10,
    and 500 for the last cell), plus the payoffs of all pursuers.  On a
    pursuer's own move that pursuer alone is checked, at its timer less one,
    and the score changes by its payoff alone. *)
Theorem collision_payoff :
  (forall (s s' : GameState.t) (action : Directions.t) (h h' : Store.t)
          (pac : AgentState.t) (conf : Configuration.t),
      generateSuccessor s 0 action h = Ok (s', h') ->
      (forall a, In a (agentStates (GameState.data s)) ->
         exists c,
           nth_error (Store.configs h) (AgentState.configuration a) = Some c) ->
      index (agentStates (GameState.data s)) 0 = Ok pac ->
      nth_error (Store.configs h) (AgentState.configuration pac) = Some conf ->
      let v := Actions.directionToVector action PacmanRules.PACMAN_SPEED in
      let next := (fst (Configuration.pos conf) + fst v,
                   snd (Configuration.pos conf) + snd v)%Q in
      let nearest := Util.nearestPoint next in
      let scare :=
        Qle_bool (Util.manhattanDistance (Util.point nearest) next) (1 # 2)
        && PacmanRules.memPos nearest (capsules (GameState.data s)) in
      let won := _win (GameState.data s') in
      score (GameState.data s')
      = score (GameState.data s) - TIME_PENALTY
        + (match _foodEaten (GameState.data s') with
           | Some _ => 10
           | None => 0
           end)
        + (if won then 500 else 0)
        + sum (map (payoffOf next scare won h) (GameState.getGhostStates s))
      /\ forall i g c,
           0 < i -> index (agentStates (GameState.data s)) i = Ok g ->
           nth_error (Store.configs h) (AgentState.configuration g) = Some c ->
           (Util.manhattanDistance (Configuration.pos c) next
            <= COLLISION_TOLERANCE)%Q ->
           let t := if scare then SCARED_TIME else AgentState.scaredTimer g in
           (0 < t ->
            payoffOf next scare won h g = 200
            /\ exists g',
                 index (agentStates (GameState.data s')) i = Ok g'
                 /\ AgentState.configuration g' = AgentState.start g
                 /\ AgentState.scaredTimer g' = 0)
           /\ (t <= 0 -> won = false ->
               payoffOf next scare won h g = -500
               /\ _lose (GameState.data s') = true))
  /\ (forall (s s' : GameState.t) (agentIndex : Z) (action : Directions.t)
             (h h' : Store.t) (g pacman : AgentState.t)
             (conf pconf : Configuration.t),
        generateSuccessor s agentIndex action h = Ok (s', h') ->
        0 < agentIndex ->
        index (agentStates (GameState.data s)) agentIndex = Ok g ->
        nth_error (Store.configs h) (AgentState.configuration g) = Some conf ->
        index (agentStates (GameState.data s)) 0 = Ok pacman ->
        nth_error (Store.configs h) (AgentState.configuration pacman)
        = Some pconf ->
        let t := AgentState.scaredTimer g in
        let t1 := Z.max 0 (t - 1) in
        let v := Actions.directionToVector action
                   (if t >? 0 then (GhostRules.GHOST_SPEED / 2)%Q
                    else GhostRules.GHOST_SPEED) in
        let moved := (fst (Configuration.pos conf) + fst v,
                      snd (Configuration.pos conf) + snd v)%Q in
        let p1 := if t =? 1 then Util.point (Util.nearestPoint moved)
                  else moved in
        (Util.manhattanDistance p1 (Configuration.pos pconf)
         <= COLLISION_TOLERANCE)%Q ->
        exists g',
          index (agentStates (GameState.data s')) agentIndex = Ok g'
          /\ (0 < t1 ->
              score (GameState.data s') = score (GameState.data s) + 200
              /\ AgentState.configuration g' = AgentState.start g
              /\ AgentState.scaredTimer g' = 0)
          /\ (t1 = 0 ->
              score (GameState.data s') = score (GameState.data s) - 500
              /\ _lose (GameState.data s') = true)).
Proof.
  split.
  - intros s s' action h h' pac conf H Hwf Hpac Hconf v next nearest scare won.
    destruct (pacman_turn_checks _ _ _ _ _ _ _ H Hpac Hconf)
      as (st2 & h1 & st3 & conf' & Hc & Hs' & Hcf1 & Hlen & Hagk & Hsc & Hlo
          & Hch).
    fold v in Hc, Hagk. fold next in Hc, Hagk. fold nearest in Hagk.
    fold scare in Hagk.
    apply check_loop_payoff in Hc;
      [|apply range2_props|intros i Hi; apply in_range2 in Hi; lia].
    cbv zeta in Hc.
    destruct Hc as (Hw3 & Hsc3 & Hfe3 & Hcf3 & _ & Hch3 & Hag3).
    assert (Hwon : won = _win (GameState.data st2))
      by (subst won s'; exact Hw3).
    (* a pursuer's configuration is the same object before and after *)
    assert (Hsame : forall g c,
              nth_error (Store.configs h) (AgentState.configuration g)
              = Some c ->
              nth_error (Store.configs h1) (AgentState.configuration g)
              = Some c).
    { intros g c Hg. rewrite Hcf1, nth_error_snoc_old; [assumption|].
      apply nth_error_Some. congruence. }
    set (timed := fun a : AgentState.t =>
                    if scare then AgentState.with_scaredTimer a SCARED_TIME
                    else a) in *.
    assert (Hpay : forall g,
              In g (agentStates (GameState.data s)) ->
              payoffOf next false (_win (GameState.data st2)) h1 (timed g)
              = payoffOf next scare won h g).
    { intros g Hg. destruct (Hwf g Hg) as (c & Hcg).
      unfold payoffOf.
      replace (AgentState.configuration (timed g))
        with (AgentState.configuration g)
        by (subst timed; cbv beta; destruct scare; reflexivity).
      rewrite (Hsame g c Hcg), Hcg, Hwon.
      subst timed. cbv beta. destruct scare; reflexivity. }
    (* the loop over the indices is a loop over the pursuers *)
    assert (Hmap :
      map (fun i =>
             match nth_error (agentStates (GameState.data st2))
                             (Z.to_nat i) with
             | Some g => payoffOf next false (_win (GameState.data st2)) h1 g
             | None => 0
             end)
          (range2 1 (len (agentStates (GameState.data st2))))
      = map (payoffOf next scare won h) (GameState.getGhostStates s)).
    { etransitivity;
        [|exact (map_pursuers
                   (fun o => match o with
                             | Some g => payoffOf next scare won h g
                             | None => 0
                             end)
                   (agentStates (GameState.data s)))].
      unfold len. rewrite Hlen.
      apply map_ext_in. intros i Hi. apply in_range2 in Hi.
      rewrite Hagk by lia.
      destruct (nth_error (agentStates (GameState.data s)) (Z.to_nat i))
        as [g|] eqn:Eg; cbn [option_map]; [|reflexivity].
      apply Hpay. eapply nth_error_In; eauto. }
    rewrite Hmap in Hch3. clear Hmap.
    split.
    + rewrite Hwon. subst s'. unfold finish.
      cbn [GameState.data GameState.upd score scoreChange _foodEaten _win
           set_score set__agentMoved].
      rewrite Hsc3, Hch3, Hfe3, Hsc, Hch, Hwon. unfold TIME_PENALTY. lia.
    + intros i g c Hi Hg Hcg Hd t.
      apply index_ok in Hg. destruct Hg as (k & Hk & Hg).
      assert (Hkl : (k < length (agentStates (GameState.data s)))%nat)
        by (eapply slot_lt; eauto).
      apply slot_nonneg in Hk; [|lia]. subst k.
      assert (Hg2 : nth_error (agentStates (GameState.data st2)) (Z.to_nat i)
                    = Some (timed g))
        by (rewrite Hagk by lia; rewrite Hg; reflexivity).
      assert (Hin : In (Z.of_nat (Z.to_nat i))
                       (range2 1 (len (agentStates (GameState.data st2)))))
        by (apply in_range2; unfold len; lia).
      destruct (Hag3 _ _ Hg2 Hin) as (c2 & Hc2 & Hr & Hl).
      assert (Hcfg : AgentState.configuration (timed g)
                     = AgentState.configuration g)
        by (subst timed; cbv beta; destruct scare; reflexivity).
      rewrite Hcfg, (Hsame g c Hcg) in Hc2. injection Hc2 as <-.
      assert (Hkill : GhostRules.canKill next (Configuration.pos c) = true)
        by (apply Qle_bool_iff; exact Hd).
      assert (Ht : AgentState.scaredTimer (timed g) = t)
        by (subst timed t; cbv beta; destruct scare; reflexivity).
      rewrite Hkill, Ht in Hr, Hl. cbn [andb] in Hr.
      split.
      * intros Hpos. split.
        -- unfold payoffOf, payoff. rewrite Hcg, Hkill. fold t.
           destruct (Z.gtb_spec t 0); [reflexivity|lia].
        -- destruct (Z.gtb_spec t 0); [|lia].
           exists (AgentState.with_scaredTimer
                     (GhostRules.placeGhost (timed g)) 0).
           split; [|split].
           ++ subst s'. unfold finish.
              cbn [GameState.data GameState.upd agentStates set_score
                   set__agentMoved].
              apply (index_slot _ _ (Z.to_nat i)); [|exact Hr].
              apply slot_in_range.
              assert (Z.to_nat i
                      < length (agentStates (GameState.data st3)))%nat
                by (apply nth_error_Some; congruence).
              lia.
           ++ subst timed. cbv beta. destruct scare; reflexivity.
           ++ reflexivity.
      * intros Hneg Hnw. split.
        -- unfold payoffOf, payoff. rewrite Hcg, Hkill, Hnw. fold t.
           destruct (Z.gtb_spec t 0); [lia|reflexivity].
        -- subst s'. unfold finish.
           cbn [GameState.data GameState.upd _lose set_score set__agentMoved].
           apply Hl; [reflexivity|assumption|congruence].
  - intros s s' agentIndex action h h' g pacman conf pconf H Hi Hg Hconf
           Hpac Hpconf.
    exact (ghost_turn_payoff _ _ _ _ _ _ _ _ _ _ H Hi Hg Hconf Hpac Hpconf).
Qed.

(** The counterexample's move and the fourth scenario, in the corridor.
    Pacman stays at (1,1) next to a scared pursuer at (1.5,1), from score 0:
    the pursuer goes back to its start with timer 0 and the score is
    200 - 1.  A pursuer with timer 0 at (2,1) steps west onto Pacman, from
    score 0: the successor's score is -500 and the game is lost. *)
Lemma collision_payoff_witness :
  (exists s' h' g',
     generateSuccessor (Scenario.state 5) 0 Directions.STOP
       (Scenario.store (1, 1)%Q (3 # 2, 1)%Q Directions.WEST) = Ok (s', h')
     /\ score (GameState.data s') = 200 - 1
     /\ index (agentStates (GameState.data s')) 1 = Ok g'
     /\ AgentState.configuration g' = AgentState.start (Scenario.ghost 5)
     /\ AgentState.scaredTimer g' = 0)
  /\ (exists s' h',
        generateSuccessor (Scenario.state 0) 1 Directions.WEST
          (Scenario.store (1, 1)%Q (2, 1)%Q Directions.STOP) = Ok (s', h')
        /\ score (GameState.data s') = -500
        /\ _lose (GameState.data s') = true).
Proof.
  split.
  - assert (E : exists s' h',
               generateSuccessor (Scenario.state 5) 0 Directions.STOP
                 (Scenario.store (1, 1)%Q (3 # 2, 1)%Q Directions.WEST)
               = Ok (s', h')
               /\ _foodEaten (GameState.data s') = None
               /\ _win (GameState.data s') = false).
    { eexists _, _. repeat split; vm_compute; reflexivity. }
    destruct E as (s' & h' & E & Hfe & Hw).
    assert (Hwf : forall a,
              In a (agentStates (GameState.data (Scenario.state 5))) ->
              exists c,
                nth_error
                  (Store.configs
                     (Scenario.store (1, 1)%Q (3 # 2, 1)%Q Directions.WEST))
                  (AgentState.configuration a) = Some c).
    { intros a [<-|[<-|[]]]; eexists; reflexivity. }
    pose proof (proj1 collision_payoff (Scenario.state 5) s' Directions.STOP
                  (Scenario.store (1, 1)%Q (3 # 2, 1)%Q Directions.WEST) h'
                  Scenario.pacman (Configuration.Make (1, 1)%Q Directions.STOP)
                  E Hwf eq_refl eq_refl) as P.
    cbv zeta in P. destruct P as [Hscore Hper].
    assert (Hd : (Util.manhattanDistance (3 # 2, 1)%Q
                    (1 + 0 * 1, 1 + 0 * 1)%Q <= COLLISION_TOLERANCE)%Q)
      by (apply Qle_bool_iff; reflexivity).
    destruct (Hper 1 (Scenario.ghost 5)
                (Configuration.Make (3 # 2, 1)%Q Directions.WEST)
                ltac:(reflexivity) eq_refl eq_refl Hd) as [Hscared _].
    destruct (Hscared ltac:(reflexivity)) as (Hp & g' & Hg' & Hcfg & Ht).
    exists s', h', g'. split; [exact E|].
    split; [|auto].
    rewrite Hscore, Hfe, Hw.
    change (GameState.getGhostStates (Scenario.state 5))
      with [Scenario.ghost 5].
    cbn [map sum fold_right]. rewrite Hw in Hp. rewrite Hp. reflexivity.
  - assert (E : exists s' h',
               generateSuccessor (Scenario.state 0) 1 Directions.WEST
                 (Scenario.store (1, 1)%Q (2, 1)%Q Directions.STOP)
               = Ok (s', h')).
    { eexists _, _. vm_compute. reflexivity. }
    destruct E as (s' & h' & E). exists s', h'. split; [exact E|].
    assert (Hi : 0 < 1) by reflexivity.
    assert (Hd : (Util.manhattanDistance (2 + -1 * 1, 1 + 0 * 1)%Q (1, 1)%Q
                  <= COLLISION_TOLERANCE)%Q)
      by (apply Qle_bool_iff; reflexivity).
    destruct (proj2 collision_payoff (Scenario.state 0) s' 1 Directions.WEST
                (Scenario.store (1, 1)%Q (2, 1)%Q Directions.STOP) h'
                (Scenario.ghost 0) Scenario.pacman
                (Configuration.Make (2, 1)%Q Directions.STOP)
                (Configuration.Make (1, 1)%Q Directions.STOP)
                E Hi eq_refl eq_refl eq_refl eq_refl Hd)
      as (g' & _ & _ & Hlose).
    exact (Hlose eq_refl).
Defined.
